(** * get_zappi_history: the day and month report of a myenergi Zappi

    A shallow embedding of [get_zappi_history.py]: the per-record
    normalisation and the table construction of [load_day], and the
    dispatch of [main] between the JSON, month and single-day modes.

    Python integers are [Z], Python floats are the binary64 numbers of
    [PrimFloat], a raw record (a [dict] decoded from the JSON answer of the
    server) is a finite map from field names to integers, and exceptions are
    the left summand of a sum type.  Printing and the calls to the server are
    recorded, in order, in a trace. *)

From Stdlib Require Import ZArith List Floats Lia.
From stdpp Require Import base option list gmap strings pretty.

Open Scope Z_scope.

(** ** Exceptions *)

Inductive exn :=
| KeyError (k : string)
| ZeroDivisionError
| OverflowError
| ValueError
| TypeError
| IndexError
| UnboundLocalError.

Definition result (A : Type) : Type := exn + A.

Definition OK {A} (a : A) : result A := inr a.
Definition Raise {A} (e : exn) : result A := inl e.

#[global] Instance result_ret : MRet result := fun A a => inr a.
#[global] Instance result_bind : MBind result := fun A B f m =>
  match m with
  | inl e => inl e
  | inr a => f a
  end.

#[global] Instance result_fmap : FMap result := fun A B f m =>
  match m with
  | inl e => inl e
  | inr a => inr (f a)
  end.

(** ** Python numbers *)

Module Py.

(** A number is an [int] or a [float]. *)
Inductive num :=
| NInt (z : Z)
| NFloat (f : float).

Definition sf_of_Z (z : Z) : spec_float :=
  match z with
  | Z0 => S754_zero false
  | Zpos p => S754_finite false p 0
  | Zneg p => S754_finite true p 0
  end.

(** [float(z)]: the nearest binary64 number, ties to even; an integer too
    large for a float raises [OverflowError]. *)
Definition float_of_int (z : Z) : result float :=
  match binary_normalize prec emax z 0 false with
  | S754_infinity _ => Raise OverflowError
  | sf => OK (SF2Prim sf)
  end.

(** The same conversion without the exception: it saturates to infinity. *)
Definition Z2float (z : Z) : float :=
  SF2Prim (binary_normalize prec emax z 0 false).

(** [a / b] on two integers: the correctly rounded quotient. *)
Definition int_truediv (a b : Z) : result float :=
  if b =? 0 then Raise ZeroDivisionError
  else match SFdiv prec emax (sf_of_Z a) (sf_of_Z b) with
       | S754_infinity _ => Raise OverflowError
       | sf => OK (SF2Prim sf)
       end.

(** [x / y] on two floats: IEEE division, except that a zero divisor
    raises. *)
Definition float_truediv (x y : float) : result float :=
  if PrimFloat.eqb y 0%float then Raise ZeroDivisionError
  else OK (x / y)%float.

Definition to_float (a : num) : result float :=
  match a with
  | NInt z => float_of_int z
  | NFloat f => OK f
  end.

(** [a / b] *)
Definition truediv (a b : num) : result num :=
  match a, b with
  | NInt x, NInt y => f ← int_truediv x y; OK (NFloat f)
  | _, _ => x ← to_float a; y ← to_float b;
            f ← float_truediv x y; OK (NFloat f)
  end.

(** [a * b] *)
Definition mul (a b : num) : result num :=
  match a, b with
  | NInt x, NInt y => OK (NInt (x * y))
  | _, _ => x ← to_float a; y ← to_float b; OK (NFloat (x * y)%float)
  end.

(** [int(a)]: truncation toward zero; [int] of an infinity raises
    [OverflowError], of a NaN [ValueError]. *)
Definition trunc_float (f : float) : result Z :=
  match Prim2SF f with
  | S754_zero _ => OK 0
  | S754_infinity _ => Raise OverflowError
  | S754_nan => Raise ValueError
  | S754_finite s m e =>
      let a := match e with
               | Z0 => Zpos m
               | Zpos _ => Z.shiftl (Zpos m) e
               | Zneg _ => Z.shiftr (Zpos m) (- e)
               end in
      OK (if s then - a else a)
  end.

Definition int (a : num) : result Z :=
  match a with
  | NInt z => OK z
  | NFloat f => trunc_float f
  end.

(** [a == b] on two numbers of the same kind. *)
Definition eqb (a b : num) : bool :=
  match a, b with
  | NInt x, NInt y => x =? y
  | NFloat x, NFloat y => PrimFloat.eqb x y
  | NInt x, NFloat y => PrimFloat.eqb (Z2float x) y
  | NFloat x, NInt y => PrimFloat.eqb x (Z2float y)
  end.

End Py.

Import Py.

(** ** Cells of a report row *)

(** A row holds strings (the time label, the rendered totals), integers
    (the duration, the displayed watts) and [None]. *)
Inductive cell :=
| CNone
| CStr (s : string)
| CInt (z : Z).

Definition row := list cell.

(** Truth value of a cell, as [not c] sees it. *)
Definition truthy (c : cell) : bool :=
  match c with
  | CNone => false
  | CStr s => negb (String.eqb s "")
  | CInt z => negb (z =? 0)
  end.

(** ['{:02}'.format(z)] *)
Definition fmt02 (z : Z) : string :=
  if (0 <=? z) && (z <? 10) then "0" +:+ pretty z else pretty z.

Definition time_label (hour minute : Z) : string :=
  fmt02 hour +:+ ":" +:+ fmt02 minute.

(** ** The power meter *)

(** Modelled from the spec: the class [PowerMeter] of [mec.power_meter] is
    not part of this file.  Its state is the elapsed-weighted sum and the
    last timestamp; [add_value power timestamp] contributes
    [power * (timestamp - last_timestamp)] to the sum and advances the last
    timestamp; it has no failure mode, so the arithmetic below is total (an
    integer that does not fit a float saturates instead of raising). *)
Module PowerMeter.

Record t := { sum : num; last : Z }.

Definition new : t := {| sum := NInt 0; last := 0 |}.

Definition weighted (power : num) (dt : Z) : num :=
  match power with
  | NInt p => NInt (p * dt)
  | NFloat f => NFloat (f * Z2float dt)%float
  end.

Definition plus (a b : num) : num :=
  match a, b with
  | NInt x, NInt y => NInt (x + y)
  | NInt x, NFloat y => NFloat (Z2float x + y)%float
  | NFloat x, NInt y => NFloat (x + Z2float y)%float
  | NFloat x, NFloat y => NFloat (x + y)%float
  end.

Definition add_value (pm : t) (power : num) (timestamp : Z) : t :=
  {| sum := plus (sum pm) (weighted power (timestamp - last pm));
     last := timestamp |}.

Definition total (pm : t) : num := sum pm.

End PowerMeter.

(** ** Records, days and the server *)

Abbreviation raw_record := (gmap string Z).

(** A field of [Day] is an [int] (from [time.localtime]) or a [str] (a
    command line value). *)
Inductive pyval :=
| VInt (z : Z)
| VStr (s : string).

Record Day := { tm_year : pyval; tm_mon : pyval; tm_mday : pyval }.

(** The sample source: [get_hour_data] and [get_minute_data] of
    [mec.zp.MyEnergiHost], by serial number and day. *)
Record server := {
  get_hour_data : Z → Day → list raw_record;
  get_minute_data : Z → Day → list raw_record;
  zappi_list : list Z }.

(** ** Effects: the global [show_headers] and the trace *)

Inductive event :=
| EGetHour (zid : Z) (day : Day)
| EGetMinute (zid : Z) (day : Day)
| EPrintRec (rec : raw_record)
| EPrintCount (num_records : nat)
| EPrintTable (hdr : option (list string)) (data : list row)
| EPrintDay (dom : Z)
| EPrintJson (jout : gmap Z (gmap string cell)).

Record world := { show_headers : bool; trace : list event }.

Definition M (A : Type) : Type := world → result A * world.

#[global] Instance M_ret : MRet M := fun A a w => (OK a, w).
#[global] Instance M_bind : MBind M := fun A B f m w =>
  match m w with
  | (inl e, w') => (inl e, w')
  | (inr a, w') => f a w'
  end.

Definition lift {A} (r : result A) : M A := fun w => (r, w).

Definition emit (e : event) : M unit := fun w =>
  (OK (), {| show_headers := show_headers w; trace := trace w ++ [e] |}).

Definition get_show_headers : M bool := fun w => (OK (show_headers w), w).

Definition set_show_headers (b : bool) : M unit := fun w =>
  (OK (), {| show_headers := b; trace := trace w |}).

Definition when (b : bool) (m : M unit) : M unit :=
  if b then m else mret ().

(** [for x in l: ...] on the state [a], with the effects of [M]. *)
Fixpoint for_each {A B} (f : A → B → M A) (a : A) (l : list B) : M A :=
  match l with
  | [] => mret a
  | b :: l => a' ← f a b; for_each f a' l
  end.

(** The same loop for a body that only computes. *)
Fixpoint foldM {A B} (f : A → B → result A) (a : A) (l : list B) : result A :=
  match l with
  | [] => OK a
  | b :: l => a' ← f a b; foldM f a' l
  end.

(** ** Dictionary operations *)

(** [d[k]] *)
Definition getitem {V} (d : gmap string V) (k : string) : result V :=
  match d !! k with
  | Some v => OK v
  | None => Raise (KeyError k)
  end.

(** [del d[k]] *)
Definition delitem {V} (d : gmap string V) (k : string) : result (gmap string V) :=
  match d !! k with
  | Some _ => OK (delete k d)
  | None => Raise (KeyError k)
  end.

(** [if k in d: x = d[k]; del d[k]], with [dflt] the value [x] had before. *)
Definition take (k : string) (dflt : Z) (rec : raw_record) : Z * raw_record :=
  match rec !! k with
  | Some v => (v, delete k rec)
  | None => (dflt, rec)
  end.

(** [if canon in rec and sec in rec and rec[canon] == rec[sec]: del rec[sec]] *)
Definition drop_duplicate (canon sec : string) (rec : raw_record) : raw_record :=
  match rec !! canon, rec !! sec with
  | Some a, Some b => if a =? b then delete sec rec else rec
  | _, _ => rec
  end.

(** ** [load_day] *)

Definition FIELD_NAMES : gmap string string :=
  list_to_map [("gep", "Generated");
               ("gen", "Generated Negative");
               ("h1d", "Phase 1 diverted");
               ("h2d", "Phase 2 diverted");
               ("h3d", "Phase 3 diverted");
               ("h1b", "Zappi imported");
               ("imp", "Imported");
               ("exp", "Exported")].

Definition headers : list string :=
  ["imp"; "exp"; "gen"; "gep"; "h1d"; "h2d"; "h3d"; "h1b"].

(** The value of the [totals] argument of [load_day]: the flag of the
    command line, or the totals row [main] has stored in the same variable. *)
Inductive totals_arg :=
| TFlag (b : bool)
| TRow (r : row).

Definition is_true (t : totals_arg) : bool :=
  match t with
  | TFlag b => b
  | TRow [] => false
  | TRow (_ :: _) => true
  end.

(** The first loop: one seeded meter and one table header per key. *)
Definition seed_step (prev_sample_time : Z)
    (st : gmap string PowerMeter.t * list string) (key : string)
    : gmap string PowerMeter.t * list string :=
  let '(pm_totals, table_headers) := st in
  let pm_totals :=
    <[key := PowerMeter.add_value PowerMeter.new (NInt 0) prev_sample_time]> pm_totals in
  match FIELD_NAMES !! key with
  | Some name => (pm_totals, table_headers ++ [name])
  | None => (pm_totals, table_headers ++ [key])
  end.

(** Average watts of a slot from the raw value. *)
Definition watts_of (hourly : bool) (volts : num) (value : Z) : result num :=
  if hourly then truediv (NInt value) (NInt (60 * 60))
  else q ← truediv (NInt value) volts; mul q (NInt 4).

(** The body of [for key in headers] inside the record loop. *)
Definition channel_step (hourly : bool) (volts : num) (sample_time : Z)
    (st : row * raw_record * gmap string PowerMeter.t) (key : string)
    : result (row * raw_record * gmap string PowerMeter.t) :=
  let '(row, rec, pm_totals) := st in
  '(watts, row, rec) ←
    match rec !! key with
    | Some value =>
        watts ← watts_of hourly volts value;
        shown ← int watts;
        OK (watts, row ++ [CInt shown], delete key rec)
    | None => OK (NInt 0, row ++ [CNone], rec)
    end;
  pm ← getitem pm_totals key;
  OK (row, rec, <[key := PowerMeter.add_value pm watts sample_time]> pm_totals).

(** The calendar fields, deleted whether or not they are there. *)
Definition calendar_keys : list string := ["dow"; "yr"; "mon"; "dom"].

(** The slot timestamp of a record, in seconds since midnight. *)
Definition sample_time_of (rec : raw_record) : Z :=
  ((default 0 (rec !! "hr") * 60) + default 0 (rec !! "min")) * 60.

(** The voltage of a record. *)
Definition volts_of (rec : raw_record) : result num :=
  match rec !! "v1" with
  | Some v => truediv (NInt v) (NInt 10)
  | None => OK (NInt 1)
  end.

(** The body of [for rec in res], up to the diagnostic: the row, the slot
    timestamp, the meters, and what is left of the record. *)
Definition record_body (hourly : bool) (prev_sample_time : Z)
    (pm_totals : gmap string PowerMeter.t) (rec : raw_record)
    : result (row * Z * gmap string PowerMeter.t * raw_record) :=
  let rec := drop_duplicate "imp" "nect1" rec in
  let rec := drop_duplicate "exp" "pect1" rec in
  let '(hour, rec) := take "hr" 0 rec in
  let '(minute, rec) := take "min" 0 rec in
  let sample_time := ((hour * 60) + minute) * 60 in
  rec ← foldM delitem rec calendar_keys;
  volts ← volts_of rec;
  let rec := foldl (fun r key => delete key r) rec ["v1"; "frq"] in
  let row := [CStr (time_label hour minute);
              CInt (sample_time - prev_sample_time)] in
  '(row, rec, pm_totals) ←
    foldM (channel_step hourly volts sample_time) (row, rec, pm_totals) headers;
  OK (row, sample_time, pm_totals, rec).

(** The whole body of [for rec in res]. *)
Definition record_step (hourly : bool)
    (st : Z * gmap string PowerMeter.t * list row) (rec : raw_record)
    : M (Z * gmap string PowerMeter.t * list row) :=
  let '(prev_sample_time, pm_totals, data) := st in
  '(row, sample_time, pm_totals, rec) ←
    lift (record_body hourly prev_sample_time pm_totals rec);
  _ ← when (negb (bool_decide (rec = ∅))) (emit (EPrintRec rec));
  mret (sample_time, pm_totals, data ++ [row]).

(** ** The options and the local variables of [main] *)

(** The options [getopt] accepts, with their values. *)
Inductive cli_opt :=
| OptPerMinute
| OptTotals
| OptDay (value : string)
| OptMonth (value : string)
| OptYear (value : string)
| OptShowMonth
| OptJson.

#[global] Instance cli_opt_eq_dec : EqDecision cli_opt.
Proof. solve_decision. Defined.

(** [month_headers] is the local [headers], unbound until a month loop has
    run its body. *)
Record locals := {
  hourly : bool;
  totals : totals_arg;
  use_json : bool;
  day : Day;
  show_month : bool;
  month_headers : option (list string);
  jout : gmap Z (gmap string cell) }.

Definition init_locals (today : Day) : locals :=
  {| hourly := true; totals := TFlag false; use_json := false;
     day := today; show_month := false; month_headers := None; jout := ∅ |}.

Definition set_hourly (b : bool) (l : locals) : locals :=
  {| hourly := b; totals := totals l; use_json := use_json l; day := day l;
     show_month := show_month l; month_headers := month_headers l;
     jout := jout l |}.

Definition set_totals (t : totals_arg) (l : locals) : locals :=
  {| hourly := hourly l; totals := t; use_json := use_json l; day := day l;
     show_month := show_month l; month_headers := month_headers l;
     jout := jout l |}.

Definition set_use_json (b : bool) (l : locals) : locals :=
  {| hourly := hourly l; totals := totals l; use_json := b; day := day l;
     show_month := show_month l; month_headers := month_headers l;
     jout := jout l |}.

Definition set_day (d : Day) (l : locals) : locals :=
  {| hourly := hourly l; totals := totals l; use_json := use_json l; day := d;
     show_month := show_month l; month_headers := month_headers l;
     jout := jout l |}.

Definition set_show_month (b : bool) (l : locals) : locals :=
  {| hourly := hourly l; totals := totals l; use_json := use_json l;
     day := day l; show_month := b; month_headers := month_headers l;
     jout := jout l |}.

Definition set_month_headers (h : option (list string)) (l : locals) : locals :=
  {| hourly := hourly l; totals := totals l; use_json := use_json l;
     day := day l; show_month := show_month l; month_headers := h;
     jout := jout l |}.

Definition set_jout (j : gmap Z (gmap string cell)) (l : locals) : locals :=
  {| hourly := hourly l; totals := totals l; use_json := use_json l;
     day := day l; show_month := show_month l;
     month_headers := month_headers l; jout := j |}.

(** The body of [for opt, value in opts]. *)
Definition opt_step (l : locals) (o : cli_opt) : locals :=
  match o with
  | OptPerMinute => set_hourly false l
  | OptTotals => set_totals (TFlag true) l
  | OptDay value =>
      set_day {| tm_year := tm_year (day l); tm_mon := tm_mon (day l);
                 tm_mday := VStr value |} l
  | OptMonth value =>
      set_day {| tm_year := tm_year (day l); tm_mon := VStr value;
                 tm_mday := tm_mday (day l) |} l
  | OptYear value =>
      set_day {| tm_year := VStr value; tm_mon := tm_mon (day l);
                 tm_mday := tm_mday (day l) |} l
  | OptShowMonth => set_show_month true l
  | OptJson => set_use_json true l
  end.

(** The table is printed with its headers once per device. *)
Definition print_table (table_headers : list string) (data : list row) : M unit :=
  sh ← get_show_headers;
  if (sh : bool)
  then _ ← emit (EPrintTable (Some table_headers) data); set_show_headers false
  else emit (EPrintTable None data).

Section Report.

(** [str] of a power meter renders its total; the rendering belongs to
    [mec.power_meter] and is a parameter here. *)
Variable render_total : num → string.

Definition totals_step (pm_totals : gmap string PowerMeter.t)
    (row : row) (key : string) : result (list cell) :=
  pm ← getitem pm_totals key;
  OK (row ++ [CStr (render_total (PowerMeter.total pm))]).

Definition load_day (conn : server) (zid : Z) (day : Day)
    (hourly : bool) (totals : totals_arg) (use_json : bool)
    : M (list string * list row * row) :=
  res ← (if hourly
         then _ ← emit (EGetHour zid day); mret (get_hour_data conn zid day)
         else _ ← emit (EGetMinute zid day); mret (get_minute_data conn zid day));
  let prev_sample_time := if hourly then - (60 * 60) else - 60 in
  let '(pm_totals, table_headers) :=
    foldl (seed_step prev_sample_time)
          ((∅ : gmap string PowerMeter.t), ["Time"; "Duration"]) headers in
  '(_, pm_totals, data) ←
    for_each (record_step hourly) (prev_sample_time, pm_totals, []) res;
  let num_records := length data in
  _ ← when (negb use_json) (emit (EPrintCount num_records));
  let data := if is_true totals then [] else data in
  row ← lift (foldM (totals_step pm_totals) [CStr "Totals"; CNone] headers);
  let data := data ++ [row] in
  _ ← when (negb use_json) (print_table table_headers data);
  mret (table_headers, data, row).

(** *** [main] *)

(** The [if use_json] loop over the headers: a falsy total and the [Time]
    column are popped and skipped, any other total is popped into [raw]. *)
Fixpoint json_loop (header : list string) (totals : row)
    (raw : gmap string cell) : result (row * gmap string cell) :=
  match header with
  | [] => OK (totals, raw)
  | head :: header =>
      match totals with
      | [] => Raise IndexError
      | t0 :: totals =>
          if negb (truthy t0) || String.eqb head "Time"
          then json_loop header totals raw
          else json_loop header totals (<[head := t0]> raw)
      end
  end.

(** The body of [for dom in range(1, day.tm_mday + 1)]. *)
Definition month_step (conn : server) (zid : Z) (hourly use_json : bool)
    (st : Day * totals_arg * option (list string) * list row) (dom : Z)
    : M (Day * totals_arg * option (list string) * list row) :=
  let '(day, totals, _, all_data) := st in
  _ ← emit (EPrintDay dom);
  let day := {| tm_year := tm_year day; tm_mon := tm_mon day;
                tm_mday := VInt dom |} in
  '(hdrs, _, row) ← load_day conn zid day hourly totals use_json;
  mret (day, TRow row, Some hdrs, all_data ++ [row]).

(** The body of [for zappi in server_conn.state.zappi_list()]. *)
Definition device_body (conn : server) (l : locals) (sno : Z) : M locals :=
  _ ← set_show_headers true;
  if use_json l then
    '(header, _, totals) ← load_day conn sno (day l) true (TFlag true) true;
    '(totals, raw) ← lift (json_loop header totals ∅);
    mret (set_jout (<[sno := raw]> (jout l)) (set_totals (TRow totals) l))
  else if show_month l then
    stop ← lift (match tm_mday (day l) with
                 | VInt d => OK (d + 1)
                 | VStr _ => Raise TypeError
                 end);
    '(day, totals, hdrs, all_data) ←
      for_each (month_step conn sno (hourly l) (use_json l))
               (day l, totals l, month_headers l, []) (seqZ 1 (stop - 1));
    hdrs ← lift (match hdrs with
                 | Some h => OK h
                 | None => Raise UnboundLocalError
                 end);
    _ ← emit (EPrintTable (Some hdrs) all_data);
    mret (set_month_headers (Some hdrs) (set_totals totals (set_day day l)))
  else
    _ ← load_day conn sno (day l) (hourly l) (totals l) (use_json l);
    mret l.

(** [main], from the parsed options on; [today] is [time.localtime()]. *)
Definition main (conn : server) (today : Day) (opts : list cli_opt) : M unit :=
  let l := foldl opt_step (init_locals today) opts in
  l ← for_each (device_body conn) l (zappi_list conn);
  when (use_json l) (emit (EPrintJson (jout l))).

End Report.

(** ** What a record contributes, field by field *)

(** The watts a record gives the meter of [key]. *)
Definition slot_watts (hourly : bool) (volts : num) (rec : raw_record)
    (key : string) : result num :=
  match rec !! key with
  | Some value => watts_of hourly volts value
  | None => OK (NInt 0)
  end.

(** The cell a record gives the column of [key]. *)
Definition slot_cell (hourly : bool) (volts : num) (rec : raw_record)
    (key : string) : result cell :=
  match rec !! key with
  | Some value =>
      watts ← watts_of hourly volts value; shown ← int watts; OK (CInt shown)
  | None => OK CNone
  end.

(** [sec] repeats the value of [canon]. *)
Definition duplicates (canon sec : string) (rec : raw_record) : bool :=
  match rec !! canon, rec !! sec with
  | Some a, Some b => a =? b
  | _, _ => false
  end.

(** The field names the record loop knows. *)
Definition recognised : list string :=
  ["nect1"; "pect1"; "hr"; "min"] ++ calendar_keys ++ ["v1"; "frq"] ++ headers.

(** The fields the record loop removes from a record. *)
Definition consumed (rec : raw_record) (k : string) : bool :=
  bool_decide (k ∈ ["hr"; "min"] ++ calendar_keys ++ ["v1"; "frq"] ++ headers)
  || (String.eqb k "nect1" && duplicates "imp" "nect1" rec)
  || (String.eqb k "pect1" && duplicates "exp" "pect1" rec).

(** The fields whose value the record loop reads. *)
Definition read_keys : list string :=
  ["hr"; "min"] ++ calendar_keys ++ ["v1"; "frq"] ++ headers.

(** The row, the timestamp and the meters of a record, without what is left
    of it. *)
Definition outcome
    (r : result (row * Z * gmap string PowerMeter.t * raw_record))
    : result (row * Z * gmap string PowerMeter.t) :=
  (fun x => x.1) <$> r.

(** A record restricted to the recognised fields. *)
Definition known (rec : raw_record) : raw_record :=
  filter (fun kv => kv.1 ∈ recognised) rec.

(** The record once the duplicates, the time and the calendar fields are
    gone, where the voltage is read. *)
Definition without_calendar (rec : raw_record) : raw_record :=
  foldl (fun r key => delete key r)
    (delete "min" (delete "hr"
       (drop_duplicate "exp" "pect1" (drop_duplicate "imp" "nect1" rec))))
    calendar_keys.

(** The record as the channel loop receives it. *)
Definition stripped (rec : raw_record) : raw_record :=
  foldl (fun r key => delete key r) (without_calendar rec) ["v1"; "frq"].

(** The record as the diagnostic sees it. *)
Definition leftover (rec : raw_record) : raw_record :=
  foldl (fun r key => delete key r) (stripped rec) headers.

(** The meters and the table headers the first loop of [load_day] builds. *)
Definition seeded (prev_sample_time : Z) : gmap string PowerMeter.t :=
  (foldl (seed_step prev_sample_time)
     ((∅ : gmap string PowerMeter.t), ["Time"; "Duration"]) headers).1.

Definition table_headers : list string :=
  (foldl (seed_step 0)
     ((∅ : gmap string PowerMeter.t), ["Time"; "Duration"]) headers).2.

(** The synthetic timestamp the meters are seeded with. *)
Definition seed_time (hourly : bool) : Z :=
  if hourly then - (60 * 60) else - 60.

(** The call [load_day] makes to the server, and its answer. *)
Definition fetch_event (hourly : bool) (zid : Z) (day : Day) : event :=
  if hourly then EGetHour zid day else EGetMinute zid day.

Definition samples (conn : server) (hourly : bool) (zid : Z) (day : Day)
    : list raw_record :=
  if hourly then get_hour_data conn zid day else get_minute_data conn zid day.

(** The watts of a record for [key], from the record alone. *)
Definition slot_reading (hourly : bool) (rec : raw_record) (key : string)
    : result num :=
  volts ← volts_of rec; slot_watts hourly volts rec key.

(** The meter of [key] after the records [res]: every record adds its
    un-truncated watts at its slot timestamp. *)
Definition meter_after (hourly : bool) (key : string) (res : list raw_record)
    (pm : PowerMeter.t) : result PowerMeter.t :=
  foldM (fun pm rec =>
           watts ← slot_reading hourly rec key;
           OK (PowerMeter.add_value pm watts (sample_time_of rec))) pm res.

(** The diagnostics of the records [res]: what is left of each record, when
    something is left. *)
Definition diagnostics (res : list raw_record) : list event :=
  omap (fun rec => if bool_decide (leftover rec = ∅) then None
                   else Some (EPrintRec (leftover rec))) res.

(** The calls to the server among the events. *)
Definition is_fetch (e : event) : bool :=
  match e with
  | EGetHour _ _ | EGetMinute _ _ => true
  | _ => false
  end.

(** [m] only adds events that satisfy [P] to the trace, whether it returns
    or raises. *)
Definition emits {A} (P : event → Prop) (m : M A) : Prop :=
  ∀ w r w', m w = (r, w') → ∃ evs, trace w' = trace w ++ evs ∧ Forall P evs.

(** [day] with its [tm_mday] set to the integer [dom]. *)
Definition with_mday (day : Day) (dom : Z) : Day :=
  {| tm_year := tm_year day; tm_mon := tm_mon day; tm_mday := VInt dom |}.

(** ** Readings of the specification *)

(** A cell shows a number when it holds an integer equal to it. *)
Definition shows (c : cell) (watts : num) : Prop :=
  match c with
  | CInt z => Py.eqb (NInt z) watts = true
  | _ => False
  end.

(** "The row value is the average watts": for every channel of the record,
    the cell of its column shows the watts of the slot. *)
Definition row_value_is_watts (hourly : bool) (prev_sample_time : Z)
    (pm_totals : gmap string PowerMeter.t) (rec : raw_record) : Prop :=
  ∀ rw st pm' rest (i : nat) key value,
    record_body hourly prev_sample_time pm_totals rec = OK (rw, st, pm', rest) →
    headers !! i = Some key → rec !! key = Some value →
    ∃ volts watts c,
      volts_of rec = OK volts ∧ watts_of hourly volts value = OK watts ∧
      rw !! (2 + i)%nat = Some c ∧ shows c watts.

(** "[--day] together with [--show-month] raises a [TypeError]". *)
Definition day_with_show_month_raises (render_total : num → string)
    (conn : server) (today : Day) (opts : list cli_opt) : Prop :=
  (∃ value, OptDay value ∈ opts) → OptShowMonth ∈ opts →
  ∀ w, (main render_total conn today opts w).1 = Raise TypeError.

(** ** Sample inputs *)

(** An hourly record at midnight with 1800 Ws imported: half a watt. *)
Definition half_watt_record : raw_record :=
  list_to_map [("dow", 1); ("yr", 2024); ("mon", 5); ("dom", 3);
               ("hr", 0); ("min", 0); ("imp", 1800)].

(** A per-minute record at 00:01, 240 V, with 100 imported: 1.67 W. *)
Definition minute_record : raw_record :=
  list_to_map [("dow", 1); ("yr", 2024); ("mon", 5); ("dom", 3);
               ("min", 1); ("v1", 2400); ("frq", 5000); ("imp", 100)].

(** The hourly record with an unknown field. *)
Definition drifted_record : raw_record := <["zzz" := 5]> half_watt_record.

(** The hourly record with a secondary field that repeats [imp]. *)
Definition duplicate_record : raw_record := <["nect1" := 1800]> half_watt_record.

(** A rendering of totals, for the examples: the integer part and a unit. *)
Definition sample_render (n : num) : string :=
  match int n with
  | inr z => pretty z +:+ " Ws"
  | inl _ => "nan"
  end.

Definition today : Day :=
  {| tm_year := VInt 2024; tm_mon := VInt 5; tm_mday := VInt 3 |}.

Definition start : world := {| show_headers := true; trace := [] |}.

(** A server with one Zappi and no record at all. *)
Definition silent_server : server :=
  {| get_hour_data := fun _ _ => [];
     get_minute_data := fun _ _ => [];
     zappi_list := [10000001] |}.

(** A server with one Zappi and one record per day. *)
Definition sample_server : server :=
  {| get_hour_data := fun _ _ => [half_watt_record];
     get_minute_data := fun _ _ => [minute_record];
     zappi_list := [10000001] |}.

(** ** The trace and the table of a day *)

(** The tables among the events. *)
Definition is_table (e : event) : bool :=
  match e with
  | EPrintTable _ _ => true
  | _ => false
  end.

(** The durations of the records of a day: the slot timestamp of each record
    minus the one of the record before, [prev] for the first. *)
Fixpoint slot_durations (prev : Z) (res : list raw_record) : list Z :=
  match res with
  | [] => []
  | rec :: res => (sample_time_of rec - prev) :: slot_durations (sample_time_of rec) res
  end.

(** The slot timestamp of the last record, [prev] when there is none. *)
Definition last_time (prev : Z) (res : list raw_record) : Z :=
  default prev (last (sample_time_of <$> res)).

(** What a [load_day] that returns adds to the trace: the call to the
    server, the diagnostics and, outside JSON mode, the count and the table. *)
Definition day_events (conn : server) (zid : Z) (day : Day)
    (hourly use_json with_headers : bool) (data : list row) : list event :=
  fetch_event hourly zid day ::
  diagnostics (samples conn hourly zid day) ++
  (if use_json then []
   else [EPrintCount (length (samples conn hourly zid day));
         EPrintTable (if with_headers then Some table_headers else None) data]).

(** The exceptions [load_day] can raise. *)
Definition day_error (hourly : bool) (e : exn) : Prop :=
  (∃ k, e = KeyError k ∧ k ∈ calendar_keys) ∨
  (e = ZeroDivisionError ∧ hourly = false) ∨
  e = OverflowError ∨ e = ValueError.

(** What the JSON report of one device adds to the trace. *)
Definition json_device_events (conn : server) (day : Day) (sno : Z) : list event :=
  EGetHour sno day :: diagnostics (get_hour_data conn sno day).

(** The local variables of [main] once the options are read. *)
Definition parsed (today : Day) (opts : list cli_opt) : locals :=
  foldl opt_step (init_locals today) opts.

(** The hourly record without its day of the week. *)
Definition undated_record : raw_record := delete "dow" half_watt_record.

(** The per-minute record with the voltage 0. *)
Definition dead_record : raw_record := <["v1" := 0]> minute_record.

(** Servers for the examples: one whose first record is broken, one with
    two Zappis, one with none, one with an unknown field. *)
Definition broken_server : server :=
  {| get_hour_data := fun _ _ => [undated_record; half_watt_record];
     get_minute_data := fun _ _ => [dead_record];
     zappi_list := [10000001] |}.

Definition two_zappi_server : server :=
  {| get_hour_data := fun _ _ => [half_watt_record];
     get_minute_data := fun _ _ => [minute_record];
     zappi_list := [10000001; 10000002] |}.

Definition no_zappi_server : server :=
  {| get_hour_data := fun _ _ => [half_watt_record];
     get_minute_data := fun _ _ => [minute_record];
     zappi_list := [] |}.

Definition drifted_server : server :=
  {| get_hour_data := fun _ _ => [drifted_record];
     get_minute_data := fun _ _ => [];
     zappi_list := [10000001] |}.

(** The values given to [--day], [--month] and [--year]. *)
Definition day_value (o : cli_opt) : option string :=
  match o with OptDay value => Some value | _ => None end.

Definition month_value (o : cli_opt) : option string :=
  match o with OptMonth value => Some value | _ => None end.

Definition year_value (o : cli_opt) : option string :=
  match o with OptYear value => Some value | _ => None end.

(** A field of the day after the options: the last value given, as a string,
    or the field of today. *)
Definition last_given (dflt : pyval) (values : list string) : pyval :=
  default dflt (VStr <$> last values).

(** The options that only set a flag of the table modes. *)
Definition is_table_flag (o : cli_opt) : bool :=
  match o with
  | OptPerMinute | OptTotals | OptShowMonth => true
  | _ => false
  end.

(** Two states of the variables of [main] that the JSON mode cannot tell
    apart. *)
Definition json_same (l1 l2 : locals) : Prop :=
  use_json l1 = use_json l2 ∧ day l1 = day l2 ∧ jout l1 = jout l2.

(** * Properties *)

(** ** The error monad *)

Lemma bind_OK {A B} (m : result A) (f : A → result B) (b : B) :
  (m ≫= f) = OK b → ∃ a, m = OK a ∧ f a = OK b.
Proof.
  destruct m as [e|a]; cbn; [discriminate|]. intros H. by exists a.
Qed.

Lemma foldM_cons {A B} (f : A → B → result A) (a : A) (b : B) (l : list B) :
  foldM f a (b :: l) = (a' ← f a b; foldM f a' l).
Proof. reflexivity. Qed.

Lemma bind_OK_l {A B} (a : A) (f : A → result B) : (OK a ≫= f) = f a.
Proof. reflexivity. Qed.

Lemma foldM_app {A B} (f : A → B → result A) (a : A) (l1 l2 : list B) :
  foldM f a (l1 ++ l2) = (a' ← foldM f a l1; foldM f a' l2).
Proof.
  revert a. induction l1 as [|b l1 IH]; intros a; cbn; [done|].
  destruct (f a b) as [e|a']; cbn; [done|]. apply IH.
Qed.

Lemma Forall2_impl_elem {A B} (P Q : A → B → Prop) (l : list A) (k : list B) :
  Forall2 P l k → (∀ x y, x ∈ l → P x y → Q x y) → Forall2 Q l k.
Proof.
  induction 1 as [|x y l k HP HF IH]; intros HPQ; constructor.
  - apply HPQ; [by left|done].
  - apply IH. intros x' y' Hx'. apply HPQ. by right.
Qed.

(** ** Dictionary steps, by lookup *)

Lemma drop_duplicate_lookup (canon sec k : string) (rec : raw_record) :
  drop_duplicate canon sec rec !! k =
  if decide (k = sec)
  then match rec !! canon, rec !! sec with
       | Some a, Some b => if a =? b then None else Some b
       | _, _ => rec !! sec
       end
  else rec !! k.
Proof.
  unfold drop_duplicate.
  destruct (rec !! canon) as [a|] eqn:Ha, (rec !! sec) as [b|] eqn:Hb;
    destruct (decide (k = sec)) as [->|Hne]; try done.
  - destruct (a =? b); [by rewrite lookup_delete_eq|done].
  - destruct (a =? b); [by rewrite lookup_delete_ne|done].
Qed.

Lemma take_fst (k : string) (dflt : Z) (rec : raw_record) :
  (take k dflt rec).1 = default dflt (rec !! k).
Proof. unfold take. by destruct (rec !! k). Qed.

Lemma take_snd (k : string) (dflt : Z) (rec : raw_record) :
  (take k dflt rec).2 = delete k rec.
Proof.
  unfold take. destruct (rec !! k) eqn:H; cbn; [done|].
  symmetry. by apply delete_id.
Qed.

Lemma foldl_delete_lookup (keys : list string) (rec : raw_record) (k : string) :
  foldl (fun r key => delete key r) rec keys !! k =
  if decide (k ∈ keys) then None else rec !! k.
Proof.
  revert rec. induction keys as [|key keys IH]; intros rec; cbn.
  - rewrite decide_False; [done|]. by intros ?%elem_of_nil.
  - rewrite IH. destruct (decide (k ∈ keys)) as [Hin|Hnin].
    + rewrite decide_True; [done|]. by right.
    + destruct (decide (k = key)) as [->|Hne].
      * rewrite lookup_delete_eq, decide_True; [done|]. by left.
      * rewrite lookup_delete_ne by done. rewrite decide_False; [done|].
        intros [?|?]%elem_of_cons; done.
Qed.

Lemma delitem_Some {V} (d : gmap string V) (k : string) (v : V) :
  d !! k = Some v → delitem d k = OK (delete k d).
Proof. unfold delitem. by intros ->. Qed.

Lemma getitem_Some {V} (d : gmap string V) (k : string) (v : V) :
  d !! k = Some v → getitem d k = OK v.
Proof. unfold getitem. by intros ->. Qed.

Lemma getitem_OK {V} (d : gmap string V) (k : string) (v : V) :
  getitem d k = OK v → d !! k = Some v.
Proof. unfold getitem. destruct (d !! k); [by intros [= ->]|discriminate]. Qed.

Lemma foldM_delitem_OK (keys : list string) (rec rec' : raw_record) :
  foldM delitem rec keys = OK rec' →
  rec' = foldl (fun r key => delete key r) rec keys.
Proof.
  revert rec. induction keys as [|key keys IH]; intros rec; cbn.
  - by intros [= ->].
  - intros (r1 & H1 & H2)%bind_OK. unfold delitem in H1.
    destruct (rec !! key); [|discriminate]. injection H1 as <-. by apply IH.
Qed.

Lemma foldM_delitem_present (keys : list string) (rec rec' : raw_record) :
  foldM delitem rec keys = OK rec' → ∀ k, k ∈ keys → is_Some (rec !! k).
Proof.
  revert rec. induction keys as [|key keys IH]; intros rec; cbn.
  - intros _ k ?%elem_of_nil. done.
  - intros (r1 & H1 & H2)%bind_OK k Hk. unfold delitem in H1.
    destruct (rec !! key) as [v|] eqn:Hkey; [|discriminate]. injection H1 as <-.
    destruct (decide (k = key)) as [->|Hne]; [by eexists|].
    apply elem_of_cons in Hk as [?|Hk]; [done|].
    destruct (IH _ H2 k Hk) as [x Hx].
    rewrite lookup_delete_ne in Hx by done. by eexists.
Qed.

Lemma foldM_delitem_succeeds (keys : list string) (rec : raw_record) :
  NoDup keys → (∀ k, k ∈ keys → is_Some (rec !! k)) →
  foldM delitem rec keys = OK (foldl (fun r key => delete key r) rec keys).
Proof.
  intros Hnd. revert rec. induction Hnd as [|key keys Hnin Hnd IH]; intros rec Hall.
  - done.
  - destruct (Hall key) as [v Hv]; [by left|].
    rewrite foldM_cons, (delitem_Some _ _ _ Hv), bind_OK_l.
    change (foldl _ rec (key :: keys))
      with (foldl (fun r key => delete key r) (delete key rec) keys).
    apply IH.
    intros k Hk. destruct (Hall k) as [x Hx]; [by right|].
    exists x. rewrite lookup_delete_ne; [done|]. intros ->. done.
Qed.

(** ** The channel loop *)

Lemma headers_NoDup : NoDup headers.
Proof. compute_done. Qed.

Lemma slot_cell_delete (hourly : bool) (volts : num) (rec : raw_record)
    (key k : string) :
  k ≠ key → slot_cell hourly volts (delete key rec) k = slot_cell hourly volts rec k.
Proof. intros H. unfold slot_cell. by rewrite lookup_delete_ne. Qed.

Lemma slot_watts_delete (hourly : bool) (volts : num) (rec : raw_record)
    (key k : string) :
  k ≠ key → slot_watts hourly volts (delete key rec) k = slot_watts hourly volts rec k.
Proof. intros H. unfold slot_watts. by rewrite lookup_delete_ne. Qed.

(** One step: the cell, the watts, the deletion and the meter update. *)
Lemma channel_step_OK (hourly : bool) (volts : num) (sample_time : Z)
    (rw rw' : row) (rec rec' : raw_record)
    (pm pm' : gmap string PowerMeter.t) (key : string) :
  channel_step hourly volts sample_time (rw, rec, pm) key = OK (rw', rec', pm') →
  ∃ c w pm0,
    slot_cell hourly volts rec key = OK c ∧
    slot_watts hourly volts rec key = OK w ∧
    pm !! key = Some pm0 ∧
    rw' = rw ++ [c] ∧ rec' = delete key rec ∧
    pm' = <[key := PowerMeter.add_value pm0 w sample_time]> pm.
Proof.
  unfold channel_step, slot_cell, slot_watts.
  intros ([[w r1] rc1] & H1 & H2)%bind_OK.
  apply bind_OK in H2 as (pm0 & Hpm & H2). apply getitem_OK in Hpm.
  injection H2 as <- <- <-.
  destruct (rec !! key) as [value|] eqn:Hkey.
  - apply bind_OK in H1 as (w' & Hw & H1).
    apply bind_OK in H1 as (shown & Hs & H1). injection H1 as <- <- <-.
    exists (CInt shown), w', pm0. rewrite Hw. cbn. rewrite Hs. done.
  - injection H1 as <- <- <-. exists CNone, (NInt 0), pm0.
    repeat split; try done. symmetry. by apply delete_id.
Qed.

Lemma channel_loop_OK (hourly : bool) (volts : num) (sample_time : Z)
    (keys : list string) :
  NoDup keys →
  ∀ (rw rw' : row) (rec rec' : raw_record) (pm pm' : gmap string PowerMeter.t),
  foldM (channel_step hourly volts sample_time) (rw, rec, pm) keys
    = OK (rw', rec', pm') →
  ∃ cells,
    rw' = rw ++ cells ∧
    Forall2 (fun key c => slot_cell hourly volts rec key = OK c) keys cells ∧
    rec' = foldl (fun r key => delete key r) rec keys ∧
    (∀ key, key ∈ keys → ∃ pm0 w,
        pm !! key = Some pm0 ∧ slot_watts hourly volts rec key = OK w ∧
        pm' !! key = Some (PowerMeter.add_value pm0 w sample_time)) ∧
    (∀ k, k ∉ keys → pm' !! k = pm !! k).
Proof.
  induction 1 as [|key keys Hnin Hnd IH]; intros rw rw' rec rec' pm pm' H.
  - injection H as <- <- <-. exists []. rewrite app_nil_r.
    repeat split; try done. by intros key ?%elem_of_nil.
  - rewrite foldM_cons in H. apply bind_OK in H as ([[r1 rc1] pm1] & H1 & H2).
    apply channel_step_OK in H1 as (c & w & pm0 & Hc & Hw & Hpm & -> & -> & ->).
    apply IH in H2 as (cells & -> & Hcells & -> & Hmeters & Hother).
    exists (c :: cells). split; [by rewrite <- app_assoc|].
    split; [|split; [done|split]].
    + constructor; [done|].
      eapply Forall2_impl_elem; [exact Hcells|].
      intros k c' Hk Hc'. cbn in Hc'.
      rewrite slot_cell_delete in Hc'; [done|]. by intros ->.
    + intros k [->|Hk]%elem_of_cons.
      * exists pm0, w. split; [done|]. split; [done|].
        rewrite Hother by done. by rewrite lookup_insert_eq.
      * assert (k ≠ key) as Hne by (intros ->; done).
        destruct (Hmeters k Hk) as (pm0' & w' & Ha & Hb & Hc').
        exists pm0', w'. rewrite lookup_insert_ne in Ha by done.
        rewrite slot_watts_delete in Hb by done. done.
    + intros k Hk. rewrite Hother.
      * rewrite lookup_insert_ne; [done|]. intros ->. apply Hk. by left.
      * intros ?. apply Hk. by right.
Qed.

(** ** The body of the record loop *)

(** Decides the closed tests [decide ("a" = "b")] and [decide ("a" ∈ l)]
    that a lookup at a literal key leaves behind. *)
Ltac eval_decide :=
  repeat match goal with
    | |- context [decide ?P] =>
        first [ rewrite (decide_True (P := P)) by compute_done
              | rewrite (decide_False (P := P)) by compute_done ]
    end.

(** Turns [k ∈ ["a"; "b"; ...]] into one goal per literal. *)
Ltac split_elem H :=
  repeat (apply elem_of_cons in H as [->|H]); [..|by apply elem_of_nil in H].

Lemma without_calendar_lookup (rec : raw_record) (k : string) :
  without_calendar rec !! k =
  if decide (k ∈ calendar_keys) then None
  else if decide (k = "min") then None
  else if decide (k = "hr") then None
  else drop_duplicate "exp" "pect1" (drop_duplicate "imp" "nect1" rec) !! k.
Proof.
  unfold without_calendar. rewrite foldl_delete_lookup.
  destruct (decide (k ∈ calendar_keys)); [done|].
  rewrite lookup_delete. destruct (decide ("min" = k)) as [<-|?].
  - by rewrite decide_True.
  - rewrite decide_False by done. rewrite lookup_delete.
    destruct (decide ("hr" = k)) as [<-|?].
    + by rewrite decide_True.
    + by rewrite decide_False.
Qed.

Lemma duplicates_exp_after (rec : raw_record) (k : string) :
  drop_duplicate "exp" "pect1" (drop_duplicate "imp" "nect1" rec) !! k =
  if decide (k = "pect1")
  then (if duplicates "exp" "pect1" rec then None else rec !! "pect1")
  else if decide (k = "nect1")
  then (if duplicates "imp" "nect1" rec then None else rec !! "nect1")
  else rec !! k.
Proof.
  rewrite drop_duplicate_lookup. unfold duplicates.
  destruct (decide (k = "pect1")) as [->|Hp].
  - rewrite !drop_duplicate_lookup. eval_decide.
    by destruct (rec !! "exp") as [a|], (rec !! "pect1") as [b|].
  - rewrite drop_duplicate_lookup.
    destruct (decide (k = "nect1")) as [->|Hn]; [|done].
    by destruct (rec !! "imp") as [a|], (rec !! "nect1") as [b|].
Qed.

(** The channel fields and the voltage reach the channel loop untouched. *)
Lemma stripped_header (rec : raw_record) (key : string) :
  key ∈ headers → stripped rec !! key = rec !! key.
Proof.
  intros H. unfold stripped.
  rewrite foldl_delete_lookup, without_calendar_lookup, duplicates_exp_after.
  unfold headers, calendar_keys in *. split_elem H; by eval_decide.
Qed.

Lemma without_calendar_v1 (rec : raw_record) :
  without_calendar rec !! "v1" = rec !! "v1".
Proof.
  rewrite without_calendar_lookup, duplicates_exp_after.
  unfold calendar_keys. by eval_decide.
Qed.

Lemma without_calendar_volts (rec : raw_record) :
  volts_of (without_calendar rec) = volts_of rec.
Proof. unfold volts_of. by rewrite without_calendar_v1. Qed.

(** What the diagnostic sees of a record: the fields that were not consumed. *)
Lemma leftover_lookup (rec : raw_record) (k : string) :
  leftover rec !! k = if consumed rec k then None else rec !! k.
Proof.
  unfold leftover, stripped.
  rewrite !foldl_delete_lookup, without_calendar_lookup, duplicates_exp_after.
  unfold consumed.
  destruct (decide (k ∈ recognised)) as [Hin|Hnin].
  - unfold recognised, calendar_keys, headers in *. cbn in Hin.
    split_elem Hin; eval_decide; cbn;
      try done; by destruct (duplicates _ _ rec).
  - assert (∀ x, x ∈ recognised → k ≠ x) as Hne by (by intros x ? ->).
    rewrite bool_decide_eq_false_2.
    2:{ intros Hk. apply Hnin. unfold recognised. by do 2 right. }
    rewrite !decide_False.
    + destruct (String.eqb_spec k "nect1") as [->|_].
      { exfalso. apply Hnin. compute_done. }
      destruct (String.eqb_spec k "pect1") as [->|_]; [|done].
      exfalso. apply Hnin. compute_done.
    + apply Hne. compute_done.
    + apply Hne. compute_done.
    + apply Hne. compute_done.
    + apply Hne. compute_done.
    + intros Hk. apply Hnin. unfold calendar_keys in Hk.
      split_elem Hk; compute_done.
    + intros Hk. apply Hnin. split_elem Hk; compute_done.
    + intros Hk. apply Hnin. unfold headers in Hk.
      split_elem Hk; compute_done.
Qed.

Lemma time_fields_lookup (rec : raw_record) (k : string) :
  k ≠ "nect1" → k ≠ "pect1" →
  drop_duplicate "exp" "pect1" (drop_duplicate "imp" "nect1" rec) !! k = rec !! k.
Proof.
  intros Hn Hp. rewrite duplicates_exp_after. by rewrite !decide_False.
Qed.

Lemma slot_cell_stripped (hourly : bool) (volts : num) (rec : raw_record)
    (key : string) :
  key ∈ headers →
  slot_cell hourly volts (stripped rec) key = slot_cell hourly volts rec key.
Proof. intros H. unfold slot_cell. by rewrite stripped_header. Qed.

Lemma slot_watts_stripped (hourly : bool) (volts : num) (rec : raw_record)
    (key : string) :
  key ∈ headers →
  slot_watts hourly volts (stripped rec) key = slot_watts hourly volts rec key.
Proof. intros H. unfold slot_watts. by rewrite stripped_header. Qed.

(** [record_body] with the dictionary steps folded into [without_calendar],
    [stripped] and [sample_time_of]. *)
Lemma record_body_eq (hourly : bool) (prev : Z)
    (pm : gmap string PowerMeter.t) (rec : raw_record) :
  record_body hourly prev pm rec =
  (_ ← foldM delitem
         (delete "min" (delete "hr"
            (drop_duplicate "exp" "pect1" (drop_duplicate "imp" "nect1" rec))))
         calendar_keys;
   volts ← volts_of rec;
   '(rw, rest, pm') ←
     foldM (channel_step hourly volts (sample_time_of rec))
       ([CStr (time_label (default 0 (rec !! "hr")) (default 0 (rec !! "min")));
         CInt (sample_time_of rec - prev)], stripped rec, pm) headers;
   OK (rw, sample_time_of rec, pm', rest)).
Proof.
  unfold record_body.
  destruct (take "hr" 0 _) as [hour r3] eqn:Hhr.
  destruct (take "min" 0 r3) as [minute r4] eqn:Hmin.
  pose proof (take_fst "hr" 0 (drop_duplicate "exp" "pect1"
                (drop_duplicate "imp" "nect1" rec))) as Hh.
  pose proof (take_snd "hr" 0 (drop_duplicate "exp" "pect1"
                (drop_duplicate "imp" "nect1" rec))) as Hr3.
  rewrite Hhr in Hh, Hr3. cbn in Hh, Hr3. subst r3.
  pose proof (take_fst "min" 0 (delete "hr" (drop_duplicate "exp" "pect1"
                (drop_duplicate "imp" "nect1" rec)))) as Hm.
  pose proof (take_snd "min" 0 (delete "hr" (drop_duplicate "exp" "pect1"
                (drop_duplicate "imp" "nect1" rec)))) as Hr4.
  rewrite Hmin in Hm, Hr4. cbn in Hm, Hr4. subst r4.
  rewrite time_fields_lookup in Hh by done.
  rewrite lookup_delete_ne, time_fields_lookup in Hm by done.
  subst hour minute. fold (sample_time_of rec).
  destruct (foldM delitem _ calendar_keys) as [e|r5] eqn:Hcal; [done|].
  apply foldM_delitem_OK in Hcal. fold (without_calendar rec) in Hcal. subst r5.
  rewrite !bind_OK_l, without_calendar_volts. fold (stripped rec). done.
Qed.

Lemma record_body_OK (hourly : bool) (prev st : Z)
    (pm pm' : gmap string PowerMeter.t) (rec rest : raw_record) (rw : row) :
  record_body hourly prev pm rec = OK (rw, st, pm', rest) →
  (∀ k, k ∈ calendar_keys → is_Some (rec !! k)) ∧
  st = sample_time_of rec ∧ rest = leftover rec ∧
  ∃ volts cells,
    volts_of rec = OK volts ∧
    rw = [CStr (time_label (default 0 (rec !! "hr")) (default 0 (rec !! "min")));
          CInt (sample_time_of rec - prev)] ++ cells ∧
    Forall2 (fun key c => slot_cell hourly volts rec key = OK c) headers cells ∧
    (∀ key, key ∈ headers → ∃ pm0 w,
        pm !! key = Some pm0 ∧ slot_watts hourly volts rec key = OK w ∧
        pm' !! key = Some (PowerMeter.add_value pm0 w (sample_time_of rec))) ∧
    (∀ k, k ∉ headers → pm' !! k = pm !! k).
Proof.
  rewrite record_body_eq.
  intros (r5 & Hcal & H)%bind_OK. apply bind_OK in H as (volts & Hv & H).
  apply bind_OK in H as ([[rw' rest'] pm''] & Hloop & H).
  injection H as -> <- -> ->.
  apply channel_loop_OK in Hloop as (cells & -> & Hcells & -> & Hm & Ho);
    [|apply headers_NoDup].
  split; [|split; [done|split; [done|]]].
  - intros k Hk. destruct (foldM_delitem_present _ _ _ Hcal k Hk) as [x Hx].
    exists x. unfold calendar_keys in Hk.
    split_elem Hk;
      rewrite !lookup_delete_ne, time_fields_lookup in Hx by done; done.
  - exists volts, cells. split; [done|]. split; [done|]. split; [|split; [|done]].
    + eapply Forall2_impl_elem; [exact Hcells|]. intros key c Hk Hc. cbv beta in Hc.
      by rewrite slot_cell_stripped in Hc.
    + intros key Hk. destruct (Hm key Hk) as (pm0 & w & ? & Hw & ?).
      exists pm0, w. by rewrite slot_watts_stripped in Hw.
Qed.

(** ** Records that agree on the fields that are read *)

Lemma delitem_None {V} (d : gmap string V) (k : string) :
  d !! k = None → delitem d k = Raise (KeyError k).
Proof. unfold delitem. by intros ->. Qed.

Lemma foldM_delitem_agree {X} (keys : list string) (f : result X) :
  ∀ r1 r2 : raw_record,
  (∀ k, k ∈ keys → r1 !! k = r2 !! k) →
  (foldM delitem r1 keys ≫= fun _ => f) = (foldM delitem r2 keys ≫= fun _ => f).
Proof.
  induction keys as [|key keys IH]; intros r1 r2 Hag; [done|].
  rewrite !foldM_cons.
  pose proof (Hag key (list_elem_of_here _ _)) as H1.
  destruct (r2 !! key) as [v|] eqn:H2.
  - rewrite (delitem_Some _ _ _ H1), (delitem_Some _ _ _ H2), !bind_OK_l.
    apply IH. intros k Hk. rewrite !lookup_delete.
    destruct (decide (key = k)); [done|]. apply Hag. by right.
  - by rewrite (delitem_None _ _ H1), (delitem_None _ _ H2).
Qed.

(** One step of the channel loop, by cell and watts. *)
Lemma channel_step_eq (hourly : bool) (volts : num) (st : Z) (rw : row)
    (rec : raw_record) (pm : gmap string PowerMeter.t) (key : string) :
  channel_step hourly volts st (rw, rec, pm) key =
  (c ← slot_cell hourly volts rec key;
   watts ← slot_watts hourly volts rec key;
   pm0 ← getitem pm key;
   OK (rw ++ [c], delete key rec,
       <[key := PowerMeter.add_value pm0 watts st]> pm)).
Proof.
  unfold channel_step, slot_cell, slot_watts.
  destruct (rec !! key) as [value|] eqn:Hkey.
  - destruct (watts_of hourly volts value) as [e|watts]; [done|].
    rewrite !bind_OK_l. destruct (int watts) as [e|shown]; [done|].
    by rewrite !bind_OK_l.
  - rewrite !bind_OK_l. by rewrite (delete_id _ _ Hkey).
Qed.

Lemma channel_loop_agree (hourly : bool) (volts : num) (st : Z)
    (keys : list string) :
  ∀ (rw : row) (r1 r2 : raw_record) (pm : gmap string PowerMeter.t),
  (∀ k, k ∈ keys → r1 !! k = r2 !! k) →
  (x ← foldM (channel_step hourly volts st) (rw, r1, pm) keys; OK (x.1.1, x.2))
  = (x ← foldM (channel_step hourly volts st) (rw, r2, pm) keys; OK (x.1.1, x.2)).
Proof.
  induction keys as [|key keys IH]; intros rw r1 r2 pm Hag; [done|].
  rewrite !foldM_cons, !channel_step_eq.
  unfold slot_cell, slot_watts. rewrite (Hag key) by (by left).
  fold (slot_cell hourly volts r2 key). fold (slot_watts hourly volts r2 key).
  destruct (slot_cell hourly volts r2 key) as [e|c]; [done|].
  rewrite !bind_OK_l.
  destruct (slot_watts hourly volts r2 key) as [e|watts]; [done|].
  rewrite !bind_OK_l. destruct (getitem pm key) as [e|pm0]; [done|].
  rewrite !bind_OK_l. apply IH. intros k Hk. rewrite !lookup_delete.
  destruct (decide (key = k)); [done|]. apply Hag. by right.
Qed.

Lemma read_key_not_secondary (k : string) :
  k ∈ read_keys → k ≠ "nect1" ∧ k ≠ "pect1".
Proof.
  unfold read_keys, calendar_keys, headers. cbn [app]. intros H.
  split_elem H; by split.
Qed.

Lemma outcome_bind {X} (m : result X)
    (f : result (row * Z * gmap string PowerMeter.t * raw_record)) :
  outcome (m ≫= fun _ => f) = (m ≫= fun _ => outcome f).
Proof. by destruct m. Qed.

(** The row, the timestamp and the meters of a record depend on the fields
    of [read_keys] only. *)
Lemma record_body_agree (hourly : bool) (prev : Z)
    (pm : gmap string PowerMeter.t) (rec1 rec2 : raw_record) :
  (∀ k, k ∈ read_keys → rec1 !! k = rec2 !! k) →
  outcome (record_body hourly prev pm rec1)
  = outcome (record_body hourly prev pm rec2).
Proof.
  intros Hag. rewrite !record_body_eq, !outcome_bind.
  assert (volts_of rec1 = volts_of rec2) as ->.
  { unfold volts_of. rewrite (Hag "v1"); [done|compute_done]. }
  assert (sample_time_of rec1 = sample_time_of rec2) as ->.
  { unfold sample_time_of.
    rewrite (Hag "hr"), (Hag "min"); [done|compute_done|compute_done]. }
  rewrite (Hag "hr"), (Hag "min") by compute_done.
  etrans.
  { apply foldM_delitem_agree with
      (r2 := delete "min" (delete "hr" (drop_duplicate "exp" "pect1"
               (drop_duplicate "imp" "nect1" rec2)))).
    intros k Hk. unfold calendar_keys in Hk.
    split_elem Hk; rewrite !lookup_delete_ne, !time_fields_lookup by done;
      apply Hag; compute_done. }
  f_equal. unfold outcome.
  destruct (volts_of rec2) as [e|volts]; [done|]. rewrite !bind_OK_l.
  assert (∀ k, k ∈ headers → stripped rec1 !! k = stripped rec2 !! k) as Hst.
  { intros k Hk. rewrite !stripped_header by done. apply Hag.
    unfold read_keys. do 3 (apply elem_of_app; right). done. }
  pose proof (channel_loop_agree hourly volts (sample_time_of rec2) headers
    [CStr (time_label (default 0 (rec2 !! "hr")) (default 0 (rec2 !! "min")));
     CInt (sample_time_of rec2 - prev)]
    (stripped rec1) (stripped rec2) pm Hst) as Hloop.
  destruct (foldM _ (_, stripped rec1, pm) headers) as [e1|[[rw1 rest1] pm1]];
    destruct (foldM _ (_, stripped rec2, pm) headers) as [e2|[[rw2 rest2] pm2]];
    try discriminate Hloop.
  - by injection Hloop as ->.
  - rewrite !bind_OK_l in Hloop. injection Hloop as -> ->. reflexivity.
Qed.

(** ** The row and the meters of one record *)

Lemma headers_lookup_elem (i : nat) (key : string) :
  headers !! i = Some key → key ∈ headers.
Proof. apply list_elem_of_lookup_2. Qed.

Lemma Forall2_cells_lookup (P : string → cell → Prop) (cells : list cell)
    (i : nat) (key : string) :
  Forall2 P headers cells → headers !! i = Some key →
  ∃ c, cells !! i = Some c ∧ P key c.
Proof.
  intros HF Hi. destruct (Forall2_lookup_l _ _ _ _ _ HF Hi) as (c & ? & ?).
  by exists c.
Qed.

(** C1, as the code has it.  When [load_day] processes a record, the voltage
    is [v1 / 10] if the record has [v1] and 1 otherwise; for every channel
    key in the record the watts are [value / 3600] (hourly) or
    [value / volts * 4] (per minute), the row holds these watts truncated by
    [int], and the meter of the channel receives the watts themselves; a key
    that is absent gives the row [None] and its meter 0 watts. *)
Theorem record_row_truncated_watts (hourly : bool) (prev st : Z)
    (pm pm' : gmap string PowerMeter.t) (rec rest : raw_record) (rw : row) :
  record_body hourly prev pm rec = OK (rw, st, pm', rest) →
  ∃ volts,
    match rec !! "v1" with
    | Some v => truediv (NInt v) (NInt 10)
    | None => OK (NInt 1)
    end = OK volts ∧
    ∀ (i : nat) key, headers !! i = Some key →
      ∃ pm0, pm !! key = Some pm0 ∧
      match rec !! key with
      | Some value =>
          ∃ watts shown,
            (if hourly then truediv (NInt value) (NInt 3600)
             else q ← truediv (NInt value) volts; mul q (NInt 4)) = OK watts ∧
            int watts = OK shown ∧
            rw !! (2 + i)%nat = Some (CInt shown) ∧
            pm' !! key = Some (PowerMeter.add_value pm0 watts st)
      | None =>
          rw !! (2 + i)%nat = Some CNone ∧
          pm' !! key = Some (PowerMeter.add_value pm0 (NInt 0) st)
      end.
Proof.
  intros (_ & -> & _ & volts & cells & Hv & -> & Hcells & Hm & _)%record_body_OK.
  exists volts. split; [exact Hv|]. intros i key Hi.
  destruct (Hm key (headers_lookup_elem _ _ Hi)) as (pm0 & w & Hpm & Hw & Hpm').
  destruct (Forall2_cells_lookup _ _ _ _ Hcells Hi) as (c & Hc & Hcell).
  exists pm0. split; [done|].
  unfold slot_watts in Hw. unfold slot_cell in Hcell.
  change (([?a; ?b] ++ cells) !! (2 + i)%nat) with (cells !! i).
  destruct (rec !! key) as [value|].
  - unfold watts_of in *. change (60 * 60) with 3600 in *.
    rewrite Hw in Hcell. rewrite bind_OK_l in Hcell.
    apply bind_OK in Hcell as (shown & Hs & [= <-]).
    by exists w, shown.
  - injection Hw as <-. injection Hcell as <-. done.
Qed.

Lemma record_row_truncated_watts_witness :
  ∃ rw st pm' rest,
    record_body false (-60) (seeded (-60)) minute_record = OK (rw, st, pm', rest) ∧
    rw !! 2%nat = Some (CInt 1) ∧
    pm' !! "imp" =
      Some (PowerMeter.add_value
              (PowerMeter.add_value PowerMeter.new (NInt 0) (-60))
              (NFloat 0x1.aaaaaaaaaaaabp+0) st).
Proof.
  destruct (record_body false (-60) (seeded (-60)) minute_record)
    as [e|[[[rw st] pm'] rest]] eqn:Hr.
  { exfalso.
    assert ((_ ← record_body false (-60) (seeded (-60)) minute_record; OK ())
            = OK ()) as Hok by (vm_compute; reflexivity).
    rewrite Hr in Hok. discriminate. }
  exists rw, st, pm', rest. split; [reflexivity|].
  destruct (record_row_truncated_watts false (-60) st (seeded (-60)) pm'
              minute_record rest rw Hr) as (volts & Hv & Hrow).
  destruct (Hrow 0%nat "imp" eq_refl) as (pm0 & Hpm0 & Hm).
  change (minute_record !! "imp") with (Some 100) in Hm.
  destruct Hm as (watts & shown & Hw & Hs & Hrw & Hpm').
  vm_compute in Hv. injection Hv as <-.
  vm_compute in Hw. injection Hw as <-.
  vm_compute in Hs. injection Hs as <-.
  vm_compute in Hpm0. injection Hpm0 as <-.
  split; [exact Hrw|exact Hpm'].
Defined.

(** C1 as the specification words it fails: an hourly record with 1800 Ws
    imported has 0.5 W, and its row holds 0. *)
Lemma row_value_is_watts_counterexample :
  ¬ row_value_is_watts true (-3600) (seeded (-3600)) half_watt_record.
Proof.
  intros H.
  assert ((r ← record_body true (-3600) (seeded (-3600)) half_watt_record;
           OK (r.1.1.1 !! 2%nat)) = OK (Some (CInt 0)))
    as Hcell by (vm_compute; reflexivity).
  destruct (record_body true (-3600) (seeded (-3600)) half_watt_record)
    as [e|[[[rw st] pm'] rest]] eqn:Hr; [discriminate|].
  rewrite bind_OK_l in Hcell. cbn [fst] in Hcell. injection Hcell as Hcell.
  destruct (H rw st pm' rest 0%nat "imp" 1800 Hr eq_refl eq_refl)
    as (volts & watts & c & Hv & Hw & Hc & Hs).
  vm_compute in Hv. injection Hv as <-.
  vm_compute in Hw. injection Hw as <-.
  change (rw !! 2%nat = Some c) in Hc. rewrite Hcell in Hc. injection Hc as <-.
  vm_compute in Hs. discriminate.
Qed.

(** ** The effect monad *)

Lemma M_bind_unfold {A B} (m : M A) (f : A → M B) (w : world) :
  (m ≫= f) w =
  match m w with
  | (inl e, w') => (inl e, w')
  | (inr a, w') => f a w'
  end.
Proof. reflexivity. Qed.

Lemma M_bind_OK {A B} (m : M A) (f : A → M B) (w w' : world) (b : B) :
  (m ≫= f) w = (OK b, w') → ∃ a w1, m w = (OK a, w1) ∧ f a w1 = (OK b, w').
Proof.
  rewrite M_bind_unfold. destruct (m w) as [[e|a] w1]; [discriminate|].
  intros H. by exists a, w1.
Qed.

Lemma M_bind_run {A B} (m : M A) (f : A → M B) (w w1 : world) (a : A) :
  m w = (OK a, w1) → (m ≫= f) w = f a w1.
Proof. intros H. by rewrite M_bind_unfold, H. Qed.

Lemma M_bind_fail {A B} (m : M A) (f : A → M B) (w w1 : world) (e : exn) :
  m w = (inl e, w1) → (m ≫= f) w = (inl e, w1).
Proof. intros H. by rewrite M_bind_unfold, H. Qed.

Lemma for_each_cons {A B} (f : A → B → M A) (a : A) (b : B) (l : list B) :
  for_each f a (b :: l) = (a' ← f a b; for_each f a' l).
Proof. reflexivity. Qed.

Lemma for_each_app {A B} (f : A → B → M A) (a : A) (l1 l2 : list B) (w : world) :
  for_each f a (l1 ++ l2) w = (a' ← for_each f a l1; for_each f a' l2) w.
Proof.
  revert a w. induction l1 as [|b l1 IH]; intros a w; [reflexivity|].
  cbn [app]. rewrite !for_each_cons, !M_bind_unfold.
  destruct (f a b w) as [[e|a'] w1]; [reflexivity|]. rewrite IH. reflexivity.
Qed.

(** ** What a computation adds to the trace *)

Lemma emits_ret {A} (P : event → Prop) (a : A) : emits P (mret a : M A).
Proof. intros w r w' [= <- <-]. exists []. by rewrite app_nil_r. Qed.

Lemma emits_lift {A} (P : event → Prop) (r : result A) : emits P (lift r).
Proof. intros w r' w' [= <- <-]. exists []. by rewrite app_nil_r. Qed.

Lemma emits_emit (P : event → Prop) (e : event) : P e → emits P (emit e).
Proof. intros He w r w' [= <- <-]. exists [e]. split; [done|]. by constructor. Qed.

Lemma emits_set_show_headers (P : event → Prop) (b : bool) :
  emits P (set_show_headers b).
Proof. intros w r w' [= <- <-]. exists []. by rewrite app_nil_r. Qed.

Lemma emits_bind {A B} (P : event → Prop) (m : M A) (f : A → M B) :
  emits P m → (∀ a, emits P (f a)) → emits P (m ≫= f).
Proof.
  intros Hm Hf w r w' H. rewrite M_bind_unfold in H.
  destruct (m w) as [[e|a] w1] eqn:Hmw.
  - injection H as <- <-. by eapply Hm.
  - destruct (Hm _ _ _ Hmw) as (evs1 & Htr1 & HP1).
    destruct (Hf a _ _ _ H) as (evs2 & Htr2 & HP2).
    exists (evs1 ++ evs2). split; [by rewrite Htr2, Htr1, app_assoc|].
    by apply Forall_app.
Qed.

Lemma emits_when (P : event → Prop) (b : bool) (m : M unit) :
  emits P m → emits P (when b m).
Proof. destruct b; [done|]. intros _. apply emits_ret. Qed.

Lemma emits_for_each {A B} (P : event → Prop) (f : A → B → M A) (l : list B) :
  (∀ a b, emits P (f a b)) → ∀ a, emits P (for_each f a l).
Proof.
  intros Hf. induction l as [|b l IH]; intros a.
  - apply emits_ret.
  - rewrite for_each_cons. apply emits_bind; [apply Hf|apply IH].
Qed.

Lemma emits_impl {A} (P Q : event → Prop) (m : M A) :
  (∀ e, P e → Q e) → emits P m → emits Q m.
Proof.
  intros HPQ Hm w r w' H. destruct (Hm _ _ _ H) as (evs & Htr & HP).
  exists evs. split; [done|]. by eapply Forall_impl.
Qed.

Lemma emits_print_table (P : event → Prop) (hdr : list string) (data : list row) :
  (∀ h, P (EPrintTable h data)) → emits P (print_table hdr data).
Proof.
  intros HP w r w' H. unfold print_table in H. rewrite M_bind_unfold in H.
  cbn [get_show_headers] in H. destruct (show_headers w).
  - revert H. apply emits_bind; [by apply emits_emit|].
    intros []. apply emits_set_show_headers.
  - revert H. by apply emits_emit.
Qed.

Lemma emits_record_step (hourly : bool)
    (st : Z * gmap string PowerMeter.t * list row) (rec : raw_record) :
  emits (fun e => is_fetch e = false) (record_step hourly st rec).
Proof.
  destruct st as [[prev pm] data]. unfold record_step.
  apply emits_bind; [apply emits_lift|]. intros [[[rw st] pm1] rest].
  apply emits_bind; [|intros []; apply emits_ret].
  apply emits_when. by apply emits_emit.
Qed.

Lemma filter_fetch_nil (evs : list event) :
  Forall (fun e => is_fetch e = false) evs → filter is_fetch evs = [].
Proof.
  induction 1 as [|e evs He _ IH]; [done|].
  rewrite filter_cons. destruct (decide (is_fetch e)) as [Hd|_]; [|done].
  rewrite He in Hd. done.
Qed.

(** ** The first loop of [load_day] *)

Lemma seed_loop (prev : Z) :
  foldl (seed_step prev) ((∅ : gmap string PowerMeter.t), ["Time"; "Duration"])
    headers = (seeded prev, table_headers).
Proof. reflexivity. Qed.

Lemma seeded_lookup (prev : Z) (key : string) :
  key ∈ headers →
  seeded prev !! key = Some (PowerMeter.add_value PowerMeter.new (NInt 0) prev).
Proof. unfold headers. intros H. split_elem H; reflexivity. Qed.

Lemma table_headers_eq :
  table_headers =
  ["Time"; "Duration"; "Imported"; "Exported"; "Generated Negative";
   "Generated"; "Phase 1 diverted"; "Phase 2 diverted"; "Phase 3 diverted";
   "Zappi imported"].
Proof. reflexivity. Qed.

(** ** The record loop *)

Lemma record_step_OK (hourly : bool) (prev prev' : Z)
    (pm pm' : gmap string PowerMeter.t) (data data' : list row)
    (rec : raw_record) (w w' : world) :
  record_step hourly (prev, pm, data) rec w = (OK (prev', pm', data'), w') →
  ∃ rw,
    record_body hourly prev pm rec = OK (rw, prev', pm', leftover rec) ∧
    data' = data ++ [rw] ∧
    show_headers w' = show_headers w ∧
    trace w' = trace w ++ diagnostics [rec].
Proof.
  unfold record_step. intros ([[[rw st] pm1] rest] & w1 & H1 & H2)%M_bind_OK.
  unfold lift in H1. injection H1 as H1 <-.
  pose proof H1 as (_ & _ & -> & _)%record_body_OK.
  apply M_bind_OK in H2 as ([] & w2 & H2 & H3).
  injection H3 as <- <- <- <-. exists rw. split; [done|]. split; [done|].
  unfold diagnostics. cbn [omap list_omap]. unfold when in H2.
  destruct (bool_decide (leftover rec = ∅)); cbn in H2.
  - injection H2 as <-. by rewrite app_nil_r.
  - injection H2 as <-. done.
Qed.

Lemma diagnostics_cons (rec : raw_record) (res : list raw_record) :
  diagnostics (rec :: res) = diagnostics [rec] ++ diagnostics res.
Proof.
  unfold diagnostics. cbn [omap list_omap].
  by destruct (bool_decide (leftover rec = ∅)).
Qed.

(** A successful record loop: one row per record, in order; the diagnostics
    in the trace; every meter fed with the readings of the records. *)
Lemma records_loop_OK (hourly : bool) (res : list raw_record) :
  ∀ (prev prev' : Z) (pm pm' : gmap string PowerMeter.t)
    (data data' : list row) (w w' : world),
  for_each (record_step hourly) (prev, pm, data) res w
    = (OK (prev', pm', data'), w') →
  (∃ rows, data' = data ++ rows ∧ length rows = length res) ∧
  show_headers w' = show_headers w ∧
  trace w' = trace w ++ diagnostics res ∧
  (∀ key pm0, key ∈ headers → pm !! key = Some pm0 →
     ∃ pmk, meter_after hourly key res pm0 = OK pmk ∧ pm' !! key = Some pmk).
Proof.
  induction res as [|rec res IH]; intros prev prev' pm pm' data data' w w' H.
  - injection H as <- <- <- <-. split; [exists []; by rewrite app_nil_r|].
    split; [done|]. split; [by rewrite app_nil_r|].
    intros key pm0 _ Hpm. by exists pm0.
  - rewrite for_each_cons in H.
    apply M_bind_OK in H as ([[st pm1] data1] & w1 & H1 & H2).
    apply record_step_OK in H1 as (rw & Hbody & -> & Hsh & Htr).
    apply IH in H2 as ((rows & -> & Hlen) & Hsh' & Htr' & Hm).
    split.
    { exists (rw :: rows). split; [rewrite <- app_assoc; reflexivity|].
      cbn [length]. by rewrite Hlen. }
    split; [congruence|].
    split; [by rewrite Htr', Htr, (diagnostics_cons rec res), app_assoc|].
    intros key pm0 Hkey Hpm.
    apply record_body_OK in Hbody
      as (_ & -> & _ & volts & cells & Hv & _ & _ & Hmeters & _).
    destruct (Hmeters key Hkey) as (pm0' & wt & Hpm0 & Hw & Hpm1).
    rewrite Hpm in Hpm0. injection Hpm0 as <-.
    destruct (Hm key _ Hkey Hpm1) as (pmk & Hrun & Hpmk).
    exists pmk. split; [|done].
    unfold meter_after. rewrite foldM_cons. unfold slot_reading.
    rewrite Hv, bind_OK_l, Hw, bind_OK_l. exact Hrun.
Qed.

Lemma records_loop_rows (hourly : bool) (res : list raw_record) :
  ∀ (prev prev' : Z) (pm pm' : gmap string PowerMeter.t)
    (data data' : list row) (w w' : world),
  for_each (record_step hourly) (prev, pm, data) res w
    = (OK (prev', pm', data'), w') →
  ∀ (n : nat) rec, res !! n = Some rec →
  ∃ p m rw st m' rest,
    record_body hourly p m rec = OK (rw, st, m', rest) ∧
    data' !! (length data + n)%nat = Some rw.
Proof.
  induction res as [|rec0 res IH]; intros prev prev' pm pm' data data' w w' H n rec Hn.
  - by rewrite lookup_nil in Hn.
  - rewrite for_each_cons in H.
    apply M_bind_OK in H as ([[st pm1] data1] & w1 & H1 & H2).
    apply record_step_OK in H1 as (rw & Hbody & -> & _).
    destruct n as [|n].
    + injection Hn as <-.
      apply records_loop_OK in H2 as ((rows & -> & _) & _).
      exists prev, pm, rw, st, pm1, (leftover rec0). split; [done|].
      rewrite <- app_assoc, Nat.add_0_r.
      by rewrite lookup_app_r, Nat.sub_diag.
    + destruct (IH _ _ _ _ _ _ _ _ H2 n rec Hn)
        as (p & m & rw' & st' & m' & rest & Hb & Hd).
      exists p, m, rw', st', m', rest. split; [done|].
      rewrite length_app in Hd. cbn [length] in Hd.
      by replace (length data + S n)%nat with (length data + 1 + n)%nat by lia.
Qed.

(** ** [load_day] *)

Section ReportProperties.

Variable render_total : num → string.

(** [load_day] with its first loop run. *)
Lemma load_day_unfold (conn : server) (zid : Z) (day : Day)
    (hourly : bool) (totals : totals_arg) (use_json : bool) :
  load_day render_total conn zid day hourly totals use_json =
  (_ ← emit (fetch_event hourly zid day);
   '(_, pm_totals, data) ←
     for_each (record_step hourly)
       (seed_time hourly, seeded (seed_time hourly), [])
       (samples conn hourly zid day);
   _ ← when (negb use_json) (emit (EPrintCount (length data)));
   rw ← lift (foldM (totals_step render_total pm_totals)
                [CStr "Totals"; CNone] headers);
   _ ← when (negb use_json)
         (print_table table_headers
            ((if is_true totals then [] else data) ++ [rw]));
   mret (table_headers, (if is_true totals then [] else data) ++ [rw], rw)).
Proof. destruct hourly; reflexivity. Qed.

(** The totals row: the rendered total of every meter, in header order. *)
Lemma totals_row_OK (pm : gmap string PowerMeter.t) (keys : list string) :
  ∀ rw rw' : row,
  foldM (totals_step render_total pm) rw keys = OK rw' →
  ∃ cells,
    rw' = rw ++ cells ∧
    Forall2 (fun key c => ∃ pmk, pm !! key = Some pmk ∧
               c = CStr (render_total (PowerMeter.total pmk))) keys cells.
Proof.
  induction keys as [|key keys IH]; intros rw rw' H.
  - injection H as <-. exists []. by rewrite app_nil_r.
  - rewrite foldM_cons in H. apply bind_OK in H as (r1 & H1 & H2).
    unfold totals_step in H1. apply bind_OK in H1 as (pmk & Hpm & [= <-]).
    apply getitem_OK in Hpm.
    apply IH in H2 as (cells & -> & Hcells).
    exists (CStr (render_total (PowerMeter.total pmk)) :: cells).
    split; [rewrite <- app_assoc; reflexivity|].
    constructor; [by exists pmk|done].
Qed.

Lemma totals_row_succeeds (pm : gmap string PowerMeter.t) (keys : list string) :
  (∀ key, key ∈ keys → is_Some (pm !! key)) →
  ∀ rw : row, ∃ rw', foldM (totals_step render_total pm) rw keys = OK rw'.
Proof.
  induction keys as [|key keys IH]; intros Hall rw.
  - by exists rw.
  - destruct (Hall key) as [pmk Hpm]; [by left|].
    assert (totals_step render_total pm rw key
            = OK (rw ++ [CStr (render_total (PowerMeter.total pmk))])) as Hstep.
    { unfold totals_step. by rewrite (getitem_Some _ _ _ Hpm). }
    rewrite foldM_cons, Hstep, bind_OK_l.
    apply IH. intros k Hk. apply Hall. by right.
Qed.

(** What a successful [load_day] returns. *)
Lemma load_day_OK (conn : server) (zid : Z) (day : Day)
    (hourly : bool) (totals : totals_arg) (use_json : bool) (w w' : world)
    (hdr : list string) (data : list row) (rw : row) :
  load_day render_total conn zid day hourly totals use_json w
    = (OK (hdr, data, rw), w') →
  ∃ prev pm rows w1 cells,
    for_each (record_step hourly)
      (seed_time hourly, seeded (seed_time hourly), [])
      (samples conn hourly zid day)
      {| show_headers := show_headers w;
         trace := trace w ++ [fetch_event hourly zid day] |}
      = (OK (prev, pm, rows), w1) ∧
    hdr = table_headers ∧
    data = (if is_true totals then [] else rows) ++ [rw] ∧
    rw = [CStr "Totals"; CNone] ++ cells ∧
    Forall2 (fun key c => ∃ pmk, pm !! key = Some pmk ∧
               c = CStr (render_total (PowerMeter.total pmk))) headers cells.
Proof.
  rewrite load_day_unfold.
  intros ([] & w0 & H0 & H)%M_bind_OK. injection H0 as <-.
  apply M_bind_OK in H as ([[prev pm] rows] & w1 & Hloop & H).
  apply M_bind_OK in H as ([] & w2 & _ & H).
  apply M_bind_OK in H as (rw' & w3 & Hrow & H).
  apply M_bind_OK in H as ([] & w4 & _ & H).
  injection H as <- <- <- <-.
  apply (f_equal fst) in Hrow.
  change (foldM (totals_step render_total pm) [CStr "Totals"; CNone] headers
          = OK rw') in Hrow.
  apply totals_row_OK in Hrow as (cells & -> & Hcells).
  by exists prev, pm, rows, w1, cells.
Qed.

Lemma print_table_run (hdr : list string) (data : list row) (w : world) :
  print_table hdr data w =
  (OK (), {| show_headers := false;
             trace := trace w ++
               [EPrintTable (if show_headers w then Some hdr else None) data] |}).
Proof. unfold print_table. destruct w as [[] tr]; reflexivity. Qed.

(** The result and the effects of [load_day] from those of its record loop. *)
Lemma load_day_run (conn : server) (zid : Z) (day : Day)
    (hourly : bool) (totals : totals_arg) (use_json : bool) (w w1 : world)
    (prev : Z) (pm : gmap string PowerMeter.t) (rows : list row) (rw : row) :
  for_each (record_step hourly)
    (seed_time hourly, seeded (seed_time hourly), [])
    (samples conn hourly zid day)
    {| show_headers := show_headers w;
       trace := trace w ++ [fetch_event hourly zid day] |}
    = (OK (prev, pm, rows), w1) →
  foldM (totals_step render_total pm) [CStr "Totals"; CNone] headers = OK rw →
  let data := (if is_true totals then [] else rows) ++ [rw] in
  load_day render_total conn zid day hourly totals use_json w =
  (OK (table_headers, data, rw),
   if use_json then w1
   else {| show_headers := false;
           trace := trace w1 ++
             [EPrintCount (length rows);
              EPrintTable (if show_headers w1 then Some table_headers else None)
                data] |}).
Proof.
  intros Hloop Hrow data. rewrite load_day_unfold.
  erewrite M_bind_run by reflexivity.
  erewrite M_bind_run by exact Hloop. cbv beta iota.
  destruct use_json; cbn [negb when].
  - erewrite M_bind_run by reflexivity.
    erewrite M_bind_run by (unfold lift; rewrite Hrow; reflexivity).
    erewrite M_bind_run by reflexivity. reflexivity.
  - erewrite M_bind_run by reflexivity.
    erewrite M_bind_run by (unfold lift; rewrite Hrow; reflexivity).
    erewrite M_bind_run by apply print_table_run.
    unfold data. cbn. by rewrite <- (app_assoc (trace w1)).
Qed.

Lemma load_day_fail (conn : server) (zid : Z) (day : Day)
    (hourly : bool) (totals : totals_arg) (use_json : bool) (w w1 : world)
    (e : exn) :
  for_each (record_step hourly)
    (seed_time hourly, seeded (seed_time hourly), [])
    (samples conn hourly zid day)
    {| show_headers := show_headers w;
       trace := trace w ++ [fetch_event hourly zid day] |}
    = (inl e, w1) →
  load_day render_total conn zid day hourly totals use_json w = (inl e, w1).
Proof.
  intros Hloop. rewrite load_day_unfold.
  erewrite M_bind_run by reflexivity. by apply M_bind_fail.
Qed.

Lemma seeded_totals_row (prev : Z) :
  foldM (totals_step render_total (seeded prev)) [CStr "Totals"; CNone] headers
  = OK ([CStr "Totals"; CNone] ++
        ((fun _ => CStr (render_total (NInt 0))) <$> headers)).
Proof. reflexivity. Qed.

(** C2.  If the server has no record for the day, [load_day] returns
    normally; its table is the totals row alone, and every channel of that
    row is the rendering of the total 0. *)
Theorem load_day_no_records (conn : server) (zid : Z) (day : Day)
    (hourly : bool) (totals : totals_arg) (use_json : bool) (w : world) :
  (if hourly then get_hour_data conn zid day
   else get_minute_data conn zid day) = [] →
  let totals_row :=
    [CStr "Totals"; CNone] ++
    ((fun _ => CStr (render_total (NInt 0))) <$> headers) in
  (load_day render_total conn zid day hourly totals use_json w).1
    = OK (table_headers, [totals_row], totals_row) ∧
  ∀ key, key ∈ headers →
    PowerMeter.total <$> seeded (seed_time hourly) !! key = Some (NInt 0).
Proof.
  intros Hres totals_row. split.
  - rewrite (load_day_run conn zid day hourly totals use_json w
               {| show_headers := show_headers w;
                  trace := trace w ++ [fetch_event hourly zid day] |}
               (seed_time hourly) (seeded (seed_time hourly)) []
               totals_row).
    + by destruct (is_true totals).
    + unfold samples. rewrite Hres. reflexivity.
    + apply seeded_totals_row.
  - intros key Hkey. rewrite seeded_lookup by done.
    destruct hourly; reflexivity.
Qed.

(** Whatever its outcome, [load_day] calls the server once, for its own
    device, day and granularity. *)
Lemma load_day_fetches (conn : server) (zid : Z) (day : Day)
    (hourly : bool) (totals : totals_arg) (use_json : bool) (w w' : world)
    (r : result (list string * list row * row)) :
  load_day render_total conn zid day hourly totals use_json w = (r, w') →
  filter is_fetch (trace w')
    = filter is_fetch (trace w) ++ [fetch_event hourly zid day].
Proof.
  rewrite load_day_unfold. erewrite M_bind_run by reflexivity. intros H.
  assert (emits (fun e => is_fetch e = false)
    ('(_, pm_totals, data) ←
       for_each (record_step hourly)
         (seed_time hourly, seeded (seed_time hourly), [])
         (samples conn hourly zid day);
     _ ← when (negb use_json) (emit (EPrintCount (length data)));
     rw ← lift (foldM (totals_step render_total pm_totals)
                  [CStr "Totals"; CNone] headers);
     _ ← when (negb use_json)
           (print_table table_headers
              ((if is_true totals then [] else data) ++ [rw]));
     mret (table_headers, (if is_true totals then [] else data) ++ [rw], rw)))
    as Hrest.
  { apply emits_bind; [apply emits_for_each, emits_record_step|].
    intros [[prev pm] data].
    apply emits_bind; [by apply emits_when, emits_emit|]. intros [].
    apply emits_bind; [apply emits_lift|]. intros rw.
    apply emits_bind; [by apply emits_when, emits_print_table|]. intros [].
    apply emits_ret. }
  destruct (Hrest _ _ _ H) as (evs & -> & Hevs). cbn [trace].
  rewrite !filter_app, (filter_fetch_nil evs Hevs), app_nil_r.
  by destruct hourly.
Qed.

(** The totals row of a successful day, from the meters of its records. *)
Lemma load_day_totals_row (conn : server) (zid : Z) (day : Day)
    (hourly : bool) (totals : totals_arg) (use_json : bool) (w w' : world)
    (hdr : list string) (data : list row) (rw : row) :
  load_day render_total conn zid day hourly totals use_json w
    = (OK (hdr, data, rw), w') →
  ∀ (i : nat) key, headers !! i = Some key →
  ∃ pmk,
    meter_after hourly key (samples conn hourly zid day)
      (PowerMeter.add_value PowerMeter.new (NInt 0) (seed_time hourly)) = OK pmk ∧
    rw !! (2 + i)%nat = Some (CStr (render_total (PowerMeter.total pmk))).
Proof.
  intros (prev & pm & rows & w1 & cells & Hloop & _ & _ & -> & Hcells)%load_day_OK
    i key Hi.
  apply records_loop_OK in Hloop as (_ & _ & _ & Hm).
  pose proof (headers_lookup_elem _ _ Hi) as Hkey.
  destruct (Hm key _ Hkey (seeded_lookup _ _ Hkey)) as (pmk & Hrun & Hpmk).
  exists pmk. split; [done|].
  destruct (Forall2_cells_lookup _ _ _ _ Hcells Hi) as (c & Hc & pmk' & Hpm' & ->).
  rewrite Hpmk in Hpm'. injection Hpm' as <-. exact Hc.
Qed.

(** C8.  In a per-minute day, the row of every record holds, for each
    channel the record has, the watts [value / volts * 4] truncated by
    [int], while the meter of the channel is updated with the watts
    themselves; so the totals row renders, for each channel, the meter fed
    with the un-truncated watts of all the records. *)
Theorem minute_rows_truncated_totals_exact (conn : server) (zid : Z) (day : Day)
    (totals : totals_arg) (use_json : bool) (w w' : world)
    (hdr : list string) (data : list row) (rw : row) :
  load_day render_total conn zid day false totals use_json w
    = (OK (hdr, data, rw), w') →
  (is_true totals = false →
   ∀ (n : nat) rec, get_minute_data conn zid day !! n = Some rec →
   ∃ r prev pm st pm' rest volts,
     data !! n = Some r ∧
     record_body false prev pm rec = OK (r, st, pm', rest) ∧
     volts_of rec = OK volts ∧
     ∀ (i : nat) key value,
       headers !! i = Some key → rec !! key = Some value →
       ∃ watts shown pm0,
         (q ← truediv (NInt value) volts; mul q (NInt 4)) = OK watts ∧
         int watts = OK shown ∧
         r !! (2 + i)%nat = Some (CInt shown) ∧
         pm !! key = Some pm0 ∧
         pm' !! key = Some (PowerMeter.add_value pm0 watts st)) ∧
  (∀ (i : nat) key, headers !! i = Some key →
   ∃ pmk,
     meter_after false key (get_minute_data conn zid day)
       (PowerMeter.add_value PowerMeter.new (NInt 0) (-60)) = OK pmk ∧
     rw !! (2 + i)%nat = Some (CStr (render_total (PowerMeter.total pmk)))).
Proof.
  intros Hday. split; [|exact (load_day_totals_row _ _ _ _ _ _ _ _ _ _ _ Hday)].
  intros Ht n rec Hn.
  apply load_day_OK in Hday
    as (prev & pm & rows & w1 & cells & Hloop & _ & -> & _).
  destruct (records_loop_rows _ _ _ _ _ _ _ _ _ _ Hloop n rec Hn)
    as (p & m & r & st & m' & rest & Hbody & Hr).
  pose proof Hbody
    as (_ & _ & _ & volts & rcells & Hv & Hrw & Hcells & Hm & _)%record_body_OK.
  exists r, p, m, st, m', rest, volts.
  split; [|split; [done|split; [done|]]].
  { rewrite Ht. cbn [length Nat.add] in Hr.
    rewrite lookup_app_l; [done|]. by eapply lookup_lt_Some. }
  intros i key value Hi Hval.
  destruct (Hm key (headers_lookup_elem _ _ Hi)) as (pm0 & wt & Hpm & Hw & Hpm').
  destruct (Forall2_cells_lookup _ _ _ _ Hcells Hi) as (c & Hc & Hcell).
  unfold slot_watts in Hw. unfold slot_cell in Hcell.
  rewrite Hval in Hw, Hcell. unfold watts_of in Hw, Hcell.
  rewrite Hw, bind_OK_l in Hcell.
  apply bind_OK in Hcell as (shown & Hs & [= <-]).
  exists wt, shown, pm0. split; [done|]. split; [done|].
  apply record_body_OK in Hbody as (_ & -> & _).
  split; [|done]. rewrite Hrw. exact Hc.
Qed.

(** ** The JSON rendering *)

Lemma json_loop_spec (header : list string) :
  NoDup header →
  ∀ (totals : row) (raw : gmap string cell),
  length header = length totals →
  ∃ raw',
    json_loop header totals raw = OK ([], raw') ∧
    (∀ name, name ∉ header → raw' !! name = raw !! name) ∧
    (∀ (i : nat) name t, header !! i = Some name → totals !! i = Some t →
       raw' !! name = if truthy t && negb (String.eqb name "Time")
                      then Some t else raw !! name).
Proof.
  induction 1 as [|head header Hnin Hnd IH]; intros totals raw Hlen.
  - destruct totals; [|done]. exists raw. split; [done|]. split; [done|].
    intros i name t Hi. by rewrite lookup_nil in Hi.
  - destruct totals as [|t0 totals]; [done|]. injection Hlen as Hlen.
    cbn [json_loop].
    set (raw1 := if negb (truthy t0) || String.eqb head "Time"
                 then raw else <[head := t0]> raw).
    destruct (IH totals raw1 Hlen) as (raw' & Hrun & Hout & Hin).
    exists raw'. split.
    { unfold raw1 in Hrun.
      by destruct (negb (truthy t0) || String.eqb head "Time"). }
    assert (raw1 !! head = if truthy t0 && negb (String.eqb head "Time")
                           then Some t0 else raw !! head) as Hhead.
    { unfold raw1. destruct (truthy t0), (String.eqb head "Time"); cbn;
        by rewrite ?lookup_insert_eq. }
    assert (∀ name, name ≠ head → raw1 !! name = raw !! name) as Hother.
    { intros name Hne. unfold raw1.
      destruct (negb (truthy t0) || String.eqb head "Time"); [done|].
      by rewrite lookup_insert_ne. }
    split.
    + intros name Hname. rewrite Hout.
      * apply Hother. intros ->. apply Hname. by left.
      * intros ?. apply Hname. by right.
    + intros [|i] name t Hi Ht.
      * injection Hi as <-. injection Ht as <-. by rewrite Hout.
      * cbn in Hi, Ht. rewrite (Hin i name t Hi Ht), Hother; [done|].
        intros ->. apply Hnin. by eapply list_elem_of_lookup_2.
Qed.

Lemma table_headers_NoDup : NoDup table_headers.
Proof. compute_done. Qed.

(** The column of a channel is named by [FIELD_NAMES]. *)
Lemma table_headers_channel (i : nat) (key : string) :
  headers !! i = Some key →
  ∃ name, FIELD_NAMES !! key = Some name ∧
          table_headers !! (2 + i)%nat = Some name ∧ name ≠ "Time".
Proof.
  intros Hi. rewrite table_headers_eq.
  do 8 (destruct i as [|i];
        [injection Hi as <-; eexists; split; [reflexivity|]; by split|]).
  discriminate Hi.
Qed.

Lemma table_headers_column (j : nat) (name : string) :
  table_headers !! j = Some name →
  (j = 0%nat ∧ name = "Time") ∨ (j = 1%nat ∧ name = "Duration") ∨
  ∃ (i : nat) key, j = (2 + i)%nat ∧ headers !! i = Some key ∧
                   FIELD_NAMES !! key = Some name.
Proof.
  rewrite table_headers_eq. intros Hj.
  destruct j as [|j]; [left; by injection Hj as <-|].
  destruct j as [|j]; [right; left; by injection Hj as <-|].
  right; right. exists j.
  do 8 (destruct j as [|j];
        [injection Hj as <-; eexists; split; [reflexivity|]; by split|]).
  discriminate Hj.
Qed.

(** C4.  For a device in JSON mode, the mapping stored under its serial
    number has no ["Time"] key; for every channel it holds the total of the
    totals row under the channel's display name when that total is truthy
    and nothing when it is falsy; and it has no other key. *)
Theorem json_totals_mapping (conn : server) (l l' : locals) (sno : Z)
    (w w' : world) :
  use_json l = true →
  device_body render_total conn l sno w = (OK l', w') →
  ∃ hdr data rw raw,
    (load_day render_total conn sno (day l) true (TFlag true) true
       {| show_headers := true; trace := trace w |}).1 = OK (hdr, data, rw) ∧
    jout l' = <[sno := raw]> (jout l) ∧
    raw !! "Time" = None ∧
    (∀ (i : nat) key total,
       headers !! i = Some key → rw !! (2 + i)%nat = Some total →
       ∃ name, FIELD_NAMES !! key = Some name ∧
               raw !! name = if truthy total then Some total else None) ∧
    (∀ name total, raw !! name = Some total →
       ∃ (i : nat) key, headers !! i = Some key ∧
                        FIELD_NAMES !! key = Some name ∧
                        rw !! (2 + i)%nat = Some total).
Proof.
  intros Hjson H. unfold device_body in H. rewrite Hjson in H.
  apply M_bind_OK in H as ([] & w0 & H0 & H). injection H0 as <-.
  apply M_bind_OK in H as ([[hdr data] rw] & w1 & Hday & H).
  apply M_bind_OK in H as ([rest raw] & w2 & Hloop & H).
  injection H as <- <-. apply (f_equal fst) in Hloop. cbn [lift fst] in Hloop.
  exists hdr, data, rw, raw. split; [by rewrite Hday|]. split; [done|].
  apply load_day_OK in Hday as (_ & pm & _ & _ & cells & _ & -> & _ & -> & Hcells).
  apply Forall2_length in Hcells.
  destruct (json_loop_spec table_headers table_headers_NoDup
              ([CStr "Totals"; CNone] ++ cells) ∅) as (raw' & Hrun & Hout & Hin).
  { cbn [length app]. by rewrite <- Hcells. }
  rewrite Hrun in Hloop. injection Hloop as <- <-.
  split; [|split].
  - by rewrite (Hin 0%nat "Time" (CStr "Totals")).
  - intros i key total Hi Ht.
    destruct (table_headers_channel i key Hi) as (name & Hname & Hcol & Hne).
    exists name. split; [done|]. rewrite (Hin _ _ _ Hcol Ht).
    apply String.eqb_neq in Hne. rewrite Hne, lookup_empty.
    by destruct (truthy total).
  - intros name total Hraw.
    destruct (decide (name ∈ table_headers)) as [Hel|Hnel].
    2:{ rewrite Hout, lookup_empty in Hraw by done. done. }
    apply list_elem_of_lookup_1 in Hel as [j Hj].
    destruct (lookup_lt_is_Some_2 ([CStr "Totals"; CNone] ++ cells) j) as [t Ht].
    { cbn [length app]. rewrite <- Hcells.
      apply lookup_lt_Some in Hj. exact Hj. }
    rewrite (Hin _ _ _ Hj Ht), lookup_empty in Hraw.
    destruct (table_headers_column j name Hj)
      as [[-> ->]|[[-> ->]|(i & key & -> & Hi & Hname)]].
    + by injection Ht as <-.
    + by injection Ht as <-.
    + exists i, key. split; [done|]. split; [done|].
      destruct (truthy t && negb (String.eqb name "Time")); [|done].
      by injection Hraw as <-.
Qed.

(** ** The month loop *)

Lemma load_day_emits_any (conn : server) (zid : Z) (day : Day)
    (hourly : bool) (totals : totals_arg) (use_json : bool) :
  emits (fun _ => True)
    (load_day render_total conn zid day hourly totals use_json).
Proof.
  rewrite load_day_unfold.
  apply emits_bind; [by apply emits_emit|]. intros [].
  apply emits_bind.
  { apply emits_for_each. intros st rec.
    eapply emits_impl; [|apply emits_record_step]. done. }
  intros [[prev pm] data].
  apply emits_bind; [by apply emits_when, emits_emit|]. intros [].
  apply emits_bind; [apply emits_lift|]. intros rw.
  apply emits_bind; [by apply emits_when, emits_print_table|]. intros [].
  apply emits_ret.
Qed.

(** A successful month loop: one call of [load_day], hence one call to the
    server, per day of [doms], in order; its totals rows, in order. *)
Lemma month_loop_OK (conn : server) (sno : Z) (hourly use_json : bool)
    (doms : list Z) :
  ∀ (day day' : Day) (totals totals' : totals_arg)
    (hdrs hdrs' : option (list string)) (all_data all_data' : list row)
    (w w' : world),
  for_each (month_step render_total conn sno hourly use_json)
    (day, totals, hdrs, all_data) doms w
    = (OK (day', totals', hdrs', all_data'), w') →
  filter is_fetch (trace w')
    = filter is_fetch (trace w) ++
      ((fun dom => fetch_event hourly sno (with_mday day dom)) <$> doms) ∧
  (∃ evs, trace w' = trace w ++ evs) ∧
  ∃ rows,
    all_data' = all_data ++ rows ∧
    Forall2 (fun dom rw => ∃ tot w0 hdr data w1,
               load_day render_total conn sno (with_mday day dom) hourly tot
                 use_json w0 = (OK (hdr, data, rw), w1)) doms rows.
Proof.
  induction doms as [|dom doms IH];
    intros day day' totals totals' hdrs hdrs' all_data all_data' w w' H.
  - injection H as <- <- <- <- <-. rewrite !app_nil_r.
    split; [done|]. split; [exists []; by rewrite app_nil_r|].
    exists []. by rewrite app_nil_r.
  - rewrite for_each_cons in H.
    apply M_bind_OK in H as ([[[day1 tot1] hdrs1] data1] & w1 & Hstep & Hrest).
    unfold month_step in Hstep.
    apply M_bind_OK in Hstep as ([] & w0 & H0 & Hstep). injection H0 as <-.
    apply M_bind_OK in Hstep as ([[hdr data] rw] & w2 & Hday & Hstep).
    injection Hstep as <- <- <- <- <-.
    fold (with_mday day dom) in Hday, Hrest.
    apply IH in Hrest as (Hfetch & (evs & Htr) & rows & -> & Hrows).
    pose proof (load_day_fetches _ _ _ _ _ _ _ _ _ Hday) as Hf.
    destruct (load_day_emits_any _ _ _ _ _ _ _ _ _ Hday) as (evs1 & Htr1 & _).
    cbn [trace] in Hf, Htr1. split; [|split].
    + rewrite Hfetch, Hf, filter_app, <- !app_assoc. reflexivity.
    + exists ([EPrintDay dom] ++ evs1 ++ evs).
      by rewrite Htr, Htr1, <- !app_assoc.
    + exists (rw :: rows). split; [by rewrite <- app_assoc|].
      constructor; [|exact Hrows]. by eexists _, _, _, _, _.
Qed.

(** C7.  In month mode, for a target day [n], a device's report calls
    [load_day] (and so the server) once for each day 1, 2, ..., [n], in this
    order, and the table it prints has one row per day, in the same order:
    the totals row [load_day] returned for that day. *)
Theorem month_rollup_days (conn : server) (l l' : locals) (sno : Z)
    (w w' : world) (n : Z) :
  use_json l = false → show_month l = true →
  tm_mday (day l) = VInt n →
  device_body render_total conn l sno w = (OK l', w') →
  filter is_fetch (trace w')
    = filter is_fetch (trace w) ++
      ((fun dom => fetch_event (hourly l) sno (with_mday (day l) dom))
         <$> seqZ 1 n) ∧
  ∃ hdrs all_data evs,
    trace w' = trace w ++ evs ++ [EPrintTable (Some hdrs) all_data] ∧
    Forall2 (fun dom rw => ∃ tot w0 hdr data w1,
               load_day render_total conn sno (with_mday (day l) dom)
                 (hourly l) tot false w0 = (OK (hdr, data, rw), w1))
      (seqZ 1 n) all_data.
Proof.
  intros Hjson Hmonth Hday H. unfold device_body in H.
  rewrite Hjson, Hmonth, Hday in H.
  apply M_bind_OK in H as ([] & w0 & H0 & H). injection H0 as <-.
  apply M_bind_OK in H as (stop & w1 & Hstop & H). injection Hstop as <- <-.
  replace (n + 1 - 1) with n in H by lia.
  apply M_bind_OK in H as ([[[day1 tot1] hdrs1] all_data] & w2 & Hloop & H).
  apply M_bind_OK in H as (hdrs & w3 & Hh & H).
  apply M_bind_OK in H as ([] & w4 & Hprint & H).
  injection H as <- <-. injection Hprint as <-.
  assert (w3 = w2) as -> by (by destruct hdrs1; injection Hh as _ <-).
  apply month_loop_OK in Hloop as (Hfetch & (evs & Htr) & rows & -> & Hrows).
  cbn [trace] in *. split.
  - by rewrite filter_app, Hfetch, app_nil_r.
  - exists hdrs, rows, evs. split; [by rewrite Htr, app_assoc|done].
Qed.

(** ** The options *)

Lemma parse_json_in (opts : list cli_opt) (l : locals) :
  use_json l = true ∨ OptJson ∈ opts →
  use_json (foldl opt_step l opts) = true.
Proof.
  revert l. induction opts as [|o opts IH]; intros l H.
  - destruct H as [H|H]; [done|by apply elem_of_nil in H].
  - cbn [foldl]. apply IH. destruct H as [H|[<-|H]%elem_of_cons].
    + left. by destruct o.
    + by left.
    + by right.
Qed.

Lemma parse_json_notin (opts : list cli_opt) (l : locals) :
  OptJson ∉ opts → use_json (foldl opt_step l opts) = use_json l.
Proof.
  revert l. induction opts as [|o opts IH]; intros l H; [done|].
  cbn [foldl]. rewrite IH.
  - destruct o; try done. exfalso. apply H. by left.
  - intros ?. apply H. by right.
Qed.

Lemma parse_month_in (opts : list cli_opt) (l : locals) :
  show_month l = true ∨ OptShowMonth ∈ opts →
  show_month (foldl opt_step l opts) = true.
Proof.
  revert l. induction opts as [|o opts IH]; intros l H.
  - destruct H as [H|H]; [done|by apply elem_of_nil in H].
  - cbn [foldl]. apply IH. destruct H as [H|[<-|H]%elem_of_cons].
    + left. by destruct o.
    + by left.
    + by right.
Qed.

Lemma parse_day_str (opts : list cli_opt) (l : locals) :
  (∃ v, tm_mday (day l) = VStr v) ∨ (∃ v, OptDay v ∈ opts) →
  ∃ v, tm_mday (day (foldl opt_step l opts)) = VStr v.
Proof.
  revert l. induction opts as [|o opts IH]; intros l H.
  - destruct H as [H|[v H]]; [done|by apply elem_of_nil in H].
  - cbn [foldl]. apply IH. destruct H as [[v H]|[v [<-|H]%elem_of_cons]].
    + left. destruct o; try by exists v. by eexists.
    + left. by eexists.
    + right. by exists v.
Qed.

(** C10, as the code has it.  With [--day] and [--show-month], without
    [--json] and with at least one Zappi, [main] raises [TypeError] at the
    first device, before any call to the server and before it prints
    anything. *)
Theorem day_option_month_type_error (conn : server) (today : Day)
    (opts : list cli_opt) (w : world) (value : string)
    (sno : Z) (devices : list Z) :
  OptDay value ∈ opts → OptShowMonth ∈ opts → OptJson ∉ opts →
  zappi_list conn = sno :: devices →
  main render_total conn today opts w
    = (Raise TypeError, {| show_headers := true; trace := trace w |}).
Proof.
  intros Hday Hmonth Hjson Hdev. unfold main. rewrite Hdev, for_each_cons.
  apply M_bind_fail, M_bind_fail. unfold device_body.
  rewrite (parse_json_notin opts _ Hjson).
  rewrite (parse_month_in opts (init_locals today)) by (by right).
  destruct (parse_day_str opts (init_locals today)) as [v ->];
    [right; by exists value|].
  reflexivity.
Qed.

(** ** The JSON mode *)

(** The JSON branch of [device_body], spelled out. *)
Lemma device_body_json (conn : server) (l : locals) (sno : Z) (w : world) :
  use_json l = true →
  device_body render_total conn l sno w =
  ('(header, _, totals) ←
     load_day render_total conn sno (day l) true (TFlag true) true;
   '(totals, raw) ← lift (json_loop header totals ∅);
   mret (set_jout (<[sno := raw]> (jout l)) (set_totals (TRow totals) l)))
    {| show_headers := true; trace := trace w |}.
Proof. intros H. unfold device_body. rewrite H. reflexivity. Qed.

Lemma device_body_json_keeps (conn : server) (l l' : locals) (sno : Z)
    (w w' : world) :
  use_json l = true →
  device_body render_total conn l sno w = (OK l', w') → use_json l' = true.
Proof.
  intros H. rewrite device_body_json by done.
  intros ([[hdr data] rw] & w1 & _ & H1)%M_bind_OK.
  apply M_bind_OK in H1 as ([rest raw] & w2 & _ & H1).
  by injection H1 as <- _.
Qed.

End ReportProperties.

(** ** Duplicates and unknown fields *)

Lemma consumed_nect1 (rec : raw_record) :
  consumed rec "nect1" = duplicates "imp" "nect1" rec.
Proof.
  unfold consumed. rewrite bool_decide_eq_false_2 by compute_done.
  change (String.eqb "nect1" "nect1") with true.
  change (String.eqb "nect1" "pect1") with false.
  cbn [orb andb]. by rewrite orb_false_r.
Qed.

Lemma consumed_pect1 (rec : raw_record) :
  consumed rec "pect1" = duplicates "exp" "pect1" rec.
Proof.
  unfold consumed. rewrite bool_decide_eq_false_2 by compute_done.
  change (String.eqb "pect1" "pect1") with true.
  change (String.eqb "pect1" "nect1") with false.
  by cbn [orb andb].
Qed.

Lemma secondary_dropped_iff (canon sec : string) (rec : raw_record) (v : Z) :
  rec !! sec = Some v →
  let rest := if duplicates canon sec rec then None else rec !! sec in
  (rest = None ↔ rec !! canon = Some v) ∧ (rest = None ∨ rest = Some v).
Proof.
  intros Hsec. unfold duplicates. rewrite Hsec.
  destruct (rec !! canon) as [a|]; cbn.
  - destruct (Z.eqb_spec a v) as [->|Hne]; split; try split; try done; auto.
    intros [= ->]. done.
  - split; [split; done|by right].
Qed.

(** C6.  A secondary field ([nect1] for [imp], [pect1] for [exp]) of a
    record is gone from what is left of the record exactly when the canonical
    field is there with the same value, otherwise it is left as it was; and
    the row, the timestamp and the meters are those of the record without
    the secondary fields, the cells of [imp] and [exp] coming from the
    record's own values. *)
Theorem duplicate_secondary_dropped (hourly : bool) (prev st : Z)
    (pm pm' : gmap string PowerMeter.t) (rec rest : raw_record) (rw : row) :
  record_body hourly prev pm rec = OK (rw, st, pm', rest) →
  (∀ v, rec !! "nect1" = Some v →
     (rest !! "nect1" = None ↔ rec !! "imp" = Some v) ∧
     (rest !! "nect1" = None ∨ rest !! "nect1" = Some v)) ∧
  (∀ v, rec !! "pect1" = Some v →
     (rest !! "pect1" = None ↔ rec !! "exp" = Some v) ∧
     (rest !! "pect1" = None ∨ rest !! "pect1" = Some v)) ∧
  outcome (record_body hourly prev pm (delete "nect1" (delete "pect1" rec)))
    = OK (rw, st, pm') ∧
  ∃ volts c_imp c_exp,
    volts_of rec = OK volts ∧
    slot_cell hourly volts rec "imp" = OK c_imp ∧ rw !! 2%nat = Some c_imp ∧
    slot_cell hourly volts rec "exp" = OK c_exp ∧ rw !! 3%nat = Some c_exp.
Proof.
  intros Hbody.
  pose proof Hbody
    as (_ & _ & -> & volts & cells & Hv & -> & Hcells & _)%record_body_OK.
  split; [|split; [|split]].
  - intros v Hsec. rewrite leftover_lookup, consumed_nect1.
    by apply secondary_dropped_iff.
  - intros v Hsec. rewrite leftover_lookup, consumed_pect1.
    by apply secondary_dropped_iff.
  - rewrite (record_body_agree hourly prev pm _ rec), Hbody; [done|].
    intros k [Hn Hp]%read_key_not_secondary. by rewrite !lookup_delete_ne.
  - destruct (Forall2_cells_lookup _ _ 0%nat "imp" Hcells eq_refl)
      as (c_imp & Hc1 & Himp).
    destruct (Forall2_cells_lookup _ _ 1%nat "exp" Hcells eq_refl)
      as (c_exp & Hc2 & Hexp).
    by exists volts, c_imp, c_exp.
Qed.

(** The result of one record, from its outcome. *)
Lemma record_step_result (hourly : bool) (prev : Z)
    (pm : gmap string PowerMeter.t) (data : list row) (rec : raw_record)
    (w : world) :
  (record_step hourly (prev, pm, data) rec w).1 =
  (x ← outcome (record_body hourly prev pm rec);
   OK (x.1.2, x.2, data ++ [x.1.1])).
Proof.
  unfold record_step. rewrite M_bind_unfold. cbn [lift].
  destruct (record_body hourly prev pm rec) as [e|[[[rw st] pm1] rest]]; [done|].
  rewrite M_bind_unfold.
  by destruct (negb (bool_decide (rest = ∅))).
Qed.

(** The result of the record loop depends on the fields of [read_keys] only. *)
Lemma records_loop_agree (hourly : bool) (res1 res2 : list raw_record) :
  Forall2 (fun r1 r2 : raw_record => ∀ k, k ∈ read_keys → r1 !! k = r2 !! k)
    res1 res2 →
  ∀ st w1 w2,
  (for_each (record_step hourly) st res1 w1).1
  = (for_each (record_step hourly) st res2 w2).1.
Proof.
  induction 1 as [|r1 r2 res1 res2 Hag _ IH]; intros st w1 w2; [done|].
  rewrite !for_each_cons, !M_bind_unfold.
  destruct st as [[prev pm] data].
  pose proof (record_step_result hourly prev pm data r1 w1) as H1.
  pose proof (record_step_result hourly prev pm data r2 w2) as H2.
  rewrite (record_body_agree hourly prev pm r1 r2 Hag), <- H2 in H1.
  destruct (record_step hourly (prev, pm, data) r1 w1) as [[e1|st1] w1'],
           (record_step hourly (prev, pm, data) r2 w2) as [[e2|st2] w2'];
    cbn [fst] in H1; try discriminate H1.
  - by injection H1 as ->.
  - injection H1 as ->. apply IH.
Qed.

Lemma known_lookup (rec : raw_record) (k : string) :
  k ∈ recognised → known rec !! k = rec !! k.
Proof.
  intros Hk. unfold known. apply option_eq. intros v.
  rewrite map_lookup_filter_Some. cbn. split; [by intros [? _]|by split].
Qed.

(** C5.  When a record has been processed, a field of it that the loop did
    not consume is in the diagnostic printed for the record, and the loop
    goes on with the records that follow; and the result of the whole loop,
    rows or exception, is the one it has on the records restricted to the
    recognised fields: an unrecognised field never makes it stop. *)
Theorem unrecognised_fields_reported (hourly : bool)
    (st st' : Z * gmap string PowerMeter.t * list row)
    (rec : raw_record) (res : list raw_record) (w w' : world)
    (k : string) (v : Z) :
  record_step hourly st rec w = (OK st', w') →
  rec !! k = Some v → consumed rec k = false →
  trace w' = trace w ++ [EPrintRec (leftover rec)] ∧
  leftover rec !! k = Some v ∧
  for_each (record_step hourly) st (rec :: res) w
    = for_each (record_step hourly) st' res w' ∧
  ∀ st0 res0 w0,
    (for_each (record_step hourly) st0 res0 w0).1
    = (for_each (record_step hourly) st0 (known <$> res0) w0).1.
Proof.
  intros Hstep Hk Hc.
  assert (leftover rec !! k = Some v) as Hleft
    by (by rewrite leftover_lookup, Hc).
  split; [|split; [done|split]].
  - destruct st as [[prev pm] data], st' as [[prev' pm'] data'].
    apply record_step_OK in Hstep as (rw & _ & _ & _ & ->).
    unfold diagnostics. cbn [omap list_omap].
    rewrite bool_decide_eq_false_2; [done|].
    intros Hempty. by rewrite Hempty, lookup_empty in Hleft.
  - rewrite for_each_cons.
    exact (M_bind_run _ (fun a' => for_each (record_step hourly) a' res)
             _ _ _ Hstep).
  - intros st0 res0 w0. apply records_loop_agree.
    apply Forall2_fmap_r, Forall_Forall2_diag, Forall_forall.
    intros r _ k' Hk'. symmetry. apply known_lookup.
    unfold recognised. by do 2 right.
Qed.

(** * Examples *)

(** A day without records. *)
Lemma load_day_no_records_witness :
  get_hour_data silent_server 10000001 today = [] ∧
  (load_day sample_render silent_server 10000001 today true (TFlag false) false
     start).1
  = OK (table_headers,
        [[CStr "Totals"; CNone] ++ ((fun _ => CStr "0 Ws") <$> headers)],
        [CStr "Totals"; CNone] ++ ((fun _ => CStr "0 Ws") <$> headers)).
Proof.
  split; [reflexivity|].
  exact (proj1 (load_day_no_records sample_render silent_server 10000001 today
                  true (TFlag false) false start eq_refl)).
Defined.

(** The JSON mapping of the sample device. *)
Lemma json_totals_mapping_witness :
  ∃ l' w' raw,
    device_body sample_render sample_server
      (foldl opt_step (init_locals today) [OptJson]) 10000001 start
      = (OK l', w') ∧
    jout l' = <[10000001 := raw]> ∅ ∧
    raw !! "Time" = None.
Proof.
  destruct (device_body sample_render sample_server
              (foldl opt_step (init_locals today) [OptJson]) 10000001 start)
    as [[e|l'] w'] eqn:Hdev.
  { exfalso.
    assert ((_ ← (device_body sample_render sample_server
                    (foldl opt_step (init_locals today) [OptJson])
                    10000001 start).1; OK ()) = OK ())
      as Hok by (vm_compute; reflexivity).
    rewrite Hdev in Hok. discriminate. }
  destruct (json_totals_mapping sample_render sample_server
              (foldl opt_step (init_locals today) [OptJson]) l' 10000001
              start w' eq_refl Hdev)
    as (hdr & data & rw & raw & _ & Hjout & Htime & _).
  exists l', w', raw. split; [reflexivity|]. split; [exact Hjout|exact Htime].
Defined.

(** A record with the unknown field [zzz]. *)
Lemma unrecognised_fields_reported_witness :
  ∃ st' w',
    record_step true (-3600, seeded (-3600), []) drifted_record start
      = (OK st', w') ∧
    trace w' = [EPrintRec (leftover drifted_record)] ∧
    leftover drifted_record !! "zzz" = Some 5.
Proof.
  destruct (record_step true (-3600, seeded (-3600), []) drifted_record start)
    as [[e|st'] w'] eqn:Hstep.
  { exfalso.
    assert ((_ ← (record_step true (-3600, seeded (-3600), []) drifted_record
                    start).1; OK ()) = OK ())
      as Hok by (vm_compute; reflexivity).
    rewrite Hstep in Hok. discriminate. }
  destruct (unrecognised_fields_reported true (-3600, seeded (-3600), []) st'
              drifted_record [] start w' "zzz" 5 Hstep eq_refl eq_refl)
    as (Htr & Hleft & _).
  exists st', w'. split; [reflexivity|]. split; [exact Htr|exact Hleft].
Defined.

(** A record whose [nect1] repeats [imp]. *)
Lemma duplicate_secondary_dropped_witness :
  ∃ rw st pm' rest,
    record_body true (-3600) (seeded (-3600)) duplicate_record
      = OK (rw, st, pm', rest) ∧
    rest !! "nect1" = None.
Proof.
  destruct (record_body true (-3600) (seeded (-3600)) duplicate_record)
    as [e|[[[rw st] pm'] rest]] eqn:Hbody.
  { exfalso.
    assert ((_ ← record_body true (-3600) (seeded (-3600)) duplicate_record;
             OK ()) = OK ())
      as Hok by (vm_compute; reflexivity).
    rewrite Hbody in Hok. discriminate. }
  destruct (duplicate_secondary_dropped true (-3600) st (seeded (-3600)) pm'
              duplicate_record rest rw Hbody) as (Hn & _).
  exists rw, st, pm', rest. split; [reflexivity|].
  by apply (Hn 1800 eq_refl).
Defined.

(** The month report up to the third day calls the server for the days 1, 2
    and 3. *)
Lemma month_rollup_days_witness :
  ∃ l' w',
    device_body sample_render sample_server
      (foldl opt_step (init_locals today) [OptShowMonth]) 10000001 start
      = (OK l', w') ∧
    filter is_fetch (trace w')
    = [EGetHour 10000001 (with_mday today 1);
       EGetHour 10000001 (with_mday today 2);
       EGetHour 10000001 (with_mday today 3)].
Proof.
  destruct (device_body sample_render sample_server
              (foldl opt_step (init_locals today) [OptShowMonth]) 10000001 start)
    as [[e|l'] w'] eqn:Hdev.
  { exfalso.
    assert ((_ ← (device_body sample_render sample_server
                    (foldl opt_step (init_locals today) [OptShowMonth])
                    10000001 start).1; OK ()) = OK ())
      as Hok by (vm_compute; reflexivity).
    rewrite Hdev in Hok. discriminate. }
  destruct (month_rollup_days sample_render sample_server
              (foldl opt_step (init_locals today) [OptShowMonth]) l' 10000001
              start w' 3 eq_refl eq_refl eq_refl Hdev) as (Hfetch & _).
  exists l', w'. split; [reflexivity|]. exact Hfetch.
Defined.

(** A per-minute day: the row shows 1 W, the total is 1.67 W for 120 s. *)
Lemma minute_rows_truncated_totals_exact_witness :
  ∃ hdr data rw w',
    load_day sample_render sample_server 10000001 today false (TFlag false)
      false start = (OK (hdr, data, rw), w') ∧
    rw !! 2%nat = Some (CStr "200 Ws").
Proof.
  destruct (load_day sample_render sample_server 10000001 today false
              (TFlag false) false start) as [[e|[[hdr data] rw]] w'] eqn:Hday.
  { exfalso.
    assert ((_ ← (load_day sample_render sample_server 10000001 today false
                    (TFlag false) false start).1; OK ()) = OK ())
      as Hok by (vm_compute; reflexivity).
    rewrite Hday in Hok. discriminate. }
  destruct (minute_rows_truncated_totals_exact sample_render sample_server
              10000001 today (TFlag false) false start w' hdr data rw Hday)
    as (_ & Htotals).
  destruct (Htotals 0%nat "imp" eq_refl) as (pmk & Hrun & Hrw).
  vm_compute in Hrun. injection Hrun as <-.
  exists hdr, data, rw, w'. split; [reflexivity|]. exact Hrw.
Defined.

(** [--day 5 --show-month] *)
Lemma day_option_month_type_error_witness :
  main sample_render sample_server today [OptDay "5"; OptShowMonth] start
  = (Raise TypeError, {| show_headers := true; trace := [] |}).
Proof.
  apply (day_option_month_type_error sample_render sample_server today
           [OptDay "5"; OptShowMonth] start "5" 10000001 []).
  - by left.
  - right. by left.
  - intros H. apply elem_of_cons in H as [H|H]; [discriminate|].
    apply elem_of_cons in H as [H|H]; [discriminate|].
    by apply elem_of_nil in H.
  - reflexivity.
Defined.

(** C10 as the specification words it fails: with [--json] as well, the
    JSON branch is taken and nothing is raised. *)
Lemma day_with_show_month_counterexample :
  ¬ day_with_show_month_raises sample_render silent_server today
      [OptDay "5"; OptShowMonth; OptJson].
Proof.
  intros H.
  assert ((main sample_render silent_server today
             [OptDay "5"; OptShowMonth; OptJson] start).1 = Raise TypeError)
    as Hraise.
  { apply H; [exists "5"; by left|right; by left]. }
  vm_compute in Hraise. discriminate.
Qed.

(** * More of [load_day] *)

Lemma default_last_cons (l : list Z) (t prev : Z) :
  default prev (last (t :: l)) = default t (last l).
Proof.
  revert t prev. induction l as [|x l IH]; intros t prev; [done|].
  change (last (t :: x :: l)) with (last (x :: l)).
  by rewrite (IH x prev), (IH x t).
Qed.

Lemma last_time_cons (prev : Z) (rec : raw_record) (res : list raw_record) :
  last_time prev (rec :: res) = last_time (sample_time_of rec) res.
Proof. apply default_last_cons. Qed.

Lemma records_loop_durations (hourly : bool) (res : list raw_record) :
  ∀ (prev prev' : Z) (pm pm' : gmap string PowerMeter.t)
    (data data' : list row) (w w' : world),
  for_each (record_step hourly) (prev, pm, data) res w
    = (OK (prev', pm', data'), w') →
  prev' = last_time prev res ∧
  ∃ rows,
    data' = data ++ rows ∧
    (fun r : row => r !! 1%nat) <$> rows
      = (fun d => Some (CInt d)) <$> slot_durations prev res ∧
    (fun r : row => r !! 0%nat) <$> rows
      = (fun rec : raw_record =>
           Some (CStr (time_label (default 0 (rec !! "hr"))
                                  (default 0 (rec !! "min"))))) <$> res ∧
    Forall (fun r : row => length r = 10%nat) rows.
Proof.
  induction res as [|rec res IH]; intros prev prev' pm pm' data data' w w' H.
  - injection H as <- <- <- <-. split; [done|]. exists [].
    by rewrite app_nil_r.
  - rewrite for_each_cons in H.
    apply M_bind_OK in H as ([[st pm1] data1] & w1 & H1 & H2).
    apply record_step_OK in H1 as (rw & Hbody & -> & _).
    apply record_body_OK in Hbody
      as (_ & -> & _ & volts & cells & _ & -> & Hcells & _).
    apply IH in H2 as (-> & rows & -> & Hdur & Hlab & Hlen).
    split; [by rewrite last_time_cons|].
    eexists (_ :: rows). split; [by rewrite <- app_assoc|].
    cbn [fmap list_fmap slot_durations]. split; [by f_equal|].
    split; [by f_equal|]. constructor; [|done].
    apply Forall2_length in Hcells. cbn [length app]. by rewrite <- Hcells.
Qed.

Lemma slot_durations_sum (res : list raw_record) (prev : Z) :
  foldr Z.add 0 (slot_durations prev res) = last_time prev res - prev.
Proof.
  revert prev. induction res as [|rec res IH]; intros prev.
  - unfold last_time. cbn. lia.
  - cbn [slot_durations foldr]. rewrite IH, last_time_cons. lia.
Qed.

Section MoreProperties.

Variable render_total : num → string.

(** A [load_day] that returns, taken apart: its record loop, its totals row
    and its effects. *)
Lemma load_day_inv (conn : server) (zid : Z) (day : Day)
    (hourly : bool) (totals : totals_arg) (use_json : bool) (w w' : world)
    (hdr : list string) (data : list row) (rw : row) :
  load_day render_total conn zid day hourly totals use_json w
    = (OK (hdr, data, rw), w') →
  ∃ prev pm rows w1,
    for_each (record_step hourly)
      (seed_time hourly, seeded (seed_time hourly), [])
      (samples conn hourly zid day)
      {| show_headers := show_headers w;
         trace := trace w ++ [fetch_event hourly zid day] |}
      = (OK (prev, pm, rows), w1) ∧
    foldM (totals_step render_total pm) [CStr "Totals"; CNone] headers = OK rw ∧
    hdr = table_headers ∧
    data = (if is_true totals then [] else rows) ++ [rw] ∧
    w' = (if use_json then w1
          else {| show_headers := false;
                  trace := trace w1 ++
                    [EPrintCount (length rows);
                     EPrintTable
                       (if show_headers w1 then Some table_headers else None)
                       data] |}).
Proof.
  intros H. pose proof H as H'. rewrite load_day_unfold in H'.
  apply M_bind_OK in H' as ([] & w0 & H0 & H'). injection H0 as <-.
  apply M_bind_OK in H' as ([[prev pm] rows] & w1 & Hloop & H').
  apply M_bind_OK in H' as ([] & w2 & _ & H').
  apply M_bind_OK in H' as (rw' & w3 & Hrow & _).
  apply (f_equal fst) in Hrow.
  change (foldM (totals_step render_total pm) [CStr "Totals"; CNone] headers
          = OK rw') in Hrow.
  rewrite (load_day_run render_total _ _ _ _ _ _ _ _ _ _ _ _ Hloop Hrow) in H.
  injection H as <- <- <- <-.
  by exists prev, pm, rows, w1.
Qed.

(** The trace and the flag after a [load_day] that returns. *)
Lemma load_day_effects (conn : server) (zid : Z) (day : Day)
    (hourly : bool) (totals : totals_arg) (use_json : bool) (w w' : world)
    (hdr : list string) (data : list row) (rw : row) :
  load_day render_total conn zid day hourly totals use_json w
    = (OK (hdr, data, rw), w') →
  trace w' = trace w ++
    fetch_event hourly zid day ::
    diagnostics (samples conn hourly zid day) ++
    (if use_json then []
     else [EPrintCount (length (samples conn hourly zid day));
           EPrintTable (if show_headers w then Some table_headers else None)
             data]) ∧
  show_headers w' = (if use_json then show_headers w else false).
Proof.
  intros (prev & pm & rows & w1 & Hloop & _ & _ & _ & ->)%load_day_inv.
  apply records_loop_OK in Hloop as ((rows' & Hrows & Hlen) & Hsh & Htr & _).
  cbn [show_headers trace app] in *. subst rows. rewrite Hlen.
  destruct use_json.
  - rewrite Htr, Hsh, app_nil_r, <- app_assoc. done.
  - cbn [show_headers trace]. rewrite Htr, Hsh, <- !app_assoc. done.
Qed.

(** What [load_day] prints, and what it leaves in [show_headers]: after the
    call to the server come the diagnostics of the records, then, outside
    JSON mode, the number of records and one table, with the headers exactly
    when [show_headers] was set, which it no longer is afterwards. *)
Theorem load_day_prints (conn : server) (zid : Z) (day : Day)
    (hourly : bool) (totals : totals_arg) (use_json : bool) (w w' : world)
    (hdr : list string) (data : list row) (rw : row) :
  load_day render_total conn zid day hourly totals use_json w
    = (OK (hdr, data, rw), w') →
  trace w' = trace w ++
    fetch_event hourly zid day ::
    diagnostics (samples conn hourly zid day) ++
    (if use_json then []
     else [EPrintCount (length (samples conn hourly zid day));
           EPrintTable (if show_headers w then Some table_headers else None)
             data]) ∧
  show_headers w' = (if use_json then show_headers w else false).
Proof. apply load_day_effects. Qed.

(** The shape of the table of a day: the headers are the ten of
    [table_headers]; the table has one row per record, or none when only the
    totals are wanted, followed by the totals row; every row has one cell
    per header. *)
Theorem load_day_table_shape (conn : server) (zid : Z) (day : Day)
    (hourly : bool) (totals : totals_arg) (use_json : bool) (w w' : world)
    (hdr : list string) (data : list row) (rw : row) :
  load_day render_total conn zid day hourly totals use_json w
    = (OK (hdr, data, rw), w') →
  length hdr = 10%nat ∧
  length data = ((if is_true totals then 0
                  else length (samples conn hourly zid day)) + 1)%nat ∧
  last data = Some rw ∧
  Forall (fun r : row => length r = length hdr) data.
Proof.
  intros (prev & pm & rows & w1 & Hloop & Hrow & -> & -> & _)%load_day_inv.
  pose proof Hloop as ((rows' & Hrows & Hlen) & _)%records_loop_OK.
  apply records_loop_durations in Hloop as (_ & rows'' & Hrows' & _ & _ & Hwidth).
  cbn [app] in Hrows, Hrows'. subst rows'' rows'.
  apply totals_row_OK in Hrow as (cells & -> & Hcells).
  apply Forall2_length in Hcells.
  split; [done|]. split; [|split].
  - rewrite length_app. cbn [length]. by destruct (is_true totals); rewrite ?Hlen.
  - by rewrite last_snoc.
  - apply Forall_app. split.
    + by destruct (is_true totals).
    + constructor; [|done]. cbn [length app]. by rewrite <- Hcells.
Qed.

(** The time and duration columns of a day: the row of a record shows its
    time of day and the seconds from the slot timestamp of the record before,
    from the seed for the first record, to its own; so the durations of a
    day add up to the last slot timestamp minus the seed. *)
Theorem load_day_durations (conn : server) (zid : Z) (day : Day)
    (hourly : bool) (totals : totals_arg) (use_json : bool) (w w' : world)
    (hdr : list string) (data : list row) (rw : row) :
  load_day render_total conn zid day hourly totals use_json w
    = (OK (hdr, data, rw), w') →
  is_true totals = false →
  let res := samples conn hourly zid day in
  let rows := firstn (length res) data in
  (fun r : row => r !! 0%nat) <$> rows
    = (fun rec : raw_record =>
         Some (CStr (time_label (default 0 (rec !! "hr"))
                                (default 0 (rec !! "min"))))) <$> res ∧
  (fun r : row => r !! 1%nat) <$> rows
    = (fun d => Some (CInt d)) <$> slot_durations (seed_time hourly) res ∧
  foldr Z.add 0 (slot_durations (seed_time hourly) res)
    = last_time (seed_time hourly) res - seed_time hourly.
Proof.
  intros (prev & pm & rows0 & w1 & Hloop & _ & _ & -> & _)%load_day_inv Ht res rows.
  pose proof Hloop as ((rows' & Hrows & Hlen) & _)%records_loop_OK.
  apply records_loop_durations in Hloop as (_ & rows'' & Hrows' & Hdur & Hlab & _).
  cbn [app] in Hrows, Hrows'. subst rows'' rows'.
  assert (rows = rows0) as ->.
  { unfold rows, res. rewrite Ht, <- Hlen. by rewrite take_app_length. }
  split; [done|]. split; [done|]. apply slot_durations_sum.
Qed.

End MoreProperties.

(** * Exceptions of the record loop *)

Lemma foldM_ext {A B} (f g : A → B → result A) (l : list B) :
  (∀ a b, f a b = g a b) → ∀ a, foldM f a l = foldM g a l.
Proof.
  intros Hfg. induction l as [|b l IH]; intros a; [done|].
  rewrite !foldM_cons, Hfg. destruct (g a b); [done|]. rewrite !bind_OK_l. apply IH.
Qed.

Lemma foldM_delitem_missing (keys : list string) :
  NoDup keys →
  ∀ (r : raw_record) (k : string), k ∈ keys → r !! k = None →
  ∃ k', k' ∈ keys ∧ r !! k' = None ∧ foldM delitem r keys = Raise (KeyError k').
Proof.
  induction 1 as [|key keys Hnin Hnd IH]; intros r k Hk Hnone.
  - by apply elem_of_nil in Hk.
  - rewrite foldM_cons. destruct (r !! key) as [v|] eqn:Hkey.
    + rewrite (delitem_Some _ _ _ Hkey), bind_OK_l.
      apply elem_of_cons in Hk as [->|Hk]; [congruence|].
      destruct (IH (delete key r) k Hk) as (k' & Hk' & Hnone' & Hrun).
      { by rewrite lookup_delete_ne by (by intros ->). }
      exists k'. split; [by right|]. split; [|done].
      rewrite lookup_delete_ne in Hnone'; [done|]. by intros ->.
    + exists key. split; [by left|]. split; [done|].
      by rewrite (delitem_None _ _ Hkey).
Qed.

Lemma calendar_keys_NoDup : NoDup calendar_keys.
Proof. compute_done. Qed.

(** A record without one of the calendar fields raises [KeyError]. *)
Lemma record_body_missing_calendar (hourly : bool) (prev : Z)
    (pm : gmap string PowerMeter.t) (rec : raw_record) (k : string) :
  k ∈ calendar_keys → rec !! k = None →
  ∃ k', k' ∈ calendar_keys ∧ rec !! k' = None ∧
        record_body hourly prev pm rec = Raise (KeyError k').
Proof.
  intros Hk Hnone. rewrite record_body_eq.
  assert (∀ x, x ∈ calendar_keys →
            delete "min" (delete "hr" (drop_duplicate "exp" "pect1"
              (drop_duplicate "imp" "nect1" rec))) !! x = rec !! x) as Hsame.
  { intros x Hx. unfold calendar_keys in Hx.
    split_elem Hx; by rewrite !lookup_delete_ne, time_fields_lookup. }
  destruct (foldM_delitem_missing calendar_keys calendar_keys_NoDup
              (delete "min" (delete "hr" (drop_duplicate "exp" "pect1"
                 (drop_duplicate "imp" "nect1" rec)))) k Hk)
    as (k' & Hk' & Hnone' & Hrun); [by rewrite Hsame|].
  exists k'. split; [done|]. split; [by rewrite <- Hsame|]. by rewrite Hrun.
Qed.

Lemma truediv_errors (a b : num) (e : exn) :
  truediv a b = inl e → e = ZeroDivisionError ∨ e = OverflowError.
Proof.
  unfold truediv, int_truediv, float_truediv, to_float, float_of_int.
  destruct a as [x|x], b as [y|y]; cbn;
    repeat (match goal with
            | |- context [if ?c then _ else _] => destruct c
            | |- context [match ?s with S754_zero _ => _ | _ => _ end] => destruct s
            end; cbn);
    intros [= <-]; auto.
Qed.

Lemma int_truediv_nonzero_errors (a b : Z) (e : exn) :
  b ≠ 0 → truediv (NInt a) (NInt b) = inl e → e = OverflowError.
Proof.
  intros Hb. unfold truediv, int_truediv.
  destruct (Z.eqb_spec b 0) as [|_]; [done|].
  by destruct (SFdiv _ _ _ _); cbn; intros [= <-].
Qed.

Lemma mul_errors (a b : num) (e : exn) : mul a b = inl e → e = OverflowError.
Proof.
  unfold mul, to_float, float_of_int.
  destruct a as [x|x], b as [y|y]; cbn;
    repeat (match goal with
            | |- context [match ?s with S754_zero _ => _ | _ => _ end] => destruct s
            end; cbn);
    by intros [= <-].
Qed.

Lemma int_errors (a : num) (e : exn) :
  int a = inl e → e = OverflowError ∨ e = ValueError.
Proof.
  unfold int, trunc_float. destruct a as [x|x]; [done|].
  destruct (Prim2SF x); intros [= <-]; auto.
Qed.

Lemma watts_of_errors (hourly : bool) (volts : num) (value : Z) (e : exn) :
  watts_of hourly volts value = inl e →
  (e = ZeroDivisionError ∧ hourly = false) ∨ e = OverflowError.
Proof.
  unfold watts_of. destruct hourly.
  - intros H%int_truediv_nonzero_errors; [by right|done].
  - destruct (truediv (NInt value) volts) as [e'|q] eqn:Hq.
    + intros [= <-]. destruct (truediv_errors _ _ _ Hq); auto.
    + rewrite bind_OK_l. intros H%mul_errors. by right.
Qed.

Lemma channel_loop_errors (hourly : bool) (volts : num) (st : Z)
    (keys : list string) :
  ∀ (rw : row) (rec : raw_record) (pm : gmap string PowerMeter.t) (e : exn),
  (∀ k, k ∈ keys → is_Some (pm !! k)) →
  foldM (channel_step hourly volts st) (rw, rec, pm) keys = inl e →
  (e = ZeroDivisionError ∧ hourly = false) ∨ e = OverflowError ∨ e = ValueError.
Proof.
  induction keys as [|key keys IH]; intros rw rec pm e Hpm; [done|].
  rewrite foldM_cons, channel_step_eq.
  destruct (Hpm key) as [pm0 Hpm0]; [by left|].
  unfold slot_cell, slot_watts. destruct (rec !! key) as [value|].
  - destruct (watts_of hourly volts value) as [e'|watts] eqn:Hw.
    { intros [= <-]. destruct (watts_of_errors _ _ _ _ Hw); auto. }
    rewrite !bind_OK_l. destruct (int watts) as [e'|shown] eqn:Hs.
    { intros [= <-]. destruct (int_errors _ _ Hs); auto. }
    rewrite !bind_OK_l, (getitem_Some _ _ _ Hpm0), bind_OK_l.
    apply IH. intros k Hk. rewrite lookup_insert_is_Some'.
    right. apply Hpm. by right.
  - rewrite !bind_OK_l, (getitem_Some _ _ _ Hpm0), bind_OK_l.
    apply IH. intros k Hk. rewrite lookup_insert_is_Some'.
    right. apply Hpm. by right.
Qed.

Lemma record_body_errors (hourly : bool) (prev : Z)
    (pm : gmap string PowerMeter.t) (rec : raw_record) (e : exn) :
  (∀ k, k ∈ headers → is_Some (pm !! k)) →
  record_body hourly prev pm rec = inl e → day_error hourly e.
Proof.
  intros Hpm. rewrite record_body_eq.
  destruct (foldM delitem _ calendar_keys) as [e'|r5] eqn:Hcal.
  - intros [= <-]. left.
    assert (∀ keys (r : raw_record) e0, foldM delitem r keys = inl e0 →
              ∃ k, e0 = KeyError k ∧ k ∈ keys) as Hdel.
    { clear. induction keys as [|key keys IH]; intros r e0; [done|].
      rewrite foldM_cons. destruct (r !! key) as [v|] eqn:Hkey.
      - rewrite (delitem_Some _ _ _ Hkey), bind_OK_l.
        intros (k & -> & Hk)%IH. exists k. split; [done|by right].
      - rewrite (delitem_None _ _ Hkey).
        intros [= <-]. exists key. split; [done|by left]. }
    by apply Hdel in Hcal.
  - rewrite bind_OK_l. unfold volts_of.
    destruct (match rec !! "v1" with
              | Some v => truediv (NInt v) (NInt 10)
              | None => OK (NInt 1)
              end) as [e'|volts] eqn:Hv.
    + intros [= <-]. destruct (rec !! "v1") as [v|]; [|done].
      apply int_truediv_nonzero_errors in Hv; [|done]. right; right; by left.
    + rewrite bind_OK_l.
      destruct (foldM _ _ headers) as [e'|[[rw rest] pm']] eqn:Hloop; [|done].
      intros [= <-]. right. by eapply channel_loop_errors.
Qed.

Lemma records_loop_errors (hourly : bool) (res : list raw_record) :
  ∀ (prev : Z) (pm : gmap string PowerMeter.t) (data : list row)
    (w w' : world) (e : exn),
  (∀ k, k ∈ headers → is_Some (pm !! k)) →
  for_each (record_step hourly) (prev, pm, data) res w = (inl e, w') →
  day_error hourly e.
Proof.
  induction res as [|rec res IH]; intros prev pm data w w' e Hpm H; [done|].
  rewrite for_each_cons, M_bind_unfold in H.
  destruct (record_step hourly (prev, pm, data) rec w)
    as [[e'|[[st pm1] data1]] w1] eqn:Hstep.
  - injection H as <- <-. unfold record_step in Hstep.
    rewrite M_bind_unfold in Hstep. cbn [lift] in Hstep.
    destruct (record_body hourly prev pm rec) as [e''|[[[rw st] pm1] rest]] eqn:Hb.
    + injection Hstep as <- _. by eapply record_body_errors.
    + rewrite M_bind_unfold in Hstep.
      destruct (negb (bool_decide (rest = ∅))); discriminate Hstep.
  - apply record_step_OK in Hstep as (rw & Hbody & _).
    apply record_body_OK in Hbody as (_ & _ & _ & volts & cells & _ & _ & _ & Hm & _).
    eapply IH; [|exact H]. intros k Hk.
    destruct (Hm k Hk) as (pm0 & wt & _ & _ & Hpm1). by eexists.
Qed.

Lemma records_loop_keeps_meters (hourly : bool) (res : list raw_record)
    (prev prev' : Z) (pm pm' : gmap string PowerMeter.t)
    (data data' : list row) (w w' : world) :
  (∀ k, k ∈ headers → is_Some (pm !! k)) →
  for_each (record_step hourly) (prev, pm, data) res w
    = (OK (prev', pm', data'), w') →
  ∀ k, k ∈ headers → is_Some (pm' !! k).
Proof.
  intros Hpm (_ & _ & _ & Hm)%records_loop_OK k Hk.
  destruct (Hpm k Hk) as [pm0 Hpm0].
  destruct (Hm k pm0 Hk Hpm0) as (pmk & _ & Hpmk). by eexists.
Qed.

Lemma seeded_is_Some (prev : Z) (k : string) :
  k ∈ headers → is_Some (seeded prev !! k).
Proof. intros Hk. rewrite seeded_lookup by done. by eexists. Qed.

Section DayResult.

Variable render_total : num → string.

(** The value [load_day] returns or the exception it raises, apart from
    what it prints. *)
Lemma load_day_result (conn : server) (zid : Z) (day : Day)
    (hourly : bool) (totals : totals_arg) (use_json : bool) (w : world) :
  (load_day render_total conn zid day hourly totals use_json w).1 =
  (x ← (for_each (record_step hourly)
          (seed_time hourly, seeded (seed_time hourly), [])
          (samples conn hourly zid day)
          {| show_headers := show_headers w;
             trace := trace w ++ [fetch_event hourly zid day] |}).1;
   rw ← foldM (totals_step render_total x.1.2) [CStr "Totals"; CNone] headers;
   OK (table_headers, (if is_true totals then [] else x.2) ++ [rw], rw)).
Proof.
  destruct (for_each _ _ _ _) as [[e|[[prev pm] rows]] w1] eqn:Hloop.
  - by rewrite (load_day_fail _ _ _ _ _ _ _ _ _ _ Hloop).
  - cbn [fst]. rewrite bind_OK_l. cbn [fst snd].
    destruct (totals_row_succeeds render_total pm headers) with
      (rw := [CStr "Totals"; CNone]) as [rw Hrow].
    { eapply records_loop_keeps_meters; [|exact Hloop]. apply seeded_is_Some. }
    rewrite (load_day_run _ _ _ _ _ _ _ _ _ _ _ _ _ Hloop Hrow), Hrow. done.
Qed.

(** The exceptions of [load_day]: [KeyError] for a calendar field that is
    missing, [ZeroDivisionError] in per-minute mode only, [OverflowError]
    and [ValueError]; in particular never a [KeyError] for a meter. *)
Theorem load_day_errors (conn : server) (zid : Z) (day : Day)
    (hourly : bool) (totals : totals_arg) (use_json : bool) (w w' : world)
    (e : exn) :
  load_day render_total conn zid day hourly totals use_json w = (inl e, w') →
  (∃ k, e = KeyError k ∧ k ∈ calendar_keys) ∨
  (e = ZeroDivisionError ∧ hourly = false) ∨
  e = OverflowError ∨ e = ValueError.
Proof.
  intros H. apply (f_equal fst) in H. rewrite load_day_result in H. cbn [fst] in H.
  destruct (for_each _ _ _ _) as [[e'|[[prev pm] rows]] w1] eqn:Hloop.
  - cbn in H. injection H as <-.
    eapply records_loop_errors; [|exact Hloop]. apply seeded_is_Some.
  - cbn [fst] in H. rewrite bind_OK_l in H. cbn [fst snd] in H.
    destruct (totals_row_succeeds render_total pm headers) with
      (rw := [CStr "Totals"; CNone]) as [rw Hrow].
    { eapply records_loop_keeps_meters; [|exact Hloop]. apply seeded_is_Some. }
    rewrite Hrow in H. discriminate H.
Qed.

(** What [load_day] returns does not depend on [use_json] nor on what was
    printed before, and its headers and totals row do not depend on
    [totals] either: these only change what is printed and which rows the
    table keeps. *)
Theorem load_day_result_independent (conn : server) (zid : Z) (day : Day)
    (hourly : bool) (totals totals' : totals_arg) (use_json use_json' : bool)
    (w w' : world) :
  ((fun x => (x.1.1, x.2)) <$>
     (load_day render_total conn zid day hourly totals use_json w).1)
  = ((fun x => (x.1.1, x.2)) <$>
     (load_day render_total conn zid day hourly totals' use_json' w').1) ∧
  (is_true totals = is_true totals' →
   (load_day render_total conn zid day hourly totals use_json w).1
   = (load_day render_total conn zid day hourly totals' use_json' w').1).
Proof.
  rewrite !load_day_result.
  rewrite (records_loop_agree hourly _ (samples conn hourly zid day)
             (Forall_Forall2_diag _ _ (Forall_true _ _ (fun _ _ _ => eq_refl)))
             _ _ {| show_headers := show_headers w';
                    trace := trace w' ++ [fetch_event hourly zid day] |}).
  destruct (for_each _ _ _ _).1 as [e|[[prev pm] rows]]; [done|].
  rewrite !bind_OK_l. cbn [fst snd].
  destruct (foldM _ _ headers) as [e|rw]; [done|]. rewrite !bind_OK_l.
  split; [done|]. by intros ->.
Qed.

End DayResult.

(** * Missing calendar fields and a zero voltage *)

Lemma first_record_fails (hourly : bool) (rec : raw_record)
    (rest : list raw_record) (prev : Z) (pm : gmap string PowerMeter.t)
    (data : list row) (w : world) (e : exn) :
  record_body hourly prev pm rec = Raise e →
  for_each (record_step hourly) (prev, pm, data) (rec :: rest) w = (Raise e, w).
Proof.
  intros Hbody. rewrite for_each_cons. apply M_bind_fail.
  unfold record_step. apply M_bind_fail. unfold lift. by rewrite Hbody.
Qed.

(** With a zero voltage, the first channel of the record raises. *)
Lemma channel_loop_zero_volts (st : Z) (keys : list string) :
  ∀ (rw : row) (rec : raw_record) (pm : gmap string PowerMeter.t) (key : string),
  (∀ k, k ∈ keys → is_Some (pm !! k)) →
  (∀ k v, k ∈ keys → rec !! k = Some v → ∃ f, float_of_int v = OK f) →
  key ∈ keys → is_Some (rec !! key) →
  foldM (channel_step false (NFloat 0) st) (rw, rec, pm) keys
    = Raise ZeroDivisionError.
Proof.
  induction keys as [|k0 keys IH]; intros rw rec pm key Hpm Hfit Hkey Hpresent.
  - by apply elem_of_nil in Hkey.
  - rewrite foldM_cons, channel_step_eq. unfold slot_cell, slot_watts.
    destruct (rec !! k0) as [value|] eqn:Hk0.
    + destruct (Hfit k0 value) as [f Hf]; [by left|done|].
      unfold watts_of, truediv, to_float. rewrite Hf. reflexivity.
    + destruct (Hpm k0) as [pm0 Hpm0]; [by left|].
      rewrite !bind_OK_l, (getitem_Some _ _ _ Hpm0), bind_OK_l.
      apply elem_of_cons in Hkey as [->|Hkey].
      { rewrite Hk0 in Hpresent. by destruct Hpresent. }
      assert (∀ k, k ∈ keys → is_Some (rec !! k) → k ≠ k0) as Hne.
      { intros k _ [v Hv] ->. congruence. }
      apply (IH _ _ _ key).
      * intros k Hk. rewrite lookup_insert_is_Some'. right. apply Hpm. by right.
      * intros k v Hk Hv. destruct (decide (k = k0)) as [->|Hkk].
        { by rewrite lookup_delete_eq in Hv. }
        rewrite lookup_delete_ne in Hv by done. apply (Hfit k v); [by right|done].
      * done.
      * rewrite lookup_delete_ne; [done|]. intros ->. by apply (Hne key).
Qed.

Lemma hourly_step_any_volts (volts volts' : num) (st : Z)
    (x : row * raw_record * gmap string PowerMeter.t) (key : string) :
  channel_step true volts st x key = channel_step true volts' st x key.
Proof. by destruct x as [[rw rec] pm]. Qed.

Section RecordErrors.

Variable render_total : num → string.

(** [load_day] returns only if every record of the day has the four
    calendar fields [dow], [yr], [mon] and [dom]. *)
Theorem load_day_requires_calendar (conn : server) (zid : Z) (day : Day)
    (hourly : bool) (totals : totals_arg) (use_json : bool) (w w' : world)
    (hdr : list string) (data : list row) (rw : row) :
  load_day render_total conn zid day hourly totals use_json w
    = (OK (hdr, data, rw), w') →
  ∀ rec k, rec ∈ samples conn hourly zid day → k ∈ calendar_keys →
    is_Some (rec !! k).
Proof.
  intros (prev & pm & rows & w1 & _ & Hloop & _)%load_day_OK rec k Hrec Hk.
  apply list_elem_of_lookup_1 in Hrec as [n Hn].
  destruct (records_loop_rows _ _ _ _ _ _ _ _ _ _ Hloop n rec Hn)
    as (p & m & r & st & m' & rest & Hbody & _).
  apply record_body_OK in Hbody as (Hcal & _). by apply Hcal.
Qed.

(** A day whose first record lacks a calendar field: [load_day] raises
    [KeyError] for a calendar field the record lacks, after the call to the
    server and before it prints anything. *)
Theorem load_day_missing_calendar (conn : server) (zid : Z) (day : Day)
    (hourly : bool) (totals : totals_arg) (use_json : bool) (w : world)
    (rec : raw_record) (rest : list raw_record) (k : string) :
  (if hourly then get_hour_data conn zid day
   else get_minute_data conn zid day) = rec :: rest →
  k ∈ calendar_keys → rec !! k = None →
  ∃ k', k' ∈ calendar_keys ∧ rec !! k' = None ∧
    load_day render_total conn zid day hourly totals use_json w
    = (Raise (KeyError k'),
       {| show_headers := show_headers w;
          trace := trace w ++ [fetch_event hourly zid day] |}).
Proof.
  intros Hres Hk Hnone.
  destruct (record_body_missing_calendar hourly (seed_time hourly)
              (seeded (seed_time hourly)) rec k Hk Hnone)
    as (k' & Hk' & Hnone' & Hbody).
  exists k'. split; [done|]. split; [done|].
  apply load_day_fail. unfold samples. rewrite Hres.
  by apply first_record_fails.
Qed.

(** A per-minute day whose first record has the voltage 0 and at least one
    channel: [load_day] raises [ZeroDivisionError] (the channel values being
    small enough for a float), after the call to the server and before it
    prints anything. *)
Theorem load_day_zero_voltage (conn : server) (zid : Z) (day : Day)
    (totals : totals_arg) (use_json : bool) (w : world)
    (rec : raw_record) (rest : list raw_record) (key : string) :
  get_minute_data conn zid day = rec :: rest →
  (∀ k, k ∈ calendar_keys → is_Some (rec !! k)) →
  rec !! "v1" = Some 0 →
  key ∈ headers → is_Some (rec !! key) →
  (∀ k v, k ∈ headers → rec !! k = Some v → ∃ f, float_of_int v = OK f) →
  load_day render_total conn zid day false totals use_json w
  = (Raise ZeroDivisionError,
     {| show_headers := show_headers w;
        trace := trace w ++ [EGetMinute zid day] |}).
Proof.
  intros Hres Hcal Hv1 Hkey Hpresent Hfit.
  apply load_day_fail. unfold samples. rewrite Hres.
  apply first_record_fails. rewrite record_body_eq.
  rewrite foldM_delitem_succeeds.
  2:{ apply calendar_keys_NoDup. }
  2:{ intros k Hk. destruct (Hcal k Hk) as [v Hv]. exists v.
      unfold calendar_keys in Hk.
      split_elem Hk; by rewrite !lookup_delete_ne, time_fields_lookup. }
  rewrite bind_OK_l. unfold volts_of. rewrite Hv1.
  change (truediv (NInt 0) (NInt 10)) with (OK (NFloat 0)).
  rewrite bind_OK_l.
  rewrite (channel_loop_zero_volts _ headers _ _ _ key); [done|..].
  - intros k Hk. apply seeded_is_Some. done.
  - intros k v Hk Hv. rewrite stripped_header in Hv by done. by apply (Hfit k v).
  - done.
  - by rewrite stripped_header.
Qed.

End RecordErrors.

(** In hourly mode the voltage is computed and not used: a record gives the
    same row, timestamp and meters with and without its [v1] field, as long
    as [v1 / 10] itself can be computed. *)
Theorem hourly_ignores_voltage (prev : Z) (pm : gmap string PowerMeter.t)
    (rec : raw_record) (volts : num) :
  volts_of rec = OK volts →
  outcome (record_body true prev pm rec)
  = outcome (record_body true prev pm (delete "v1" rec)).
Proof.
  intros Hv. rewrite !record_body_eq, !outcome_bind.
  assert (∀ k, k ≠ "v1" → delete "v1" rec !! k = rec !! k) as Hother.
  { intros k Hk. by rewrite lookup_delete_ne. }
  assert (sample_time_of (delete "v1" rec) = sample_time_of rec) as ->.
  { unfold sample_time_of. by rewrite !Hother. }
  rewrite !(Hother "hr"), !(Hother "min") by done.
  etrans.
  { apply foldM_delitem_agree with
      (r2 := delete "min" (delete "hr" (drop_duplicate "exp" "pect1"
               (drop_duplicate "imp" "nect1" (delete "v1" rec))))).
    intros k Hk. unfold calendar_keys in Hk.
    split_elem Hk; rewrite !lookup_delete_ne, !time_fields_lookup by done;
      by rewrite Hother. }
  f_equal. unfold outcome. rewrite Hv, bind_OK_l.
  assert (volts_of (delete "v1" rec) = OK (NInt 1)) as ->.
  { unfold volts_of. by rewrite lookup_delete_eq. }
  rewrite bind_OK_l.
  rewrite (foldM_ext _ (channel_step true (NInt 1) (sample_time_of rec)) headers
             (hourly_step_any_volts volts (NInt 1) (sample_time_of rec))).
  assert (∀ k, k ∈ headers →
            stripped rec !! k = stripped (delete "v1" rec) !! k) as Hst.
  { intros k Hk. rewrite !stripped_header by done. symmetry. apply Hother.
    intros ->. revert Hk. compute_done. }
  pose proof (channel_loop_agree true (NInt 1) (sample_time_of rec) headers
    [CStr (time_label (default 0 (rec !! "hr")) (default 0 (rec !! "min")));
     CInt (sample_time_of rec - prev)]
    (stripped rec) (stripped (delete "v1" rec)) pm Hst) as Hloop.
  destruct (foldM _ (_, stripped rec, pm) headers) as [e1|[[rw1 rest1] pm1]];
    destruct (foldM _ (_, stripped (delete "v1" rec), pm) headers)
      as [e2|[[rw2 rest2] pm2]];
    try discriminate Hloop.
  - by injection Hloop as ->.
  - rewrite !bind_OK_l in Hloop. injection Hloop as -> ->. reflexivity.
Qed.

(** * More of [main] *)

Lemma parse_month_notin (opts : list cli_opt) (l : locals) :
  OptShowMonth ∉ opts → show_month (foldl opt_step l opts) = show_month l.
Proof.
  revert l. induction opts as [|o opts IH]; intros l H; [done|].
  cbn [foldl]. rewrite IH.
  - destruct o; try done. exfalso. apply H. by left.
  - intros ?. apply H. by right.
Qed.

Lemma parse_jout (opts : list cli_opt) (l : locals) :
  jout (foldl opt_step l opts) = jout l.
Proof.
  revert l. induction opts as [|o opts IH]; intros l; [done|].
  cbn [foldl]. rewrite IH. by destruct o.
Qed.

Lemma filter_table_diagnostics (res : list raw_record) :
  filter is_table (diagnostics res) = [].
Proof.
  induction res as [|rec res IH]; [done|].
  rewrite diagnostics_cons, filter_app, IH, app_nil_r.
  unfold diagnostics. cbn [omap list_omap].
  by destruct (bool_decide (leftover rec = ∅)).
Qed.

Section MainProperties.

Variable render_total : num → string.

(** The JSON report of one device that returns. *)
Lemma device_body_json_OK (conn : server) (l l' : locals) (sno : Z)
    (w w' : world) :
  use_json l = true →
  device_body render_total conn l sno w = (OK l', w') →
  trace w' = trace w ++ json_device_events conn (day l) sno ∧
  (∃ raw, jout l' = <[sno := raw]> (jout l)) ∧
  use_json l' = true ∧ day l' = day l.
Proof.
  intros Hjson. rewrite device_body_json by done.
  intros ([[hdr data] rw] & w1 & Hday & H)%M_bind_OK.
  apply M_bind_OK in H as ([rest raw] & w2 & Hloop & H).
  injection Hloop as _ <-. injection H as <- <-.
  apply load_day_inv in Hday
    as (prev & pm & rows & w2 & Hrec & _ & _ & _ & ->).
  apply records_loop_OK in Hrec as (_ & _ & Htr & _). cbn [trace] in Htr.
  split; [by rewrite Htr, <- app_assoc|]. split; [by exists raw|done].
Qed.

Lemma devices_json_OK (conn : server) (devices : list Z) :
  ∀ (l l' : locals) (w w' : world),
  use_json l = true →
  for_each (device_body render_total conn) l devices w = (OK l', w') →
  trace w' = trace w ++
    mjoin (json_device_events conn (day l) <$> devices) ∧
  (∀ sno, is_Some (jout l' !! sno) ↔
          is_Some (jout l !! sno) ∨ sno ∈ devices) ∧
  use_json l' = true.
Proof.
  induction devices as [|sno devices IH]; intros l l' w w' Hjson H.
  - injection H as <- <-. rewrite app_nil_r. split; [done|]. split; [|done].
    intros sno. split; [by left|]. intros [?|?%elem_of_nil]; done.
  - rewrite for_each_cons in H. apply M_bind_OK in H as (l1 & w1 & Hdev & H).
    apply device_body_json_OK in Hdev as (Htr1 & [raw Hjout] & Hjson1 & Hday);
      [|done].
    apply IH in H as (Htr & Hdom & Hjson'); [|done].
    split; [|split; [|done]].
    + rewrite Htr, Htr1, Hday. cbn [fmap list_fmap mjoin list_join].
      by rewrite <- !app_assoc.
    + intros s. rewrite Hdom, Hjout, lookup_insert_is_Some, elem_of_cons.
      destruct (decide (sno = s)) as [->|Hne]; [tauto|].
      assert (s ≠ sno) by congruence. tauto.
Qed.

(** With [--json], a [main] that returns has printed, for each Zappi in
    turn, nothing but the diagnostics of its hourly records, and then one
    JSON document with exactly one entry per Zappi: no count, no table, but
    every diagnostic. *)
Theorem main_json_output (conn : server) (today : Day) (opts : list cli_opt)
    (w w' : world) :
  OptJson ∈ opts →
  main render_total conn today opts w = (OK (), w') →
  ∃ jout,
    trace w' = trace w ++
      mjoin (json_device_events conn (day (parsed today opts))
               <$> zappi_list conn) ++
      [EPrintJson jout] ∧
    ∀ sno, is_Some (jout !! sno) ↔ sno ∈ zappi_list conn.
Proof.
  intros Hopt H. unfold main in H. fold (parsed today opts) in H.
  assert (use_json (parsed today opts) = true) as Hjson
    by (apply parse_json_in; by right).
  apply M_bind_OK in H as (l' & w1 & Hdevs & H).
  apply devices_json_OK in Hdevs as (Htr & Hdom & Hjson'); [|done].
  rewrite Hjson' in H. injection H as <-.
  exists (jout l'). cbn [trace]. split; [by rewrite Htr, <- app_assoc|].
  intros sno. rewrite Hdom.
  unfold parsed. rewrite parse_jout. cbn [jout init_locals].
  rewrite lookup_empty. split; [intros [[? ?]|?]; done|by right].
Qed.

(** With no Zappi, [main] returns: it prints the empty JSON document in
    JSON mode and nothing otherwise, whatever the other options are. *)
Theorem main_no_devices (conn : server) (today : Day) (opts : list cli_opt)
    (w : world) :
  zappi_list conn = [] →
  main render_total conn today opts w
  = (OK (), {| show_headers := show_headers w;
               trace := trace w ++
                 (if use_json (parsed today opts)
                  then [EPrintJson ∅] else []) |}).
Proof.
  intros Hdev. unfold main. fold (parsed today opts). rewrite Hdev.
  erewrite M_bind_run by reflexivity.
  destruct (use_json (parsed today opts)); cbn [when].
  - unfold emit, parsed. by rewrite parse_jout.
  - destruct w as [sh tr]. cbn. by rewrite app_nil_r.
Qed.

(** The report of one device for one day that returns. *)
Lemma device_body_day_OK (conn : server) (l l' : locals) (sno : Z)
    (w w' : world) :
  use_json l = false → show_month l = false →
  device_body render_total conn l sno w = (OK l', w') →
  l' = l ∧
  ∃ data rw,
    load_day render_total conn sno (day l) (hourly l) (totals l) false
      {| show_headers := true; trace := trace w |}
      = (OK (table_headers, data, rw), w') ∧
    trace w' = trace w ++ day_events conn sno (day l) (hourly l) false true data.
Proof.
  intros Hjson Hmonth H. unfold device_body in H. rewrite Hjson, Hmonth in H.
  apply M_bind_OK in H as ([] & w0 & H0 & H). injection H0 as <-.
  apply M_bind_OK in H as ([[hdr data] rw] & w1 & Hday & H).
  injection H as <- <-. split; [done|].
  pose proof (load_day_effects render_total _ _ _ _ _ _ _ _ _ _ _ Hday)
    as [Htr _].
  apply load_day_OK in Hday as Hinv.
  destruct Hinv as (_ & _ & _ & _ & _ & _ & -> & _).
  exists data, rw. split; [done|]. exact Htr.
Qed.

(** Without [--json] and [--show-month], a [main] that returns has printed,
    for each Zappi in turn, the diagnostics of its records, the number of
    records and one table, every table with its headers, the table being
    the one [load_day] returns for that Zappi. *)
Theorem main_day_tables (conn : server) (today : Day) (opts : list cli_opt)
    (w w' : world) :
  OptJson ∉ opts → OptShowMonth ∉ opts →
  main render_total conn today opts w = (OK (), w') →
  let l := parsed today opts in
  ∃ tables,
    Forall2 (fun sno data => ∃ rw w0 w1,
               load_day render_total conn sno (day l) (hourly l) (totals l)
                 false w0 = (OK (table_headers, data, rw), w1))
      (zappi_list conn) tables ∧
    trace w' = trace w ++
      mjoin (zip_with (fun sno data =>
                         day_events conn sno (day l) (hourly l) false true data)
               (zappi_list conn) tables).
Proof.
  intros Hj Hm H l. unfold main in H. fold (parsed today opts) in H. fold l in H.
  assert (use_json l = false) as Hjson by (unfold l, parsed; by rewrite parse_json_notin).
  assert (show_month l = false) as Hmonth
    by (unfold l, parsed; by rewrite parse_month_notin).
  apply M_bind_OK in H as (l' & w1 & Hdevs & H).
  assert (∀ devices w0 l1 w2,
            for_each (device_body render_total conn) l devices w0 = (OK l1, w2) →
            l1 = l ∧
            ∃ tables,
              Forall2 (fun sno data => ∃ rw w0 w1,
                         load_day render_total conn sno (day l) (hourly l)
                           (totals l) false w0 = (OK (table_headers, data, rw), w1))
                devices tables ∧
              trace w2 = trace w0 ++
                mjoin (zip_with (fun sno data =>
                         day_events conn sno (day l) (hourly l) false true data)
                       devices tables)) as Hall.
  { induction devices as [|sno devices IH]; intros w0 l1 w2 Hrun.
    - injection Hrun as <- <-. split; [done|]. exists []. split; [constructor|].
      by rewrite app_nil_r.
    - rewrite for_each_cons in Hrun.
      apply M_bind_OK in Hrun as (l2 & w3 & Hdev & Hrun).
      apply device_body_day_OK in Hdev as (-> & data & rw & Hday & Htr); [|done..].
      apply IH in Hrun as (-> & tables & Htabs & Htr').
      split; [done|]. exists (data :: tables). split.
      + constructor; [|done]. by eexists _, _, _.
      + cbn [zip_with mjoin list_join]. by rewrite Htr', Htr, <- app_assoc. }
  apply Hall in Hdevs as (-> & tables & Htabs & Htr).
  rewrite Hjson in H. injection H as <-.
  by exists tables.
Qed.

(** One day of the month loop that returns. *)
Lemma month_step_OK (conn : server) (sno : Z) (hourly : bool)
    (day day' : Day) (totals totals' : totals_arg)
    (hdrs hdrs' : option (list string)) (all_data all_data' : list row)
    (dom : Z) (w w' : world) :
  month_step render_total conn sno hourly false (day, totals, hdrs, all_data)
    dom w = (OK (day', totals', hdrs', all_data'), w') →
  ∃ data rw,
    load_day render_total conn sno (with_mday day dom) hourly totals false
      {| show_headers := show_headers w; trace := trace w ++ [EPrintDay dom] |}
      = (OK (table_headers, data, rw), w') ∧
    day' = with_mday day dom ∧ totals' = TRow rw ∧
    hdrs' = Some table_headers ∧ all_data' = all_data ++ [rw] ∧
    is_true (TRow rw) = true ∧
    (is_true totals = true → data = [rw]) ∧
    last data = Some rw ∧
    show_headers w' = false ∧
    ∃ evs,
      trace w' = trace w ++ evs ∧
      filter is_table evs
        = [EPrintTable (if show_headers w then Some table_headers else None)
             data].
Proof.
  unfold month_step. intros ([] & w0 & H0 & H)%M_bind_OK. injection H0 as <-.
  apply M_bind_OK in H as ([[hdr data] rw] & w1 & Hday & H).
  injection H as <- <- <- <- <-. fold (with_mday day dom) in Hday |- *.
  pose proof (load_day_effects render_total _ _ _ _ _ _ _ _ _ _ _ Hday)
    as [Htr Hsh].
  pose proof Hday as (prev & pm & rows & w2 & _ & Hrow & -> & Hdata & _)%load_day_inv.
  apply totals_row_OK in Hrow as (cells & Hrw & _).
  exists data, rw. split; [done|]. split; [done|]. split; [done|].
  split; [done|]. split; [done|]. split; [rewrite Hrw; reflexivity|].
  split; [intros Ht; rewrite Hdata, Ht; reflexivity|].
  split; [by rewrite Hdata, last_snoc|]. split; [done|].
  cbn [trace show_headers] in Htr. eexists. split.
  { rewrite Htr, <- app_assoc. reflexivity. }
  cbn [app]. rewrite filter_cons_False by (cbn; tauto).
  rewrite filter_cons_False by (destruct hourly; cbn; tauto).
  by rewrite filter_app, filter_table_diagnostics.
Qed.

Lemma last_seqZ (m n : Z) : 1 ≤ n → last (seqZ m n) = Some (m + n - 1).
Proof.
  intros Hn. rewrite last_lookup, length_seqZ. apply lookup_seqZ. lia.
Qed.

(** The variables of [main] after a month loop that returns. *)
Lemma month_loop_state (conn : server) (sno : Z) (hourly : bool)
    (doms : list Z) :
  ∀ (day day' : Day) (totals totals' : totals_arg)
    (hdrs hdrs' : option (list string)) (all_data all_data' : list row)
    (w w' : world),
  for_each (month_step render_total conn sno hourly false)
    (day, totals, hdrs, all_data) doms w
    = (OK (day', totals', hdrs', all_data'), w') →
  day' = default day (with_mday day <$> last doms) ∧
  (doms ≠ [] → hdrs' = Some table_headers ∧ is_true totals' = true).
Proof.
  induction doms as [|dom doms IH];
    intros day day' totals totals' hdrs hdrs' all_data all_data' w w' H.
  - injection H as <- <- <- <- <-. done.
  - rewrite for_each_cons in H.
    apply M_bind_OK in H as ([[[day1 tot1] hdrs1] data1] & w1 & Hstep & Hrest).
    apply month_step_OK in Hstep
      as (data & rw & _ & -> & -> & -> & -> & Hrw & _).
    destruct doms as [|d doms].
    + injection Hrest as <- <- <- <- <-. done.
    + apply IH in Hrest as (-> & Hne). split; [|intros _; by apply Hne].
      change (last (dom :: d :: doms)) with (last (d :: doms)).
      destruct (last (d :: doms)) as [x|] eqn:Hl; [reflexivity|].
      by apply last_None in Hl.
Qed.

(** The days of the month loop after the first: totals only, no headers. *)
Lemma month_loop_later (conn : server) (sno : Z) (hourly : bool)
    (doms : list Z) :
  ∀ (day day' : Day) (totals totals' : totals_arg)
    (hdrs hdrs' : option (list string)) (all_data all_data' : list row)
    (w w' : world),
  is_true totals = true → show_headers w = false →
  for_each (month_step render_total conn sno hourly false)
    (day, totals, hdrs, all_data) doms w
    = (OK (day', totals', hdrs', all_data'), w') →
  is_true totals' = true ∧
  day' = default day (with_mday day <$> last doms) ∧
  ∃ evs rws,
    trace w' = trace w ++ evs ∧
    all_data' = all_data ++ rws ∧
    length rws = length doms ∧
    filter is_table evs = (fun rw => EPrintTable None [rw]) <$> rws.
Proof.
  induction doms as [|dom doms IH];
    intros day day' totals totals' hdrs hdrs' all_data all_data' w w' Ht Hsh H.
  - injection H as <- <- <- <- <-. split; [done|]. split; [done|].
    exists [], []. by rewrite !app_nil_r.
  - rewrite for_each_cons in H.
    apply M_bind_OK in H as ([[[day1 tot1] hdrs1] data1] & w1 & Hstep & Hrest).
    apply month_step_OK in Hstep
      as (data & rw & _ & -> & -> & -> & -> & Hrw & Hdata & _ & Hsh1 & evs1 & Htr1 & Htab1).
    apply IH in Hrest as (Ht' & -> & evs & rws & Htr & -> & Hlen & Htab); [|done..].
    split; [done|]. split.
    { destruct doms as [|d doms]; [done|].
      change (last (dom :: d :: doms)) with (last (d :: doms)).
      destruct (last (d :: doms)) as [x|] eqn:Hl; [reflexivity|].
      by apply last_None in Hl. }
    exists (evs1 ++ evs), (rw :: rws).
    split; [by rewrite Htr, Htr1, app_assoc|].
    split; [by rewrite <- app_assoc|]. split; [by cbn; rewrite Hlen|].
    rewrite filter_app, Htab1, Htab, Hsh, (Hdata Ht). done.
Qed.

(** The month report of one device that returns. *)
Lemma device_body_month_OK (conn : server) (l l' : locals) (sno : Z)
    (w w' : world) (n : Z) :
  use_json l = false → show_month l = true →
  tm_mday (day l) = VInt n → 1 ≤ n →
  device_body render_total conn l sno w = (OK l', w') →
  (hourly l' = hourly l ∧ use_json l' = false ∧ show_month l' = true ∧
   day l' = with_mday (day l) n ∧ is_true (totals l') = true) ∧
  filter is_fetch (trace w')
    = filter is_fetch (trace w) ++
      ((fun dom => fetch_event (hourly l) sno (with_mday (day l) dom))
         <$> seqZ 1 n) ∧
  ∃ evs first rws,
    trace w' = trace w ++ evs ∧
    filter is_table evs
      = EPrintTable (Some table_headers) first ::
        ((fun rw => EPrintTable None [rw]) <$> tail rws) ++
        [EPrintTable (Some table_headers) rws] ∧
    length rws = Z.to_nat n ∧
    last first = head rws ∧
    (is_true (totals l) = true → length first = 1%nat).
Proof.
  intros Hjson Hmonth Hday Hn H. unfold device_body in H.
  rewrite Hjson, Hmonth, Hday in H.
  apply M_bind_OK in H as ([] & w0 & H0 & H). injection H0 as <-.
  apply M_bind_OK in H as (stop & w1 & Hstop & H). injection Hstop as <- <-.
  replace (n + 1 - 1) with n in H by lia.
  apply M_bind_OK in H as ([[[day1 tot1] hdrs1] all_data] & w2 & Hloop & H).
  pose proof (month_loop_OK render_total _ _ _ _ _ _ _ _ _ _ _ _ _ _ _ Hloop)
    as (Hfetch & _).
  pose proof Hloop as Hloop0.
  rewrite (seqZ_cons 1 n) in Hloop by lia. rewrite for_each_cons in Hloop.
  apply M_bind_OK in Hloop as ([[[day2 tot2] hdrs2] data2] & w3 & Hstep & Hrest).
  apply month_step_OK in Hstep
    as (first & rw & _ & -> & -> & -> & -> & Hrw & Hdata & Hlast & Hsh & evs1 & Htr1 & Htab1).
  apply month_loop_later in Hrest
    as (Ht' & -> & evs & rws & Htr & -> & Hlen & Htab); [|done..].
  cbn [show_headers] in Htab1.
  destruct (month_loop_state _ _ _ _ _ _ _ _ _ _ _ _ _ _ Hloop0)
    as (Hday1 & Hstate).
  destruct Hstate as (-> & Htot1).
  { rewrite (seqZ_cons 1 n) by lia. done. }
  rewrite (last_seqZ 1 n Hn) in Hday1. cbn [fmap option_fmap option_map default] in Hday1.
  replace (1 + n - 1) with n in Hday1 by lia.
  apply M_bind_OK in H as (hdrs & w4 & Hh & H). injection Hh as <- <-.
  apply M_bind_OK in H as ([] & w5 & Hprint & H).
  injection Hprint as <-. injection H as <- <-.
  cbn [hourly use_json show_month day totals set_month_headers set_totals set_day
       trace].
  split; [by rewrite Hjson, Hmonth, Hday1|].
  split; [by rewrite filter_app, Hfetch, app_nil_r|].
  exists (evs1 ++ evs ++ [EPrintTable (Some table_headers) (rw :: rws)]),
    first, (rw :: rws).
  split; [by rewrite Htr, Htr1, <- !app_assoc|].
  split; [by rewrite !filter_app, Htab1, Htab|].
  split.
  { cbn [length]. rewrite Hlen, length_seqZ. lia. }
  split; [done|]. intros Ht. by rewrite (Hdata Ht).
Qed.


(** The tables of a month report.  For a target day [n] of at least 1, the
    report of a device prints the table of day 1 with the headers, then for
    each later day a table without headers that holds the totals row alone,
    whatever [--totals] says, and at last the month table, with the headers
    and one row per day; afterwards the variable [totals] holds a totals
    row, so that the devices that follow print totals only from day 1 on. *)
Theorem month_report_tables (conn : server) (l l' : locals) (sno : Z)
    (w w' : world) (n : Z) :
  use_json l = false → show_month l = true →
  tm_mday (day l) = VInt n → 1 ≤ n →
  device_body render_total conn l sno w = (OK l', w') →
  is_true (totals l') = true ∧
  ∃ evs first rws,
    trace w' = trace w ++ evs ∧
    filter is_table evs
      = EPrintTable (Some table_headers) first ::
        ((fun rw => EPrintTable None [rw]) <$> tail rws) ++
        [EPrintTable (Some table_headers) rws] ∧
    length rws = Z.to_nat n ∧
    last first = head rws ∧
    (is_true (totals l) = true → length first = 1%nat).
Proof.
  intros Hjson Hmonth Hday Hn H.
  destruct (device_body_month_OK conn l l' sno w w' n Hjson Hmonth Hday Hn H)
    as ((_ & _ & _ & _ & Ht) & _ & Htables).
  by split.
Qed.

(** The month report of every device covers the same days: with a target
    day [n] of at least 1, a [main] that returns has called the server, for
    each Zappi in turn, for the days 1 to [n] in order, although the loop
    over the days overwrites the day of [main]. *)
Theorem main_month_fetches (conn : server) (today : Day) (opts : list cli_opt)
    (w w' : world) (n : Z) :
  OptJson ∉ opts → OptShowMonth ∈ opts →
  tm_mday (day (parsed today opts)) = VInt n → 1 ≤ n →
  main render_total conn today opts w = (OK (), w') →
  let l := parsed today opts in
  filter is_fetch (trace w')
  = filter is_fetch (trace w) ++
    mjoin ((fun sno =>
              (fun dom => fetch_event (hourly l) sno (with_mday (day l) dom))
                <$> seqZ 1 n) <$> zappi_list conn).
Proof.
  intros Hj Hm Hday Hn H l. unfold main in H. fold (parsed today opts) in H.
  fold l in H, Hday.
  assert (use_json l = false) as Hjson
    by (unfold l, parsed; by rewrite parse_json_notin).
  assert (show_month l = true) as Hmonth
    by (unfold l, parsed; apply parse_month_in; by right).
  apply M_bind_OK in H as (l' & w1 & Hdevs & H).
  assert (∀ devices l0 w0 l1 w2,
            hourly l0 = hourly l → use_json l0 = false → show_month l0 = true →
            tm_mday (day l0) = VInt n →
            (∀ d, with_mday (day l0) d = with_mday (day l) d) →
            for_each (device_body render_total conn) l0 devices w0 = (OK l1, w2) →
            use_json l1 = false ∧
            filter is_fetch (trace w2)
            = filter is_fetch (trace w0) ++
              mjoin ((fun sno =>
                        (fun dom => fetch_event (hourly l) sno (with_mday (day l) dom))
                          <$> seqZ 1 n) <$> devices)) as Hall.
  { induction devices as [|sno devices IH];
      intros l0 w0 l1 w2 Hh Hj0 Hm0 Hd0 Hwith Hrun.
    - injection Hrun as <- <-. by rewrite app_nil_r.
    - rewrite for_each_cons in Hrun.
      apply M_bind_OK in Hrun as (l2 & w3 & Hdev & Hrun).
      apply (device_body_month_OK conn l0 l2 sno w0 w3 n) in Hdev
        as ((Hh2 & Hj2 & Hm2 & Hd2 & _) & Hfetch & _); [|done..].
      apply IH in Hrun as (Hj1 & Hfetch1).
      + split; [done|]. rewrite Hfetch1, Hfetch, Hh.
        cbn [fmap list_fmap mjoin list_join]. rewrite <- app_assoc.
        do 2 f_equal. apply list_fmap_ext. intros _ d _. by rewrite Hwith.
      + congruence.
      + done.
      + done.
      + by rewrite Hd2.
      + intros d. rewrite Hd2. apply Hwith. }
  apply Hall in Hdevs as (Hj1 & Hfetch); [|done..].
  rewrite Hj1 in H. injection H as <-. exact Hfetch.
Qed.

End MainProperties.

(** * The time label and the diagnostic *)

Lemma length_append (s1 s2 : string) :
  String.length (s1 +:+ s2) = (String.length s1 + String.length s2)%nat.
Proof.
  induction s1 as [|c s1 IH]; [done|].
  change (S (String.length (s1 +:+ s2))
          = S (String.length s1 + String.length s2)).
  by rewrite IH.
Qed.

Lemma fmt02_width (z : Z) : 0 ≤ z < 100 → String.length (fmt02 z) = 2%nat.
Proof.
  intros Hz.
  assert (Forall (fun z => String.length (fmt02 z) = 2%nat) (seqZ 0 100)) as Hall
    by compute_done.
  rewrite Forall_seqZ in Hall. apply Hall. lia.
Qed.

(** The time label of a row has the five characters of [HH:MM] for every
    hour and minute from 0 to 99, so for every time of day. *)
Theorem time_label_width (hour minute : Z) :
  0 ≤ hour < 100 → 0 ≤ minute < 100 →
  String.length (time_label hour minute) = 5%nat.
Proof.
  intros Hh Hm. unfold time_label.
  rewrite !length_append, !fmt02_width by done. reflexivity.
Qed.

(** A record that has been processed is followed by a diagnostic exactly
    when one of its fields was not consumed: a field the loop does not know,
    or a secondary field that does not repeat its channel. *)
Theorem diagnostic_iff_unconsumed (hourly : bool)
    (st st' : Z * gmap string PowerMeter.t * list row)
    (rec : raw_record) (w w' : world) :
  record_step hourly st rec w = (OK st', w') →
  (trace w' = trace w ↔ ∀ k, is_Some (rec !! k) → consumed rec k = true) ∧
  (trace w' = trace w ∨ trace w' = trace w ++ [EPrintRec (leftover rec)]).
Proof.
  destruct st as [[prev pm] data], st' as [[prev' pm'] data'].
  intros (rw & _ & _ & _ & ->)%record_step_OK.
  unfold diagnostics. cbn [omap list_omap].
  assert (leftover rec = ∅ ↔ ∀ k, is_Some (rec !! k) → consumed rec k = true)
    as Hempty.
  { rewrite map_empty. split.
    - intros Hall k [v Hk]. specialize (Hall k). rewrite leftover_lookup in Hall.
      destruct (consumed rec k); [done|congruence].
    - intros Hall k. rewrite leftover_lookup.
      destruct (rec !! k) as [v|] eqn:Hk; [|by destruct (consumed rec k)].
      by rewrite Hall. }
  destruct (bool_decide_reflect (leftover rec = ∅)) as [He|Hne].
  - rewrite app_nil_r. split; [|by left]. split; [by intros _; apply Hempty|done].
  - split; [|by right]. split.
    + intros Heq. exfalso.
      apply (f_equal length) in Heq. rewrite length_app in Heq. cbn in Heq. lia.
    + intros Hall. exfalso. apply Hne. by apply Hempty.
Qed.

(** * More examples *)

(** Closes a branch in which a sample run would have raised. *)
Ltac run_returns H :=
  exfalso;
  lazymatch type of H with
  | ?t = (inl _, _) =>
      let Hok := fresh "Hok" in
      assert ((_ ← t.1; OK ()) = OK ()) as Hok by (vm_compute; reflexivity);
      rewrite H in Hok; discriminate Hok
  | ?t = inl _ =>
      let Hok := fresh "Hok" in
      assert ((_ ← t; OK ()) = OK ()) as Hok by (vm_compute; reflexivity);
      rewrite H in Hok; discriminate Hok
  end.

Lemma load_day_prints_witness :
  ∃ hdr data rw w',
    load_day sample_render sample_server 10000001 today true (TFlag false) false
      start = (OK (hdr, data, rw), w') ∧
    trace w' = [EGetHour 10000001 today; EPrintCount 1;
                EPrintTable (Some table_headers) data] ∧
    show_headers w' = false.
Proof.
  destruct (load_day sample_render sample_server 10000001 today true
              (TFlag false) false start) as [[e|[[hdr data] rw]] w'] eqn:Hday;
    [run_returns Hday|].
  destruct (load_day_prints sample_render sample_server 10000001 today true
              (TFlag false) false start w' hdr data rw Hday) as [Htr Hsh].
  exists hdr, data, rw, w'. split; [reflexivity|]. split; [|exact Hsh].
  rewrite Htr. vm_compute. reflexivity.
Defined.

Lemma load_day_table_shape_witness :
  ∃ hdr data rw w',
    load_day sample_render sample_server 10000001 today true (TFlag false) false
      start = (OK (hdr, data, rw), w') ∧
    length data = 2%nat ∧ Forall (fun r : row => length r = length hdr) data.
Proof.
  destruct (load_day sample_render sample_server 10000001 today true
              (TFlag false) false start) as [[e|[[hdr data] rw]] w'] eqn:Hday;
    [run_returns Hday|].
  destruct (load_day_table_shape sample_render sample_server 10000001 today
              true (TFlag false) false start w' hdr data rw Hday)
    as (_ & Hlen & _ & Hwidth).
  exists hdr, data, rw, w'. split; [reflexivity|]. split; [exact Hlen|exact Hwidth].
Defined.

Lemma load_day_durations_witness :
  ∃ hdr data rw w',
    load_day sample_render sample_server 10000001 today false (TFlag false)
      false start = (OK (hdr, data, rw), w') ∧
    (fun r : row => r !! 1%nat) <$> firstn 1 data = [Some (CInt 120)].
Proof.
  destruct (load_day sample_render sample_server 10000001 today false
              (TFlag false) false start) as [[e|[[hdr data] rw]] w'] eqn:Hday;
    [run_returns Hday|].
  destruct (load_day_durations sample_render sample_server 10000001 today
              false (TFlag false) false start w' hdr data rw Hday eq_refl)
    as (_ & Hdur & _).
  exists hdr, data, rw, w'. split; [reflexivity|]. exact Hdur.
Defined.

Lemma load_day_errors_witness :
  ∃ e w',
    load_day sample_render broken_server 10000001 today true (TFlag false) false
      start = (inl e, w') ∧
    ((∃ k, e = KeyError k ∧ k ∈ calendar_keys) ∨
     (e = ZeroDivisionError ∧ true = false) ∨
     e = OverflowError ∨ e = ValueError).
Proof.
  destruct (load_day sample_render broken_server 10000001 today true
              (TFlag false) false start) as [[e|r] w'] eqn:Hday.
  - exists e, w'. split; [reflexivity|].
    exact (load_day_errors sample_render broken_server 10000001 today true
             (TFlag false) false start w' e Hday).
  - exfalso.
    assert (match (load_day sample_render broken_server 10000001 today true
                     (TFlag false) false start).1 with
            | inl _ => true
            | inr _ => false
            end = true) as Hfails by (vm_compute; reflexivity).
    rewrite Hday in Hfails. discriminate Hfails.
Defined.

Lemma load_day_requires_calendar_witness :
  ∃ hdr data rw w',
    load_day sample_render sample_server 10000001 today true (TFlag false) false
      start = (OK (hdr, data, rw), w') ∧
    is_Some (half_watt_record !! "dow").
Proof.
  destruct (load_day sample_render sample_server 10000001 today true
              (TFlag false) false start) as [[e|[[hdr data] rw]] w'] eqn:Hday;
    [run_returns Hday|].
  exists hdr, data, rw, w'. split; [reflexivity|].
  apply (load_day_requires_calendar sample_render sample_server 10000001 today
           true (TFlag false) false start w' hdr data rw Hday).
  - by left.
  - by left.
Defined.

Lemma load_day_missing_calendar_witness :
  ∃ k',
    k' ∈ calendar_keys ∧ undated_record !! k' = None ∧
    load_day sample_render broken_server 10000001 today true (TFlag false) false
      start
    = (Raise (KeyError k'),
       {| show_headers := true; trace := [EGetHour 10000001 today] |}).
Proof.
  apply (load_day_missing_calendar sample_render broken_server 10000001 today
           true (TFlag false) false start undated_record [half_watt_record]
           "dow").
  - reflexivity.
  - by left.
  - reflexivity.
Defined.

Lemma load_day_zero_voltage_witness :
  load_day sample_render broken_server 10000001 today false (TFlag false) false
    start
  = (Raise ZeroDivisionError,
     {| show_headers := true; trace := [EGetMinute 10000001 today] |}).
Proof.
  apply (load_day_zero_voltage sample_render broken_server 10000001 today
           (TFlag false) false start dead_record [] "imp").
  - reflexivity.
  - intros k Hk. unfold calendar_keys in Hk.
    split_elem Hk; eexists; vm_compute; reflexivity.
  - reflexivity.
  - by left.
  - eexists. vm_compute. reflexivity.
  - intros k v Hk Hv. unfold headers in Hk.
    split_elem Hk; vm_compute in Hv; try discriminate Hv.
    injection Hv as <-. eexists. vm_compute. reflexivity.
Defined.

Lemma hourly_ignores_voltage_witness :
  outcome (record_body true (-3600) (seeded (-3600)) dead_record)
  = outcome (record_body true (-3600) (seeded (-3600)) (delete "v1" dead_record)).
Proof.
  apply (hourly_ignores_voltage (-3600) (seeded (-3600)) dead_record (NFloat 0)).
  vm_compute. reflexivity.
Defined.

Lemma main_json_output_witness :
  ∃ w' jout,
    main sample_render drifted_server today [OptJson] start = (OK (), w') ∧
    trace w' = [EGetHour 10000001 today; EPrintRec (leftover drifted_record);
                EPrintJson jout].
Proof.
  destruct (main sample_render drifted_server today [OptJson] start)
    as [[e|[]] w'] eqn:Hmain; [run_returns Hmain|].
  destruct (main_json_output sample_render drifted_server today [OptJson]
              start w') as (jout & Htr & _); [by left|exact Hmain|].
  exists w', jout. split; [reflexivity|]. rewrite Htr. vm_compute. reflexivity.
Defined.

Lemma main_no_devices_witness :
  main sample_render no_zappi_server today [OptDay "5"; OptShowMonth] start
  = (OK (), start).
Proof.
  apply (main_no_devices sample_render no_zappi_server today
           [OptDay "5"; OptShowMonth] start).
  reflexivity.
Defined.

Lemma main_day_tables_witness :
  ∃ w' tables,
    main sample_render sample_server today [] start = (OK (), w') ∧
    trace w' = mjoin (zip_with (fun sno data =>
                        day_events sample_server sno today true false true data)
                      [10000001] tables).
Proof.
  destruct (main sample_render sample_server today [] start)
    as [[e|[]] w'] eqn:Hmain; [run_returns Hmain|].
  destruct (main_day_tables sample_render sample_server today [] start w')
    as (tables & _ & Htr).
  - intros H. by apply elem_of_nil in H.
  - intros H. by apply elem_of_nil in H.
  - exact Hmain.
  - exists w', tables. split; [reflexivity|]. exact Htr.
Defined.

Lemma month_report_tables_witness :
  ∃ l' w',
    device_body sample_render sample_server (parsed today [OptShowMonth])
      10000001 start = (OK l', w') ∧
    is_true (totals l') = true.
Proof.
  destruct (device_body sample_render sample_server
              (parsed today [OptShowMonth]) 10000001 start)
    as [[e|l'] w'] eqn:Hdev; [run_returns Hdev|].
  destruct (month_report_tables sample_render sample_server
              (parsed today [OptShowMonth]) l' 10000001 start w' 3
              eq_refl eq_refl eq_refl) as (Ht & _); [lia|exact Hdev|].
  exists l', w'. split; [reflexivity|exact Ht].
Defined.

Lemma main_month_fetches_witness :
  ∃ w',
    main sample_render two_zappi_server today [OptShowMonth] start = (OK (), w') ∧
    filter is_fetch (trace w')
    = [EGetHour 10000001 (with_mday today 1);
       EGetHour 10000001 (with_mday today 2);
       EGetHour 10000001 (with_mday today 3);
       EGetHour 10000002 (with_mday today 1);
       EGetHour 10000002 (with_mday today 2);
       EGetHour 10000002 (with_mday today 3)].
Proof.
  destruct (main sample_render two_zappi_server today [OptShowMonth] start)
    as [[e|[]] w'] eqn:Hmain; [run_returns Hmain|].
  exists w'. split; [reflexivity|].
  rewrite (main_month_fetches sample_render two_zappi_server today
             [OptShowMonth] start w' 3).
  - reflexivity.
  - intros H. apply elem_of_cons in H as [H|H]; [discriminate H|].
    by apply elem_of_nil in H.
  - by left.
  - reflexivity.
  - lia.
  - exact Hmain.
Defined.

Lemma time_label_width_witness : String.length (time_label 23 59) = 5%nat.
Proof. apply (time_label_width 23 59); lia. Defined.

Lemma diagnostic_iff_unconsumed_witness :
  ∃ st' w',
    record_step true (-3600, seeded (-3600), []) drifted_record start
      = (OK st', w') ∧
    trace w' = [EPrintRec (leftover drifted_record)].
Proof.
  destruct (record_step true (-3600, seeded (-3600), []) drifted_record start)
    as [[e|st'] w'] eqn:Hstep; [run_returns Hstep|].
  destruct (diagnostic_iff_unconsumed true (-3600, seeded (-3600), []) st'
              drifted_record start w' Hstep) as ([Hall _] & [Hsame|Hdiag]).
  - exfalso. specialize (Hall Hsame "zzz"). 
    assert (consumed drifted_record "zzz" = true) as Hc
      by (apply Hall; eexists; vm_compute; reflexivity).
    vm_compute in Hc. discriminate Hc.
  - exists st', w'. split; [reflexivity|exact Hdiag].
Defined.

(** * The options *)

Lemma parsed_snoc (today : Day) (opts : list cli_opt) (o : cli_opt) :
  parsed today (opts ++ [o]) = opt_step (parsed today opts) o.
Proof. unfold parsed. by rewrite foldl_app. Qed.

Lemma last_given_snoc (dflt : pyval) (values : list string) (v : string) :
  last_given dflt (values ++ [v]) = VStr v.
Proof. unfold last_given. by rewrite last_snoc. Qed.

(** What the options leave in the variables of [main]: each flag is set
    exactly when its option occurs, wherever and however often; [--day],
    [--month] and [--year] keep the value of their last occurrence, as a
    string, and the fields of today otherwise. *)
Theorem parsed_options (today : Day) (opts : list cli_opt) :
  let l := parsed today opts in
  (hourly l = false ↔ OptPerMinute ∈ opts) ∧
  (use_json l = true ↔ OptJson ∈ opts) ∧
  (show_month l = true ↔ OptShowMonth ∈ opts) ∧
  (totals l = TFlag true ↔ OptTotals ∈ opts) ∧
  (totals l = TFlag false ↔ OptTotals ∉ opts) ∧
  tm_mday (day l) = last_given (tm_mday today) (omap day_value opts) ∧
  tm_mon (day l) = last_given (tm_mon today) (omap month_value opts) ∧
  tm_year (day l) = last_given (tm_year today) (omap year_value opts).
Proof.
  induction opts as [|o opts IH] using rev_ind.
  - cbn. repeat split; try done; try (by intros ?%elem_of_nil);
      try (by intros _ ?%elem_of_nil).
  - cbn zeta in IH |- *. rewrite parsed_snoc.
    destruct IH as (Hh & Hj & Hm & Ht & Hf & Hd & Hmo & Hy).
    rewrite !omap_app. setoid_rewrite elem_of_app.
    setoid_rewrite list_elem_of_singleton.
    destruct o; cbn [opt_step hourly use_json show_month totals day set_hourly
                     set_totals set_day set_show_month set_use_json
                     tm_mday tm_mon tm_year omap list_omap day_value
                     month_value year_value];
      rewrite ?app_nil_r, ?last_given_snoc;
      repeat split; try done; try tauto;
      try (intros [?|?]; [tauto|done]); try (intros ?; by right);
      try (intros [?|?]; [tauto|congruence]);
      try (intros H [?|?]; [tauto|congruence]);
      try (intros H; apply Hf; tauto).
Qed.

(** * The JSON mode and the other flags *)

Lemma opt_step_json_same (l1 l2 : locals) (o : cli_opt) :
  json_same l1 l2 → json_same (opt_step l1 o) (opt_step l2 o).
Proof.
  intros (Hj & Hd & Ho). destruct o; unfold json_same; cbn; rewrite ?Hd; done.
Qed.

Lemma opt_step_flag_json_same (l1 l2 : locals) (o : cli_opt) :
  is_table_flag o = true → json_same l1 l2 → json_same (opt_step l1 o) l2.
Proof. intros Hf (Hj & Hd & Ho). by destruct o. Qed.

Lemma parse_json_same (opts : list cli_opt) :
  ∀ l1 l2, json_same l1 l2 →
  json_same (foldl opt_step l1 opts)
            (foldl opt_step l2 (filter (fun o => is_table_flag o = false) opts)).
Proof.
  induction opts as [|o opts IH]; intros l1 l2 H; [done|].
  cbn [foldl]. destruct (is_table_flag o) eqn:Hf.
  - rewrite filter_cons_False by (by rewrite Hf).
    apply IH. by apply opt_step_flag_json_same.
  - rewrite filter_cons_True by done. cbn [foldl].
    apply IH. by apply opt_step_json_same.
Qed.

Section JsonFlags.

Variable render_total : num → string.

Lemma device_body_json_same (conn : server) (l1 l2 : locals) (sno : Z)
    (w : world) :
  json_same l1 l2 → use_json l1 = true →
  (device_body render_total conn l1 sno w).2
  = (device_body render_total conn l2 sno w).2 ∧
  match (device_body render_total conn l1 sno w).1,
        (device_body render_total conn l2 sno w).1 with
  | inl e1, inl e2 => e1 = e2
  | inr a, inr b => json_same a b
  | _, _ => False
  end.
Proof.
  intros (Hj & Hd & Ho) Hjson.
  rewrite !device_body_json by congruence. rewrite Hd, !M_bind_unfold.
  destruct (load_day _ _ _ _ _ _ _ _) as [[e|[[hdr data] rw]] w1]; [done|].
  rewrite !M_bind_unfold. cbn [lift].
  destruct (json_loop hdr rw ∅) as [e|[rest raw]]; [done|].
  cbn. split; [done|]. unfold json_same. cbn. by rewrite Hj, Hd, Ho.
Qed.

Lemma devices_json_same (conn : server) (devices : list Z) :
  ∀ (l1 l2 : locals) (w : world),
  json_same l1 l2 → use_json l1 = true →
  (for_each (device_body render_total conn) l1 devices w).2
  = (for_each (device_body render_total conn) l2 devices w).2 ∧
  match (for_each (device_body render_total conn) l1 devices w).1,
        (for_each (device_body render_total conn) l2 devices w).1 with
  | inl e1, inl e2 => e1 = e2
  | inr a, inr b => json_same a b
  | _, _ => False
  end.
Proof.
  induction devices as [|sno devices IH]; intros l1 l2 w Hsame Hjson; [done|].
  rewrite !for_each_cons, !M_bind_unfold.
  destruct (device_body_json_same conn l1 l2 sno w Hsame Hjson) as [Hw Hr].
  destruct (device_body render_total conn l1 sno w) as [[e1|a] w1] eqn:H1,
           (device_body render_total conn l2 sno w) as [[e2|b] w2] eqn:H2;
    cbn [fst snd] in Hw, Hr; try done; subst.
  apply IH; [done|]. by eapply device_body_json_keeps.
Qed.

(** With [--json], the options [--per-minute], [--totals] and
    [--show-month] are ignored: [main] does what it does without them. *)
Theorem json_ignores_flags (conn : server) (today : Day)
    (opts : list cli_opt) (w : world) :
  OptJson ∈ opts →
  main render_total conn today opts w
  = main render_total conn today
      (filter (fun o => is_table_flag o = false) opts) w.
Proof.
  intros Hopt. unfold main. rewrite !M_bind_unfold.
  pose proof (parse_json_same opts (init_locals today) (init_locals today))
    as Hsame.
  assert (use_json (foldl opt_step (init_locals today) opts) = true) as Hjson
    by (apply parse_json_in; by right).
  destruct (devices_json_same conn (zappi_list conn) _ _ w
              (Hsame (conj eq_refl (conj eq_refl eq_refl))) Hjson) as [Hw Hr].
  destruct (for_each _ (foldl opt_step (init_locals today) opts) _ w)
    as [[e1|a] w1],
    (for_each _ (foldl opt_step (init_locals today) (filter _ opts)) _ w)
    as [[e2|b] w2];
    cbn [fst snd] in Hw, Hr; try done; subst; [done|].
  destruct Hr as (Hj & _ & Ho). by rewrite Hj, Ho.
Qed.

End JsonFlags.

Lemma json_ignores_flags_witness :
  main sample_render sample_server today
    [OptShowMonth; OptJson; OptTotals; OptPerMinute] start
  = main sample_render sample_server today [OptJson] start.
Proof.
  apply (json_ignores_flags sample_render sample_server today
           [OptShowMonth; OptJson; OptTotals; OptPerMinute] start).
  right. by left.
Defined.

(** * The seed of the meters and the first sample *)

Section FirstSample.

Variable render_total : num → string.


End FirstSample.


(** * The calls of the JSON mode *)

Section JsonCalls.

Variable render_total : num → string.

(** The JSON report of a device asks the server for the hourly data of the
    device once, whether it returns or raises. *)
Lemma device_body_json_fetch (conn : server) (l : locals) (sno : Z)
    (w w' : world) (r : result locals) :
  use_json l = true →
  device_body render_total conn l sno w = (r, w') →
  filter is_fetch (trace w')
  = filter is_fetch (trace w) ++ [EGetHour sno (day l)].
Proof.
  intros Hj. rewrite device_body_json by done. rewrite M_bind_unfold.
  destruct (load_day _ _ _ _ _ _ _ _) as [[e|[[hdr data] rw]] w1] eqn:Hday;
    apply load_day_fetches in Hday; cbn [trace fetch_event] in Hday.
  - by intros [= <- <-].
  - rewrite M_bind_unfold. cbn [lift].
    destruct (json_loop hdr rw ∅) as [e|[rest raw]]; by intros [= <- <-].
Qed.

Lemma devices_json_fetches (conn : server) (devices : list Z) :
  ∀ (l : locals) (w w' : world) (r : result locals),
  use_json l = true →
  for_each (device_body render_total conn) l devices w = (r, w') →
  ∃ called,
    called `prefix_of` devices ∧
    filter is_fetch (trace w')
    = filter is_fetch (trace w) ++
      ((fun sno => EGetHour sno (day l)) <$> called) ∧
    (∀ l', r = OK l' → called = devices).
Proof.
  induction devices as [|sno devices IH]; intros l w w' r Hj H.
  - injection H as <- <-. exists []. by rewrite app_nil_r.
  - rewrite for_each_cons, M_bind_unfold in H.
    destruct (device_body render_total conn l sno w) as [[e|l1] w1] eqn:Hdev.
    + injection H as <- <-. exists [sno].
      split; [apply prefix_cons, prefix_nil|].
      split; [by eapply device_body_json_fetch|]. by intros l'.
    + pose proof (device_body_json_fetch _ _ _ _ _ _ Hj Hdev) as Htr1.
      apply device_body_json_OK in Hdev as (_ & _ & Hj1 & Hd1); [|done].
      destruct (IH _ _ _ _ Hj1 H) as (called & Hp & Htr & Hall).
      exists (sno :: called). split; [by apply prefix_cons|].
      split; [|by intros l' ->%Hall].
      rewrite Htr, Htr1, Hd1. cbn [fmap list_fmap]. by rewrite <- app_assoc.
Qed.

(** In JSON mode the loop over the devices is the loop of the calls
    [load_day(server_conn, sno, day, True, True, True)], with the day of
    the options for every device. *)
Lemma devices_json_calls (conn : server) (d : Day) (devices : list Z) :
  ∀ (l : locals) (w : world), use_json l = true → day l = d →
  for_each (device_body render_total conn) l devices w =
  for_each (fun l sno =>
              _ ← set_show_headers true;
              '(header, _, totals) ←
                load_day render_total conn sno d true (TFlag true) true;
              '(totals, raw) ← lift (json_loop header totals ∅);
              mret (set_jout (<[sno := raw]> (jout l))
                      (set_totals (TRow totals) l)))
    l devices w.
Proof.
  induction devices as [|sno devices IH]; intros l w Hj Hd; [done|].
  match goal with |- _ = for_each ?f _ _ _ => set (body := f) end.
  rewrite !for_each_cons, !M_bind_unfold.
  assert (body l sno w = device_body render_total conn l sno w) as ->
    by (unfold body, device_body; rewrite Hj, Hd; reflexivity).
  destruct (device_body render_total conn l sno w) as [[e|l1] w1] eqn:Hdev;
    [done|].
  apply device_body_json_OK in Hdev as (_ & _ & Hj1 & Hd1); [|done].
  apply IH; congruence.
Qed.

(** C9.  With [--json], whatever the other options are, [--per-minute]
    included, [main] is the loop that calls, for every Zappi in turn,
    [load_day(server_conn, sno, day, True, True, True)] with the day of the
    options, renders the totals it returns and at last prints the document.
    So the calls [main] makes to the server are calls for hourly data, one
    for each Zappi in order, up to the device whose report raises, and for
    all of them when [main] returns. *)
Theorem json_mode_hourly_totals (conn : server) (today : Day)
    (opts : list cli_opt) (w : world) :
  OptJson ∈ opts →
  main render_total conn today opts w =
    (l ← for_each (fun l sno =>
                     _ ← set_show_headers true;
                     '(header, _, totals) ←
                       load_day render_total conn sno
                         (day (parsed today opts)) true (TFlag true) true;
                     '(totals, raw) ← lift (json_loop header totals ∅);
                     mret (set_jout (<[sno := raw]> (jout l))
                             (set_totals (TRow totals) l)))
           (parsed today opts) (zappi_list conn);
     emit (EPrintJson (jout l))) w ∧
  ∀ r w', main render_total conn today opts w = (r, w') →
    ∃ called,
      called `prefix_of` zappi_list conn ∧
      filter is_fetch (trace w')
      = filter is_fetch (trace w) ++
        ((fun sno => EGetHour sno (day (parsed today opts))) <$> called) ∧
      (r = OK () → called = zappi_list conn).
Proof.
  intros Hopt.
  assert (use_json (parsed today opts) = true) as Hj
    by (apply parse_json_in; by right).
  unfold main. fold (parsed today opts). split.
  - rewrite !M_bind_unfold.
    rewrite <- (devices_json_calls conn (day (parsed today opts))
                  (zappi_list conn) (parsed today opts) w Hj eq_refl).
    destruct (for_each _ _ _ w) as [[e|l1] w1] eqn:Hdevs; [done|].
    apply devices_json_OK in Hdevs as (_ & _ & Hj1); [|done]. by rewrite Hj1.
  - intros r w' H. rewrite M_bind_unfold in H.
    destruct (for_each _ _ _ w) as [[e|l1] w1] eqn:Hdevs.
    + injection H as <- <-.
      destruct (devices_json_fetches _ _ _ _ _ _ Hj Hdevs)
        as (called & Hp & Htr & _).
      exists called. by repeat split.
    + destruct (devices_json_fetches _ _ _ _ _ _ Hj Hdevs)
        as (called & Hp & Htr & Hall).
      apply devices_json_OK in Hdevs as (_ & _ & Hj1); [|done].
      rewrite Hj1 in H. injection H as <- <-.
      exists called. split; [done|]. split; [|intros _; by eapply Hall].
      cbn [trace]. by rewrite filter_app, Htr, app_nil_r.
Qed.

End JsonCalls.

(** With [--per-minute --json] and two Zappis, [main] returns and has asked
    for the hourly data of both, and for nothing else. *)
Lemma json_mode_hourly_totals_witness :
  ∃ w',
    main sample_render two_zappi_server today [OptPerMinute; OptJson] start
      = (OK (), w') ∧
    filter is_fetch (trace w')
    = [EGetHour 10000001 today; EGetHour 10000002 today].
Proof.
  destruct (main sample_render two_zappi_server today [OptPerMinute; OptJson]
              start) as [[e|[]] w'] eqn:Hmain.
  { exfalso.
    assert ((_ ← (main sample_render two_zappi_server today
                    [OptPerMinute; OptJson] start).1; OK ()) = OK ())
      as Hok by (vm_compute; reflexivity).
    rewrite Hmain in Hok. discriminate. }
  exists w'. split; [reflexivity|].
  destruct (json_mode_hourly_totals sample_render two_zappi_server today
              [OptPerMinute; OptJson] start) as [_ Hf].
  { right. by left. }
  destruct (Hf _ _ Hmain) as (called & _ & Htr & Hall).
  rewrite Htr, (Hall eq_refl). reflexivity.
Defined.
